(** * Self-healing compiler pipeline: extraction chain, error classifier,
      prompt builder and job controller.

    Shallow embedding of
    - [modules/extraction/strategies.go] (the extraction chain),
    - [classifyGoError] of the Go compiler backend,
    - [RunCompilationJob], [buildPrompt], [truncate] of the job controller,
    - the types and limits of the controller package.

    Go strings are byte sequences: they are modelled by [string] (one
    [ascii] per byte), [len] by [String.length].  Go [int] is modelled by
    [Z]; the counters of this program stay far away from the 64-bit
    bounds.  External collaborators (the model client, the compile
    backends, the clock and the cancellation signal) are an explicit
    environment. *)

From Stdlib Require Import String Ascii List ZArith Lia Bool Arith.
From Stdlib Require Import DecimalString.
Import ListNotations.
Local Open Scope string_scope.
Local Open Scope nat_scope.

(* ====================================================================== *)
(** * Go's [strings] package, as far as the program uses it               *)
(* ====================================================================== *)

Module GoStrings.

(** Line feed and the double quote, which string literals cannot hold. *)
Definition nl : string := String "010"%char "".
Definition dq : string := String "034"%char "".

Definition backtick : ascii := "096"%char.

Fixpoint take (n : nat) (s : string) : string :=
  match n, s with
  | S k, String c s' => String c (take k s')
  | _, _ => ""
  end.

Fixpoint drop (n : nat) (s : string) : string :=
  match n, s with
  | S k, String _ s' => drop k s'
  | _, _ => s
  end.

Fixpoint rev_onto (s acc : string) : string :=
  match s with
  | "" => acc
  | String c s' => rev_onto s' (String c acc)
  end.

Definition rev (s : string) : string := rev_onto s "".

(** [strings.HasPrefix(s, p)]. *)
Definition HasPrefix (s p : string) : bool := String.prefix p s.

(** [strings.Index(s, substr)]: byte offset of the first occurrence, or -1. *)
Fixpoint index_from (i : Z) (s substr : string) : Z :=
  if String.prefix substr s then i
  else match s with
       | "" => (-1)%Z
       | String _ s' => index_from (i + 1) s' substr
       end.

Definition Index (s substr : string) : Z := index_from 0 s substr.

(** [strings.Contains(s, substr)] is [Index(s, substr) >= 0]. *)
Definition Contains (s substr : string) : bool := (0 <=? Index s substr)%Z.

(** ASCII part of [strings.ToLower]; bytes outside [A-Z] are kept. *)
Definition lower_ascii (c : ascii) : ascii :=
  let n := nat_of_ascii c in
  if (65 <=? n) && (n <=? 90) then ascii_of_nat (n + 32) else c.

Fixpoint ToLowerASCII (s : string) : string :=
  match s with
  | "" => ""
  | String c s' => String (lower_ascii c) (ToLowerASCII s')
  end.

(** White space in the sense of [unicode.IsSpace], read off the UTF-8
    bytes at the head of a string: the number of bytes of the leading
    white-space rune, [0] when the string does not start with one.
    ASCII: TAB, LF, VT, FF, CR, SPACE.  Latin-1: U+0085, U+00A0.
    Others: U+1680, U+2000..U+200A, U+2028, U+2029, U+202F, U+205F,
    U+3000. *)
Definition space_width (s : string) : nat :=
  match s with
  | "" => 0
  | String c r =>
    let n := nat_of_ascii c in
    if ((9 <=? n) && (n <=? 13)) || (n =? 32) then 1
    else match r with
    | "" => 0
    | String c2 r2 =>
      let n2 := nat_of_ascii c2 in
      if (n =? 194) && ((n2 =? 133) || (n2 =? 160)) then 2
      else match r2 with
      | "" => 0
      | String c3 _ =>
        let n3 := nat_of_ascii c3 in
        if (n =? 225) && (n2 =? 154) && (n3 =? 128) then 3
        else if (n =? 226) && (n2 =? 128) &&
                (((128 <=? n3) && (n3 <=? 138)) || (n3 =? 168) ||
                 (n3 =? 169) || (n3 =? 175)) then 3
        else if (n =? 226) && (n2 =? 129) && (n3 =? 159) then 3
        else if (n =? 227) && (n2 =? 128) && (n3 =? 128) then 3
        else 0
      end
    end
  end.

(** The same test at the tail of a string, on the reversed bytes. *)
Definition space_width_rev (s : string) : nat :=
  match s with
  | "" => 0
  | String c r =>
    let n := nat_of_ascii c in
    if ((9 <=? n) && (n <=? 13)) || (n =? 32) then 1
    else match r with
    | "" => 0
    | String c2 r2 =>
      let n2 := nat_of_ascii c2 in
      if (n2 =? 194) && ((n =? 133) || (n =? 160)) then 2
      else match r2 with
      | "" => 0
      | String c3 _ =>
        let n3 := nat_of_ascii c3 in
        if (n3 =? 225) && (n2 =? 154) && (n =? 128) then 3
        else if (n3 =? 226) && (n2 =? 128) &&
                (((128 <=? n) && (n <=? 138)) || (n =? 168) ||
                 (n =? 169) || (n =? 175)) then 3
        else if (n3 =? 226) && (n2 =? 129) && (n =? 159) then 3
        else if (n3 =? 227) && (n2 =? 128) && (n =? 128) then 3
        else 0
      end
    end
  end.

(** Drop leading white-space runes.  [skip] counts the bytes of a rune
    already recognised that are still to be dropped. *)
Fixpoint trim_left_with (width : string -> nat) (skip : nat) (s : string)
  : string :=
  match skip with
  | S k => match s with
           | "" => ""
           | String _ s' => trim_left_with width k s'
           end
  | 0 => match width s with
         | 0 => s
         | S k => match s with
                  | "" => ""
                  | String _ s' => trim_left_with width k s'
                  end
         end
  end.

(** [strings.TrimSpace(s)]. *)
Definition TrimSpace (s : string) : string :=
  rev (trim_left_with space_width_rev 0
         (rev (trim_left_with space_width 0 s))).

(** [strings.Trim(s, "`")]: the cutset is the single byte [`]. *)
Fixpoint trim_left_byte (b : ascii) (s : string) : string :=
  match s with
  | "" => ""
  | String c s' => if Ascii.eqb c b then trim_left_byte b s' else s
  end.

Definition TrimBackticks (s : string) : string :=
  rev (trim_left_byte backtick (rev (trim_left_byte backtick s))).

(** [strings.Split(s, sep)] for a non-empty [sep]: the pieces between the
    non-overlapping occurrences of [sep], scanned from the left.  [skip]
    counts the bytes of an occurrence still to be passed over, [cur] is
    the piece being collected. *)
Fixpoint split_scan (sep : string) (skip : nat) (cur s : string)
  : list string :=
  match s with
  | "" => [cur]
  | String c s' =>
    match skip with
    | S k => split_scan sep k cur s'
    | 0 =>
      if String.prefix sep s
      then cur :: split_scan sep (String.length sep - 1) "" s'
      else split_scan sep 0 (cur ++ String c "") s'
    end
  end.

Definition Split (s sep : string) : list string := split_scan sep 0 "" s.

(** [strings.Join(elems, sep)]. *)
Fixpoint Join (elems : list string) (sep : string) : string :=
  match elems with
  | [] => ""
  | [e] => e
  | e :: rest => e ++ sep ++ Join rest sep
  end.

(** [fmt.Sprintf("%d", n)]. *)
Definition itoa (n : Z) : string := NilZero.string_of_int (Z.to_int n).

Definition len (s : string) : Z := Z.of_nat (String.length s).

End GoStrings.

Import GoStrings.

(** Results of fallible Go functions: a value, or the text of the
    [error]. *)
Inductive result (A : Type) : Type :=
| Ok (a : A)
| Err (msg : string).
Arguments Ok {A} a.
Arguments Err {A} msg.

(* ====================================================================== *)
(** * The regular expressions of the extraction chain                     *)
(* ====================================================================== *)

(** Go's [regexp] returns, for [FindAllStringSubmatch(s, -1)], the
    leftmost non-overlapping matches in order; at one start position it
    prefers what a backtracking matcher finds first, so a lazy [(.*?)]
    followed by a literal ends at the first occurrence of that literal.
    The patterns of this package are matched by hand-written scanners
    over the bytes. *)
Module Regexp.

(** [[a-z]]. *)
Definition is_lower (c : ascii) : bool :=
  let n := nat_of_ascii c in (97 <=? n) && (n <=? 122).

(** Skip a run [[a-z]*]. *)
Fixpoint skip_lower (s : string) : string :=
  match s with
  | "" => ""
  | String c s' => if is_lower c then skip_lower s' else s
  end.

Definition fence : string := "```".

(** Opening of the pattern [```(?:[a-z]+)?\n] at the head of [s]: the
    text after the line feed.  A lower-case letter is never a line feed,
    so the optional tag, when present, is the whole run of letters. *)
Definition open_any (s : string) : option string :=
  if String.prefix fence s then
    match skip_lower (drop 3 s) with
    | String c r => if Ascii.eqb c "010"%char then Some r else None
    | "" => None
    end
  else None.

(** Opening of the pattern [```go\n] at the head of [s]. *)
Definition open_go (s : string) : option string :=
  if String.prefix (fence ++ "go" ++ nl) s then Some (drop 6 s) else None.

(** The lazy group [(.*?)] followed by the closing fence: the text before
    the first [```] of [s] and the text after it. *)
Fixpoint cut_fence (s : string) : option (string * string) :=
  if String.prefix fence s then Some ("", drop 3 s)
  else match s with
       | "" => None
       | String c s' =>
         match cut_fence s' with
         | Some (body, rest) => Some (String c body, rest)
         | None => None
         end
       end.

(** A match of the whole pattern starting at the head of [s]: submatch 1
    and the number of bytes matched. *)
Definition match_here (opening : string -> option string) (s : string)
  : option (string * nat) :=
  match opening s with
  | None => None
  | Some after_open =>
    match cut_fence after_open with
    | None => None
    | Some (body, rest) => Some (body, String.length s - String.length rest)
    end
  end.

(** All matches, left to right.  [skip] counts the bytes of the previous
    match that still lie ahead; the search resumes right after it. *)
Fixpoint find_all_from (opening : string -> option string) (skip : nat)
  (s : string) : list string :=
  match s with
  | "" => []
  | String _ s' =>
    match skip with
    | S k => find_all_from opening k s'
    | 0 =>
      match match_here opening s with
      | Some (body, n) => body :: find_all_from opening (n - 1) s'
      | None => find_all_from opening 0 s'
      end
    end
  end.

(** Submatch 1 of every match of ["(?s)```(?:[a-z]+)?\\n(.*?)```"]. *)
Definition FindAllCodeBlocks (s : string) : list string :=
  find_all_from open_any 0 s.

(** Submatch 1 of every match of ["(?s)```go\\n(.*?)```"]. *)
Definition FindAllGoBlocks (s : string) : list string :=
  find_all_from open_go 0 s.

(** [\s] of RE2: TAB, LF, FF, CR, SPACE. *)
Definition is_re_space (c : ascii) : bool :=
  let n := nat_of_ascii c in
  (n =? 9) || (n =? 10) || (n =? 12) || (n =? 13) || (n =? 32).

Fixpoint skip_re_space (s : string) : string :=
  match s with
  | "" => ""
  | String c s' => if is_re_space c then skip_re_space s' else s
  end.

(** [func\s+Test] at the head of [s].  No white-space byte is a [T], so
    the greedy run takes every white-space byte. *)
Definition marker_here (s : string) : bool :=
  String.prefix "func" s &&
  match drop 4 s with
  | String c r => is_re_space c && String.prefix "Test" (skip_re_space r)
  | "" => false
  end.

(** [FindStringIndex] for [(?m)^func\s+Test]: the offset of the first
    match; [^] holds at offset 0 and after every line feed. *)
Fixpoint find_marker (line_start : bool) (i : nat) (s : string)
  : option nat :=
  match s with
  | "" => None
  | String c s' =>
    if line_start && marker_here s then Some i
    else find_marker (Ascii.eqb c "010"%char) (S i) s'
  end.

Definition FindTestMarker (s : string) : option nat := find_marker true 0 s.

End Regexp.

(* ====================================================================== *)
(** * modules/extraction/strategies.go                                     *)
(* ====================================================================== *)

Module Extraction.
Import Regexp.

(** [ExtractionStrategy]: the interface with [Extract] and [Name]. *)
Record ExtractionStrategy : Type := {
  Name : string;
  Extract : string -> result (string * string)
}.

(** Strategy 1: [StandardFormatStrategy]. *)
Definition StandardFormat_Name : string := "standard_format".

Definition StandardFormat_Extract (response : string)
  : result (string * string) :=
  let matches := FindAllCodeBlocks response in
  match matches with
  | m0 :: m1 :: _ =>
    let mainCode := TrimSpace m0 in
    let testCode := TrimSpace m1 in
    if (String.length mainCode =? 0) || (String.length testCode =? 0)
    then Err (StandardFormat_Name ++ ": empty code blocks")
    else Ok (mainCode, testCode)
  | _ =>
    Err (StandardFormat_Name ++ ": expected at least 2 code blocks, found "
         ++ itoa (Z.of_nat (List.length matches)))
  end.

(** Strategy 2 of the file (fourth in the chain): [PackageMainStrategy]. *)
Definition PackageMain_Name : string := "package_main_split".

Definition PackageMain_Extract (response : string)
  : result (string * string) :=
  let parts := Split response "package main" in
  match parts with
  | _ :: p1 :: p2 :: _ =>
    let mainCode := TrimSpace ("package main" ++ p1) in
    let testCode := TrimSpace ("package main" ++ p2) in
    let mainCode := TrimBackticks mainCode in
    let testCode := TrimBackticks testCode in
    let mainCode := TrimSpace mainCode in
    let testCode := TrimSpace testCode in
    if (String.length mainCode <? 50) || (String.length testCode <? 50)
    then Err (PackageMain_Name ++ ": code blocks too small")
    else Ok (mainCode, testCode)
  | _ =>
    Err (PackageMain_Name
         ++ ": expected at least 2 'package main' declarations, found "
         ++ itoa (Z.of_nat (List.length parts) - 1))
  end.

(** Strategy 3: [TestMarkerStrategy]. *)
Definition TestMarker_Name : string := "test_marker_split".

Definition test_header : string :=
  "package main" ++ nl ++ "import " ++ dq ++ "testing" ++ dq ++ nl.

Definition TestMarker_Extract (response : string)
  : result (string * string) :=
  match FindTestMarker response with
  | None => Err (TestMarker_Name ++ ": no 'func Test' marker found")
  | Some loc0 =>
    let mainCode := TrimSpace (take loc0 response) in
    let testCode := TrimSpace (drop loc0 response) in
    let mainCode :=
      if negb (HasPrefix mainCode "package")
      then "package main" ++ nl ++ mainCode else mainCode in
    let testCode :=
      if negb (HasPrefix testCode "package")
      then test_header ++ testCode else testCode in
    let mainCode := TrimBackticks mainCode in
    let testCode := TrimBackticks testCode in
    if (String.length mainCode <? 30) || (String.length testCode <? 30)
    then Err (TestMarker_Name ++ ": code blocks too small")
    else Ok (mainCode, testCode)
  end.

(** Strategy 4 of the file (second in the chain): [LanguageTagStrategy]. *)
Definition LanguageTag_Name : string := "language_tag_split".

Definition LanguageTag_Extract (response : string)
  : result (string * string) :=
  let matches := FindAllGoBlocks response in
  match matches with
  | m0 :: m1 :: _ =>
    let mainCode := TrimSpace m0 in
    let testCode := TrimSpace m1 in
    if (String.length mainCode =? 0) || (String.length testCode =? 0)
    then Err (LanguageTag_Name ++ ": empty code blocks")
    else Ok (mainCode, testCode)
  | _ =>
    Err (LanguageTag_Name ++ ": expected at least 2 'go' code blocks, found "
         ++ itoa (Z.of_nat (List.length matches)))
  end.

(** Strategy 5: [SingleFileStrategy]. *)
Definition SingleFile_Name : string := "single_file_fallback".

Definition SingleFile_Extract (response : string)
  : result (string * string) :=
  let matches := FindAllCodeBlocks response in
  match matches with
  | [] =>
    if 50 <? String.length response
    then Ok (TrimSpace response, "")
    else Err (SingleFile_Name ++ ": no code found")
  | m0 :: _ =>
    let code := TrimSpace m0 in
    if Contains code "func Test" then
      let idx := Z.to_nat (Index code "func Test") in
      let main := TrimSpace (take idx code) in
      let test := TrimSpace (drop idx code) in
      let test :=
        if negb (HasPrefix test "package")
        then test_header ++ test else test in
      Ok (main, test)
    else Ok (code, "")
  end.

Definition StandardFormatStrategy : ExtractionStrategy :=
  {| Name := StandardFormat_Name; Extract := StandardFormat_Extract |}.
Definition PackageMainStrategy : ExtractionStrategy :=
  {| Name := PackageMain_Name; Extract := PackageMain_Extract |}.
Definition TestMarkerStrategy : ExtractionStrategy :=
  {| Name := TestMarker_Name; Extract := TestMarker_Extract |}.
Definition LanguageTagStrategy : ExtractionStrategy :=
  {| Name := LanguageTag_Name; Extract := LanguageTag_Extract |}.
Definition SingleFileStrategy : ExtractionStrategy :=
  {| Name := SingleFile_Name; Extract := SingleFile_Extract |}.

(** [Extractor]: the ordered strategies. *)
Record Extractor : Type := { strategies : list ExtractionStrategy }.

Definition NewExtractor : Extractor :=
  {| strategies := [ StandardFormatStrategy;
                     LanguageTagStrategy;
                     TestMarkerStrategy;
                     PackageMainStrategy;
                     SingleFileStrategy ] |}.

(** The loop of [Extractor.Extract]: the first strategy without error
    wins; [lastErr] is the error of the last one tried ([None] renders
    as Go's [<nil>]). *)
Fixpoint try_strategies (strats : list ExtractionStrategy)
  (lastErr : option string) (response : string)
  : result (string * string * string) :=
  match strats with
  | [] =>
    Err ("all extraction strategies failed; last error: "
         ++ match lastErr with Some e => e | None => "<nil>" end)
  | strat :: rest =>
    match Extract strat response with
    | Ok (main, test) => Ok (main, test, Name strat)
    | Err e => try_strategies rest (Some e) response
    end
  end.

Definition Extractor_Extract (e : Extractor) (response : string)
  : result (string * string * string) :=
  try_strategies (strategies e) None response.

(** [Extractor.ExtractWithFallback]. *)
Definition ExtractWithFallback (e : Extractor) (response : string)
  : string * string * string :=
  match Extractor_Extract e response with
  | Ok r => r
  | Err _ =>
    let matches := FindAllCodeBlocks response in
    match matches with
    | m0 :: more =>
      let main := TrimSpace m0 in
      let test := match more with
                  | m1 :: _ => TrimSpace m1
                  | [] => ""
                  end in
      (main, test, "emergency_fallback")
    | [] => (TrimSpace response, "", "raw_response")
    end
  end.

End Extraction.

(* ====================================================================== *)
(** * The Go compiler backend: error classification                        *)
(* ====================================================================== *)

Module GoCompilerV2.

(** [ErrorTypeGo]. *)
Inductive ErrorTypeGo : Type :=
| ErrorTypeGoUnknown
| ErrorTypeGoInfrastructure
| ErrorTypeGoSyntax
| ErrorTypeGoType
| ErrorTypeGoLogic
| ErrorTypeGoRuntime
| ErrorTypeGoSuccess.

Definition infraPatterns : list string :=
  [ "go.mod already exists"; "cannot find package"; "not in GOPATH";
    "invalid go.mod"; "module not found"; "go get" ].

Definition syntaxPatterns : list string :=
  [ "syntax error"; "expected"; "unexpected"; "invalid operation";
    "unclosed" ].

Definition typePatterns : list string :=
  [ "undefined"; "type"; "cannot use"; "mismatched types";
    "wrong number of arguments"; "not a function" ].

Definition runtimePatterns : list string :=
  [ "panic"; "fatal"; "signal: segmentation"; "runtime error" ].

Section Classifier.

(** [strings.ToLower] of Go's library, which folds the case of every
    Unicode letter; the classifier is modelled for any such function.
    [GoStrings.ToLowerASCII] is its restriction to ASCII text. *)
Variable ToLower : string -> string.

(** One [for _, pattern := range patterns] loop with its early return:
    does some pattern, lower-cased, occur in [output]? *)
Fixpoint any_pattern (output : string) (patterns : list string) : bool :=
  match patterns with
  | [] => false
  | pattern :: rest =>
    if Contains output (ToLower pattern) then true
    else any_pattern output rest
  end.

(** Some pattern of the list occurs in the output, case folded on both
    sides. *)
Definition hits (output : string) (patterns : list string) : Prop :=
  exists pattern,
    In pattern patterns /\
    Contains (ToLower output) (ToLower pattern) = true.

(** [classifyGoError]. *)
Definition classifyGoError (output : string)
  (compileErrors testErrors : list string) : ErrorTypeGo :=
  let output := ToLower output in
  if any_pattern output infraPatterns then ErrorTypeGoInfrastructure
  else if any_pattern output syntaxPatterns then ErrorTypeGoSyntax
  else if any_pattern output typePatterns then ErrorTypeGoType
  else if any_pattern output runtimePatterns then ErrorTypeGoRuntime
  else if 0 <? List.length testErrors then ErrorTypeGoLogic
  else if 0 <? List.length compileErrors then ErrorTypeGoType
  else ErrorTypeGoUnknown.

End Classifier.

End GoCompilerV2.

(* ====================================================================== *)
(** * The controller package: types and limits                             *)
(* ====================================================================== *)

Module Pipeline.
Import Extraction.
Local Open Scope Z_scope.

(** [ErrorType]: the seven declared constants.  The Go type is an [int];
    its values outside the constants are left out here. *)
Inductive ErrorType : Type :=
| ErrorTypeUnknown
| ErrorTypeInfrastructure
| ErrorTypeSyntax
| ErrorTypeType
| ErrorTypeLogic
| ErrorTypeRuntime
| ErrorTypeSuccess.

Definition ErrorType_eqb (a b : ErrorType) : bool :=
  match a, b with
  | ErrorTypeUnknown, ErrorTypeUnknown
  | ErrorTypeInfrastructure, ErrorTypeInfrastructure
  | ErrorTypeSyntax, ErrorTypeSyntax
  | ErrorTypeType, ErrorTypeType
  | ErrorTypeLogic, ErrorTypeLogic
  | ErrorTypeRuntime, ErrorTypeRuntime
  | ErrorTypeSuccess, ErrorTypeSuccess => true
  | _, _ => false
  end.

(** [ErrorType.String]. *)
Definition ErrorType_String (e : ErrorType) : string :=
  match e with
  | ErrorTypeInfrastructure => "infrastructure"
  | ErrorTypeSyntax => "syntax"
  | ErrorTypeType => "type"
  | ErrorTypeLogic => "logic"
  | ErrorTypeRuntime => "runtime"
  | ErrorTypeSuccess => "success"
  | ErrorTypeUnknown => "unknown"
  end.

(** [CompilationResult]; durations are nanoseconds.  The field
    [ErrorType] is written [ErrorType_], the name being taken by its
    type. *)
Record CompilationResult : Type := {
  Success : bool;
  ExitCode : Z;
  CompileErrors : list string;
  TestErrors : list string;
  Output : string;
  ErrorType_ : ErrorType;
  ExecutionTime : Z
}.

(** [ExecutionMetrics]. *)
Record ExecutionMetrics : Type := {
  IterationCount : Z;
  TotalTime : Z;
  PromptSizes : list Z;
  LLMResponseTimes : list Z;
  LastErrorType : ErrorType;
  SameErrorCount : Z;
  ExtractedLanguages : list string
}.

(** [LLMContext]. *)
Record LLMContext : Type := {
  ConversationTokens : list Z;
  PromptHistory : list string;
  ErrorHistory : list ErrorType;
  AttemptCount : Z;
  LastErrorMessage : string
}.

(** [ExecutionJob].  [Ctx], [Cancel] and [StartTime] live in the
    environment: what the job reads from them is [ctx_done] and
    [elapsed] below. *)
Record ExecutionJob : Type := {
  ID : string;
  Language : string;
  UserPrompt : string;
  Model : string;
  MaxIterations : Z;
  Timeout : Z;
  Status : string;
  LLMCtx : LLMContext;
  Metrics : ExecutionMetrics;
  FinalResult : option CompilationResult;
  AbortReason : string
}.

Definition MaxPromptSize : Z := 50 * 1024.
Definition SameErrorThreshold : Z := 3.

(** Field assignments. *)
Definition set_Status (v : string) (j : ExecutionJob) : ExecutionJob :=
  {| ID := ID j; Language := Language j; UserPrompt := UserPrompt j;
     Model := Model j; MaxIterations := MaxIterations j;
     Timeout := Timeout j; Status := v; LLMCtx := LLMCtx j;
     Metrics := Metrics j; FinalResult := FinalResult j;
     AbortReason := AbortReason j |}.

Definition set_AbortReason (v : string) (j : ExecutionJob) : ExecutionJob :=
  {| ID := ID j; Language := Language j; UserPrompt := UserPrompt j;
     Model := Model j; MaxIterations := MaxIterations j;
     Timeout := Timeout j; Status := Status j; LLMCtx := LLMCtx j;
     Metrics := Metrics j; FinalResult := FinalResult j;
     AbortReason := v |}.

Definition set_FinalResult (v : option CompilationResult)
  (j : ExecutionJob) : ExecutionJob :=
  {| ID := ID j; Language := Language j; UserPrompt := UserPrompt j;
     Model := Model j; MaxIterations := MaxIterations j;
     Timeout := Timeout j; Status := Status j; LLMCtx := LLMCtx j;
     Metrics := Metrics j; FinalResult := v;
     AbortReason := AbortReason j |}.

Definition set_Metrics (v : ExecutionMetrics) (j : ExecutionJob)
  : ExecutionJob :=
  {| ID := ID j; Language := Language j; UserPrompt := UserPrompt j;
     Model := Model j; MaxIterations := MaxIterations j;
     Timeout := Timeout j; Status := Status j; LLMCtx := LLMCtx j;
     Metrics := v; FinalResult := FinalResult j;
     AbortReason := AbortReason j |}.

Definition set_LLMCtx (v : LLMContext) (j : ExecutionJob) : ExecutionJob :=
  {| ID := ID j; Language := Language j; UserPrompt := UserPrompt j;
     Model := Model j; MaxIterations := MaxIterations j;
     Timeout := Timeout j; Status := Status j; LLMCtx := v;
     Metrics := Metrics j; FinalResult := FinalResult j;
     AbortReason := AbortReason j |}.

Definition set_IterationCount (v : Z) (m : ExecutionMetrics)
  : ExecutionMetrics :=
  {| IterationCount := v; TotalTime := TotalTime m;
     PromptSizes := PromptSizes m; LLMResponseTimes := LLMResponseTimes m;
     LastErrorType := LastErrorType m; SameErrorCount := SameErrorCount m;
     ExtractedLanguages := ExtractedLanguages m |}.

Definition set_PromptSizes (v : list Z) (m : ExecutionMetrics)
  : ExecutionMetrics :=
  {| IterationCount := IterationCount m; TotalTime := TotalTime m;
     PromptSizes := v; LLMResponseTimes := LLMResponseTimes m;
     LastErrorType := LastErrorType m; SameErrorCount := SameErrorCount m;
     ExtractedLanguages := ExtractedLanguages m |}.

Definition set_LLMResponseTimes (v : list Z) (m : ExecutionMetrics)
  : ExecutionMetrics :=
  {| IterationCount := IterationCount m; TotalTime := TotalTime m;
     PromptSizes := PromptSizes m; LLMResponseTimes := v;
     LastErrorType := LastErrorType m; SameErrorCount := SameErrorCount m;
     ExtractedLanguages := ExtractedLanguages m |}.

Definition set_LastErrorType (v : ErrorType) (m : ExecutionMetrics)
  : ExecutionMetrics :=
  {| IterationCount := IterationCount m; TotalTime := TotalTime m;
     PromptSizes := PromptSizes m; LLMResponseTimes := LLMResponseTimes m;
     LastErrorType := v; SameErrorCount := SameErrorCount m;
     ExtractedLanguages := ExtractedLanguages m |}.

Definition set_SameErrorCount (v : Z) (m : ExecutionMetrics)
  : ExecutionMetrics :=
  {| IterationCount := IterationCount m; TotalTime := TotalTime m;
     PromptSizes := PromptSizes m; LLMResponseTimes := LLMResponseTimes m;
     LastErrorType := LastErrorType m; SameErrorCount := v;
     ExtractedLanguages := ExtractedLanguages m |}.

Definition set_ConversationTokens (v : list Z) (c : LLMContext)
  : LLMContext :=
  {| ConversationTokens := v; PromptHistory := PromptHistory c;
     ErrorHistory := ErrorHistory c; AttemptCount := AttemptCount c;
     LastErrorMessage := LastErrorMessage c |}.

Definition set_PromptHistory (v : list string) (c : LLMContext)
  : LLMContext :=
  {| ConversationTokens := ConversationTokens c; PromptHistory := v;
     ErrorHistory := ErrorHistory c; AttemptCount := AttemptCount c;
     LastErrorMessage := LastErrorMessage c |}.

Definition set_ErrorHistory (v : list ErrorType) (c : LLMContext)
  : LLMContext :=
  {| ConversationTokens := ConversationTokens c;
     PromptHistory := PromptHistory c;
     ErrorHistory := v; AttemptCount := AttemptCount c;
     LastErrorMessage := LastErrorMessage c |}.

Definition set_LastErrorMessage (v : string) (c : LLMContext)
  : LLMContext :=
  {| ConversationTokens := ConversationTokens c;
     PromptHistory := PromptHistory c;
     ErrorHistory := ErrorHistory c; AttemptCount := AttemptCount c;
     LastErrorMessage := v |}.

(** ** Messages on the websocket

    Fields read off the clock ([ElapsedSeconds], [TotalTime]) are left
    out. *)
Record WSIterationData : Type := {
  it_Iteration : Z;
  it_Status : string;
  it_MainCode : string;
  it_TestCode : string;
  it_CompilerOutput : string;
  it_CompiledSuccessfully : bool;
  it_ErrorType : string;
  it_PromptSize : Z;
  it_LLMResponseTime : Z
}.

Record WSCompletionData : Type := {
  co_FinalStatus : string;
  co_TotalIterations : Z;
  co_Code : string;
  co_Tests : string
}.

Record WSAbortData : Type := {
  ab_Reason : string;
  ab_Iteration : Z;
  ab_LastError : string;
  ab_LastErrorType : string
}.

(** What a job does to the outside, in order. *)
Inductive Event : Type :=
| EvLLMCall (prompt : string) (tokens : list Z) (model : string)
| EvCompile (language mainCode testCode : string)
| EvIteration (d : WSIterationData)
| EvCompletion (d : WSCompletionData)
| EvAbort (d : WSAbortData).

(** ** Format instructions *)

Definition goFormatInstructions : string :=
  nl ++ "IMPORTANT: Generate Go code in this exact format:" ++ nl ++
  "- Two code blocks separated by a blank line" ++ nl ++
  "- First block: package main with main() function and helper functions"
  ++ nl ++
  "- Second block: package main with import " ++ dq ++ "testing" ++ dq ++
  " and Test* functions" ++ nl ++
  "- Use ONLY " ++ dq ++ "package main" ++ dq ++ " in both blocks" ++ nl ++
  "- Provide code only, no explanations" ++ nl.

Definition pythonFormatInstructions : string :=
  nl ++ "IMPORTANT: Generate Python code in this exact format:" ++ nl ++
  "- Two code blocks separated by a blank line" ++ nl ++
  "- First block: main code with functions and main() execution" ++ nl ++
  "- Second block: import unittest or pytest and test functions" ++ nl ++
  "- Provide code only, no explanations" ++ nl.

Definition cppFormatInstructions : string :=
  nl ++ "IMPORTANT: Generate C++ code in this exact format:" ++ nl ++
  "- Two code blocks separated by a blank line" ++ nl ++
  "- First block: main.cpp with function implementations and main()"
  ++ nl ++
  "- Second block: test functions using assert or gtest" ++ nl ++
  "- Include necessary #include statements" ++ nl ++
  "- Provide code only, no explanations" ++ nl.

(** ** Helper functions *)

(** [truncate]. *)
Definition truncate (s : string) (maxLen : Z) : string :=
  if len s <=? maxLen then s
  else take (Z.to_nat maxLen) s ++ "...".

(** The [switch job.Language] of [buildPrompt]. *)
Definition formatInstructions (language : string) : string :=
  if String.eqb language "go" then goFormatInstructions
  else if String.eqb language "python" then pythonFormatInstructions
  else if String.eqb language "cpp" then cppFormatInstructions
  else "".

(** [buildPrompt]: the prompt and its size in bytes. *)
Definition buildPrompt (job : ExecutionJob) (iteration : Z)
  : string * Z :=
  let prompt := UserPrompt job in
  let prompt := prompt ++ formatInstructions (Language job) in
  let prompt :=
    if (1 <? iteration) &&
       (0 <? Z.of_nat (List.length (ErrorHistory (LLMCtx job))))
    then
      let lastError := LastErrorType (Metrics job) in
      let lastMsg := LastErrorMessage (LLMCtx job) in
      prompt
      ++ (nl ++ nl ++ "=== ERROR FEEDBACK FROM ITERATION ")
      ++ itoa (iteration - 1)
      ++ (" ===" ++ nl)
      ++ ("Error Type: " ++ ErrorType_String lastError ++ nl)
      ++ ("Error Message: " ++ truncate lastMsg 500 ++ nl)
      ++ ("Please fix the error and regenerate the code." ++ nl)
    else prompt in
  (prompt, len prompt).

(** ** The environment of one iteration

    What the outside answers during one pass of the loop: the
    cancellation signal, the clock, the model client and the compile
    backends.  A Go call returning a pointer and an [error] answers with
    a pair of options. *)
Record IterEnv : Type := {
  ctx_done : bool;
  elapsed : Z;
  GetOllamaResponse :
    string -> list Z -> string -> string * list Z * option string;
  llmTime : Z;
  compileGo : string -> string -> option CompilationResult * option string;
  compilePython :
    string -> string -> option CompilationResult * option string;
  compileCPP : string -> string -> option CompilationResult * option string
}.

(** The three backends as the repository has them: stubs. *)
Definition compile_stub (mainCode testCode : string)
  : option CompilationResult * option string :=
  (None, Some "not yet implemented").

(** [compileLanguage]. *)
Definition compileLanguage (env : IterEnv) (language mainCode testCode : string)
  : option CompilationResult * option string :=
  if String.eqb language "go" then compileGo env mainCode testCode
  else if String.eqb language "python" then compilePython env mainCode testCode
  else if String.eqb language "cpp" then compileCPP env mainCode testCode
  else (None, Some ("unsupported language: " ++ language)).

(** The job and what it has done to the outside so far. *)
Record State : Type := {
  job : ExecutionJob;
  trace : list Event
}.

(** A call or a send, recorded in the trace.  The connection and
    [job.Ctx] are taken to be non-nil: a send does not panic, and the
    error [WriteJSON] returns is dropped by the senders. *)
Definition emit (ev : Event) (st : State) : State :=
  {| job := job st; trace := (trace st ++ [ev])%list |}.

Definition on_job (f : ExecutionJob -> ExecutionJob) (st : State) : State :=
  {| job := f (job st); trace := trace st |}.

(** [sendAbortMessage]. *)
Definition sendAbortMessage (reason : string) (st : State) : State :=
  let j := job st in
  let lastErrorType :=
    match List.rev (ErrorHistory (LLMCtx j)) with
    | e :: _ => ErrorType_String e
    | [] => ErrorType_String ErrorTypeUnknown
    end in
  emit (EvAbort {| ab_Reason := AbortReason j;
                   ab_Iteration := IterationCount (Metrics j);
                   ab_LastError := reason;
                   ab_LastErrorType := lastErrorType |}) st.

(** [sendIterationMessage]; both slices are non-empty when it is called. *)
Definition sendIterationMessage (iteration : Z) (mainCode testCode : string)
  (result : CompilationResult) (st : State) : State :=
  let j := job st in
  emit (EvIteration
          {| it_Iteration := iteration;
             it_Status := "compiled";
             it_MainCode := mainCode;
             it_TestCode := testCode;
             it_CompilerOutput := Output result;
             it_CompiledSuccessfully := Success result;
             it_ErrorType := ErrorType_String (ErrorType_ result);
             it_PromptSize := List.last (PromptSizes (Metrics j)) 0;
             it_LLMResponseTime :=
               Z.quot (List.last (LLMResponseTimes (Metrics j)) 0) 1000000
          |}) st.

(** [sendCompletionMessage]. *)
Definition sendCompletionMessage (mainCode testCode : string) (st : State)
  : State :=
  emit (EvCompletion
          {| co_FinalStatus := "success";
             co_TotalIterations := IterationCount (Metrics (job st));
             co_Code := mainCode;
             co_Tests := testCode |}) st.

(** ** One pass of the loop of [RunCompilationJob] *)

(** How a pass ends: the loop goes on, the function returns, or it
    panics. *)
Inductive Outcome : Type :=
| Continue (st : State)
| Return (st : State)
| Panic (st : State).

(** The state a pass ends in. *)
Definition outcome_state (o : Outcome) : State :=
  match o with
  | Continue st | Return st | Panic st => st
  end.

(** The recurring abort: status, reason, message, return. *)
Definition abort (reason message : string) (st : State) : Outcome :=
  Return (sendAbortMessage message
            (on_job (fun j => set_AbortReason reason
                                (set_Status "aborted" j)) st)).

(** The check of the stuck-loop guard on the history that already holds
    this iteration's error [e]. *)
Definition same_error_repeating (history : list ErrorType) (e : ErrorType)
  : bool :=
  (SameErrorThreshold <=? Z.of_nat (List.length history)) &&
  (let lastErrors :=
     skipn (List.length history - Z.to_nat SameErrorThreshold) history in
   forallb (fun x => ErrorType_eqb x e) lastErrors) &&
  negb (ErrorType_eqb e ErrorTypeSuccess).

(** Where the guards and phases 1 to 3 lead: out of the iteration, or to
    a compile result. *)
Inductive Compiled : Type :=
| Stopped (o : Outcome)
| Reached (st : State) (mainCode testCode : string)
          (result : CompilationResult).

(** Cancellation and budget checks, then phase 1 (generate), phase 2
    (extract) and phase 3 (compile and test). *)
Definition generate_extract_compile (env : IterEnv) (iteration : Z)
  (st : State) : Compiled :=
  if ctx_done env then
    Stopped (abort "user_cancelled" "User cancelled execution" st)
  else if Timeout (job st) <? elapsed env then
    Stopped (abort "total_timeout" "Total timeout exceeded" st)
  else
    let st := on_job (fun j =>
      set_Metrics (set_IterationCount iteration (Metrics j)) j) st in
    let '(prompt, promptSize) := buildPrompt (job st) iteration in
    if MaxPromptSize <? promptSize then
      Stopped (abort "prompt_size_exceeded"
                 ("Prompt size exceeded: " ++ itoa promptSize ++ " > "
                  ++ itoa MaxPromptSize ++ " bytes") st)
    else
      let st := on_job (fun j =>
        set_Metrics (set_PromptSizes
          (PromptSizes (Metrics j) ++ [promptSize])%list (Metrics j)) j) st in
      let tokens := ConversationTokens (LLMCtx (job st)) in
      let '(llmResponse, updatedContext, llmErr) :=
        GetOllamaResponse env prompt tokens (Model (job st)) in
      let st := emit (EvLLMCall prompt tokens (Model (job st))) st in
      let st := on_job (fun j =>
        set_Metrics (set_LLMResponseTimes
          (LLMResponseTimes (Metrics j) ++ [llmTime env])%list
          (Metrics j)) j) st in
      match llmErr with
      | Some e => Stopped (abort "llm_error" ("LLM error: " ++ e) st)
      | None =>
        if String.eqb llmResponse "" then
          Stopped (abort "empty_llm_response" "LLM returned empty response" st)
        else
          let st := on_job (fun j =>
            set_LLMCtx (set_PromptHistory
              (PromptHistory (LLMCtx j) ++ [prompt])%list
              (set_ConversationTokens updatedContext (LLMCtx j))) j) st in
          let '(mainCode, testCode, extractionStrategy) :=
            ExtractWithFallback NewExtractor llmResponse in
          if String.eqb mainCode "" then
            Stopped (abort "extraction_failed"
                       "Failed to extract code from LLM response" st)
          else
            let '(result, compileErr) :=
              compileLanguage env (Language (job st)) mainCode testCode in
            let st := emit (EvCompile (Language (job st)) mainCode testCode)
                        st in
            match compileErr with
            | Some e =>
              Stopped (abort "compilation_failed"
                         ("Compilation failed: " ++ e) st)
            | None =>
              match result with
              | None => Stopped (Panic st)
              | Some result => Reached st mainCode testCode result
              end
            end
      end.

(** Phase 4 (analyse the result) and phase 5 (error analysis and loop
    continuation). *)
Definition analyze_result (iteration : Z) (st : State)
  (mainCode testCode : string) (result : CompilationResult) : Outcome :=
  let st := sendIterationMessage iteration mainCode testCode result st in
  if Success result then
    let st := on_job (fun j =>
      set_Status "completed" (set_FinalResult (Some result) j)) st in
    Return (sendCompletionMessage mainCode testCode st)
  else
    let st := on_job (fun j =>
      set_Metrics (set_LastErrorType (ErrorType_ result) (Metrics j))
        (set_LLMCtx
           (set_LastErrorMessage (Join (CompileErrors result) "; ")
              (set_ErrorHistory
                 (ErrorHistory (LLMCtx j) ++ [ErrorType_ result])%list
                 (LLMCtx j))) j)) st in
    if ErrorType_eqb (ErrorType_ result) ErrorTypeInfrastructure then
      if iteration <? 2 then Continue st
      else abort "infrastructure_error_persistent"
             "Persistent infrastructure error" st
    else if same_error_repeating (ErrorHistory (LLMCtx (job st)))
              (ErrorType_ result) then
      let st := on_job (fun j =>
        set_Metrics (set_SameErrorCount SameErrorThreshold (Metrics j))
          (set_AbortReason "same_error_threshold"
             (set_Status "aborted" j))) st in
      Return (sendAbortMessage
                ("LLM stuck with same error after " ++ itoa SameErrorThreshold
                 ++ " attempts") st)
    else if MaxIterations (job st) <=? iteration then
      let st := on_job (fun j =>
        set_FinalResult (Some result)
          (set_AbortReason "max_iterations_reached"
             (set_Status "aborted" j))) st in
      Return (sendAbortMessage
                ("Max iterations (" ++ itoa (MaxIterations (job st))
                 ++ ") reached") st)
    else Continue st.

(** The body of the [for] loop. *)
Definition iteration_body (env : IterEnv) (iteration : Z) (st : State)
  : Outcome :=
  match generate_extract_compile env iteration st with
  | Stopped o => o
  | Reached st mainCode testCode result =>
    analyze_result iteration st mainCode testCode result
  end.

(** The environment of a job: what the outside answers in each
    iteration. *)
Definition World : Type := Z -> IterEnv.

(** The loop [for iteration := 1; iteration <= job.MaxIterations;
    iteration++].  The body never writes the cap, so [remaining] passes,
    [MaxIterations - iteration + 1] of them, are left at the loop test;
    with none left the code after the loop runs. *)
Fixpoint run_loop (world : World) (remaining : nat) (iteration : Z)
  (st : State) : Outcome :=
  match remaining with
  | O =>
    Return (on_job (fun j => set_AbortReason "unknown"
                               (set_Status "completed" j)) st)
  | S k =>
    match iteration_body (world iteration) iteration st with
    | Continue st' => run_loop world k (iteration + 1) st'
    | o => o
    end
  end.

(** The same loop with its test written out, bounded by [fuel]: the
    result when the loop ends within [fuel] tests. *)
Fixpoint run_loop_tested (world : World) (fuel : nat) (iteration : Z)
  (st : State) : option Outcome :=
  match fuel with
  | O => None
  | S k =>
    if iteration <=? MaxIterations (job st) then
      match iteration_body (world iteration) iteration st with
      | Continue st' => run_loop_tested world k (iteration + 1) st'
      | o => Some o
      end
    else
      Some (Return (on_job (fun j => set_AbortReason "unknown"
                                       (set_Status "completed" j)) st))
  end.

(** The function body below the [defer].  Its second statement,
    [job.StartTime = time.Now()], starts the clock that [elapsed] reads;
    [StartTime] is not a field of the job here. *)
Definition run_body (world : World) (j : ExecutionJob) : Outcome :=
  let st := {| job := set_Status "running" j; trace := [] |} in
  run_loop world (Z.to_nat (MaxIterations j)) 1 st.

(** The deferred function: it runs when the body returns or panics. *)
Definition deferred (o : Outcome) : State :=
  match o with
  | Return st | Continue st => on_job (set_Status "completed") st
  | Panic st =>
    on_job (fun j => set_AbortReason "internal_panic"
                       (set_Status "completed" j)) st
  end.

(** [RunCompilationJob]. *)
Definition RunCompilationJob (world : World) (j : ExecutionJob) : State :=
  deferred (run_body world j).

End Pipeline.

(* ====================================================================== *)
(** * Sample inputs                                                        *)
(* ====================================================================== *)

Module Samples.
Import Regexp Extraction Pipeline.
Local Open Scope Z_scope.

(** A fenced block as a model writes it. *)
Definition fenced (tag body : string) : string :=
  "```" ++ tag ++ nl ++ body ++ "```".

(** No fence starts inside [s], whatever follows [s]: [s] holds no three
    backticks in a row and does not end with a backtick.  At each
    position of [s], the text padded with two backticks does not start
    with a fence. *)
Fixpoint fence_free (s : string) : bool :=
  match s with
  | "" => true
  | String c s' => negb (String.prefix fence (s ++ "``")) && fence_free s'
  end.

(** Every byte of [s] is one of [a-z]. *)
Fixpoint all_lower (s : string) : bool :=
  match s with
  | "" => true
  | String c s' => is_lower c && all_lower s'
  end.

(** [s] holds no three backticks in a row; it may end with a backtick. *)
Fixpoint no_fence (s : string) : bool :=
  match s with
  | "" => true
  | String c s' => negb (String.prefix fence s) && no_fence s'
  end.

(** A reply with two blocks tagged [go]. *)
Definition reply_go : string :=
  fenced "go" ("package main" ++ nl ++ "func Double(x int) int { return 2 * x }"
               ++ nl)
  ++ nl ++ nl ++
  fenced "go" ("package main" ++ nl ++ "import " ++ dq ++ "testing" ++ dq ++ nl
               ++ "func TestDouble(t *testing.T) {}" ++ nl).

(** A reply with two blocks tagged [c++]. *)
Definition reply_cxx : string :=
  fenced "c++" ("int twice(int x) { return 2 * x; }" ++ nl)
  ++ nl ++
  fenced "c++" ("void test_twice() { assert(twice(2) == 4); }" ++ nl).

(** The same two blocks tagged [cpp]. *)
Definition reply_cpp : string :=
  fenced "cpp" ("int twice(int x) { return 2 * x; }" ++ nl)
  ++ nl ++
  fenced "cpp" ("void test_twice() { assert(twice(2) == 4); }" ++ nl).

(** A reply that opens a fence without closing it, before two blocks
    tagged [go]. *)
Definition reply_stray : string :=
  "```" ++ nl ++ "hello " ++ fenced "go" "code1" ++ nl ++ fenced "go" "code2".

(** Plain Go source with a test function, no fence, 104 bytes. *)
Definition reply_unfenced : string :=
  "func Double(x int) int { return 2 * x }" ++ nl ++
  "func TestDouble(t *testing.T) { if Double(2) != 4 { t.Fail() } }".

(** 51 spaces. *)
Definition reply_blank : string :=
  "                                                   ".

Definition fresh_job (maxIterations : Z) : ExecutionJob :=
  {| ID := "job-1";
     Language := "go";
     UserPrompt := "write a function that doubles an integer";
     Model := "llama3.2:1b";
     MaxIterations := maxIterations;
     Timeout := 300000000000;
     Status := "pending";
     LLMCtx := {| ConversationTokens := []; PromptHistory := [];
                  ErrorHistory := []; AttemptCount := 0;
                  LastErrorMessage := "" |};
     Metrics := {| IterationCount := 0; TotalTime := 0; PromptSizes := [];
                   LLMResponseTimes := []; LastErrorType := ErrorTypeUnknown;
                   SameErrorCount := 0; ExtractedLanguages := [] |};
     FinalResult := None;
     AbortReason := "" |}.

(** A running job that has seen the errors of [history], the last one
    with the diagnostic [msg]. *)
Definition job_after (maxIterations : Z) (history : list ErrorType)
  (msg : string) : ExecutionJob :=
  {| ID := "job-1";
     Language := "go";
     UserPrompt := "write a function that doubles an integer";
     Model := "llama3.2:1b";
     MaxIterations := maxIterations;
     Timeout := 300000000000;
     Status := "running";
     LLMCtx := {| ConversationTokens := []; PromptHistory := [];
                  ErrorHistory := history; AttemptCount := 0;
                  LastErrorMessage := msg |};
     Metrics := {| IterationCount := Z.of_nat (List.length history);
                   TotalTime := 0; PromptSizes := [];
                   LLMResponseTimes := [];
                   LastErrorType := List.last history ErrorTypeUnknown;
                   SameErrorCount := 0; ExtractedLanguages := [] |};
     FinalResult := None;
     AbortReason := "" |}.

(** A string of [n] bytes [x]. *)
Fixpoint repeat_x (n : nat) : string :=
  match n with
  | O => ""
  | S k => String "x" (repeat_x k)
  end.

(** A running job whose task text alone has 52000 bytes. *)
Definition job_big_prompt : ExecutionJob :=
  {| ID := "job-2";
     Language := "go";
     UserPrompt := repeat_x (52 * 1000);
     Model := "llama3.2:1b";
     MaxIterations := 5;
     Timeout := 300000000000;
     Status := "running";
     LLMCtx := {| ConversationTokens := []; PromptHistory := [];
                  ErrorHistory := []; AttemptCount := 0;
                  LastErrorMessage := "" |};
     Metrics := {| IterationCount := 0; TotalTime := 0; PromptSizes := [];
                   LLMResponseTimes := []; LastErrorType := ErrorTypeUnknown;
                   SameErrorCount := 0; ExtractedLanguages := [] |};
     FinalResult := None;
     AbortReason := "" |}.

(** A compile result of the given kind. *)
Definition failure (e : ErrorType) (msg : string) : CompilationResult :=
  {| Success := false; ExitCode := 1; CompileErrors := [msg];
     TestErrors := []; Output := msg; ErrorType_ := e;
     ExecutionTime := 1000000 |}.

Definition success : CompilationResult :=
  {| Success := true; ExitCode := 0; CompileErrors := [];
     TestErrors := []; Output := "ok"; ErrorType_ := ErrorTypeSuccess;
     ExecutionTime := 1000000 |}.

(** An iteration in which the model answers [reply] and every backend
    answers [answer]. *)
Definition env_of (done : bool) (reply : string)
  (answer : option CompilationResult * option string) : IterEnv :=
  {| ctx_done := done;
     elapsed := 1000000000;
     GetOllamaResponse := fun _ tokens _ => (reply, tokens, None);
     llmTime := 2000000000;
     compileGo := fun _ _ => answer;
     compilePython := fun _ _ => answer;
     compileCPP := fun _ _ => answer |}.

(** The repository as it is: every backend is the stub. *)
Definition env_stub : IterEnv :=
  {| ctx_done := false;
     elapsed := 1000000000;
     GetOllamaResponse := fun _ tokens _ => (reply_go, tokens, None);
     llmTime := 2000000000;
     compileGo := compile_stub;
     compilePython := compile_stub;
     compileCPP := compile_stub |}.

(** The job is cancelled before its first iteration. *)
Definition world_cancelled : World :=
  fun _ => env_of true reply_go (Some success, None).

(** The backend answers with the kinds of [kinds], one per iteration,
    and with success afterwards. *)
Definition world_of_kinds (kinds : list ErrorType) : World :=
  fun iteration =>
    match nth_error kinds (Z.to_nat (iteration - 1)) with
    | Some e =>
      env_of false reply_go (Some (failure e "main.go:1:1: error"), None)
    | None => env_of false reply_go (Some success, None)
    end.

(** A job in the language [cpp]. *)
Definition job_cpp : ExecutionJob :=
  {| ID := "job-4";
     Language := "cpp";
     UserPrompt := "write a function that doubles an integer";
     Model := "llama3.2:1b";
     MaxIterations := 3;
     Timeout := 300000000000;
     Status := "pending";
     LLMCtx := {| ConversationTokens := []; PromptHistory := [];
                  ErrorHistory := []; AttemptCount := 0;
                  LastErrorMessage := "" |};
     Metrics := {| IterationCount := 0; TotalTime := 0; PromptSizes := [];
                   LLMResponseTimes := []; LastErrorType := ErrorTypeUnknown;
                   SameErrorCount := 0; ExtractedLanguages := [] |};
     FinalResult := None;
     AbortReason := "" |}.

(** The model answers every prompt with [reply]; the backend would accept
    whatever it is given. *)
Definition world_replying (reply : string) : World :=
  fun _ => env_of false reply (Some success, None).

(** The number of calls of the model client in a trace. *)
Fixpoint llm_calls (tr : list Event) : nat :=
  match tr with
  | [] => 0%nat
  | EvLLMCall _ _ _ :: rest => S (llm_calls rest)
  | _ :: rest => llm_calls rest
  end.

(** The prompts the model client was called with. *)
Fixpoint llm_prompts (tr : list Event) : list string :=
  match tr with
  | [] => []
  | EvLLMCall p _ _ :: rest => p :: llm_prompts rest
  | _ :: rest => llm_prompts rest
  end.

(** Every prompt the model client was called with fits the limit. *)
Definition within (tr : list Event) : Prop :=
  Forall (fun p => len p <= MaxPromptSize) (llm_prompts tr).

(** The number of compile calls in a trace. *)
Fixpoint compile_calls (tr : list Event) : nat :=
  match tr with
  | [] => 0%nat
  | EvCompile _ _ _ :: rest => S (compile_calls rest)
  | _ :: rest => compile_calls rest
  end.

End Samples.

(* ====================================================================== *)
(** * How a job ends, as seen from outside                                 *)
(* ====================================================================== *)

Module Observations.
Import Pipeline.
Local Open Scope Z_scope.

(** The reasons with which the loop of [RunCompilationJob] aborts. *)
Definition loop_abort_reasons : list string :=
  [ "user_cancelled"; "total_timeout"; "prompt_size_exceeded";
    "llm_error"; "empty_llm_response"; "extraction_failed";
    "compilation_failed"; "infrastructure_error_persistent";
    "same_error_threshold"; "max_iterations_reached" ].

(** The job was aborted inside the loop, and the last thing it did was to
    send the abort message with its reason and iteration count. *)
Definition ends_with_abort (st : State) : Prop :=
  Status (job st) = "aborted" /\
  In (AbortReason (job st)) loop_abort_reasons /\
  exists tr d,
    trace st = (tr ++ [EvAbort d])%list /\
    ab_Reason d = AbortReason (job st) /\
    ab_Iteration d = IterationCount (Metrics (job st)).

(** The job completed with a successful result, and the last thing it
    did was to send the completion message. *)
Definition ends_with_completion (st : State) : Prop :=
  Status (job st) = "completed" /\
  exists tr d r,
    trace st = (tr ++ [EvCompletion d])%list /\
    FinalResult (job st) = Some r /\
    Success r = true /\
    co_FinalStatus d = "success" /\
    co_TotalIterations d = IterationCount (Metrics (job st)).


(** The model client fails on a call: it returns an error, or the empty
    string. *)
Definition call_failed (env : IterEnv) (prompt : string) (tokens : list Z)
  (model : string) : Prop :=
  let '(llmResponse, _, llmErr) :=
    GetOllamaResponse env prompt tokens model in
  llmErr <> None \/ llmResponse = "".

(** The job has called the model client with [prompt], the call has
    failed, and the job has called neither the model client nor a backend
    since. *)
Definition ends_with_failed_call (env : IterEnv) (model prompt : string)
  (st : State) : Prop :=
  exists tokens tr rest,
    trace st = (tr ++ EvLLMCall prompt tokens model :: rest)%list /\
    call_failed env prompt tokens model /\
    Samples.llm_calls rest = 0%nat /\
    Samples.compile_calls rest = 0%nat.

(** [ErrorType] is an [int]: the values of the declared constants. *)
Definition ErrorType_value (e : ErrorType) : Z :=
  match e with
  | ErrorTypeUnknown => 0
  | ErrorTypeInfrastructure => 1
  | ErrorTypeSyntax => 2
  | ErrorTypeType => 3
  | ErrorTypeLogic => 4
  | ErrorTypeRuntime => 5
  | ErrorTypeSuccess => 6
  end.

(** [ErrorType.String] on every value of the underlying [int]: the
    [switch] with its [default]. *)
Definition ErrorType_String_int (e : Z) : string :=
  if e =? 1 then "infrastructure"
  else if e =? 2 then "syntax"
  else if e =? 3 then "type"
  else if e =? 4 then "logic"
  else if e =? 5 then "runtime"
  else if e =? 6 then "success"
  else "unknown".


(** The languages [compileLanguage] and [buildPrompt] know. *)
Definition supported (language : string) : bool :=
  String.eqb language "go" || String.eqb language "python"
  || String.eqb language "cpp".

(** A job in a language without backend. *)
Definition job_rust : ExecutionJob :=
  {| ID := "job-3";
     Language := "rust";
     UserPrompt := "write a function that doubles an integer";
     Model := "llama3.2:1b";
     MaxIterations := 3;
     Timeout := 300000000000;
     Status := "pending";
     LLMCtx := {| ConversationTokens := []; PromptHistory := [];
                  ErrorHistory := []; AttemptCount := 0;
                  LastErrorMessage := "" |};
     Metrics := {| IterationCount := 0; TotalTime := 0; PromptSizes := [];
                   LLMResponseTimes := []; LastErrorType := ErrorTypeUnknown;
                   SameErrorCount := 0; ExtractedLanguages := [] |};
     FinalResult := None;
     AbortReason := "" |}.

End Observations.

(* ====================================================================== *)
(** * modules/extraction/extract.go: the earlier extractor                 *)
(* ====================================================================== *)

Module ExtractGo.
Import Regexp.

(** Opening of the pattern [```(?:go)?\n] at the head of [s]: the text
    after the line feed. *)
Definition open_go_or_plain (s : string) : option string :=
  if String.prefix (fence ++ "go" ++ nl) s then Some (drop 6 s)
  else if String.prefix (fence ++ nl) s then Some (drop 4 s)
  else None.

(** Submatch 1 of every match of ["(?s)```(?:go)?\\n(.*?)```"]. *)
Definition FindAllGoOrPlainBlocks (s : string) : list string :=
  find_all_from open_go_or_plain 0 s.

Definition improper : string :=
  "improper LLM response: cannot extract code blocks".

(** The second attempt of [Extract]: the split at ["package main"]. *)
Definition Extract_by_package (input : string) : result (string * string) :=
  match Split input "package main" with
  | _ :: p1 :: p2 :: _ =>
    let mainCode := TrimSpace ("package main" ++ p1) in
    let testCode := TrimSpace ("package main" ++ p2) in
    let mainLines := Split mainCode nl in
    let testLines := Split testCode nl in
    let mainCode := Join mainLines nl in
    let testCode := Join testLines nl in
    if (50 <? String.length mainCode) && (50 <? String.length testCode)
    then Ok (mainCode, testCode)
    else Err improper
  | _ => Err improper
  end.

(** [Extract]. *)
Definition Extract (input : string) : result (string * string) :=
  match FindAllGoOrPlainBlocks input with
  | m0 :: m1 :: _ =>
    let mainCode := TrimSpace m0 in
    let testCode := TrimSpace m1 in
    if (0 <? String.length mainCode) && (0 <? String.length testCode)
    then Ok (mainCode, testCode)
    else Extract_by_package input
  | _ => Extract_by_package input
  end.

End ExtractGo.

(* ====================================================================== *)
(** * The Go compiler backend: parsing, running, reporting                 *)
(* ====================================================================== *)

Module GoCompilerV2Run.
Import GoCompilerV2.
Local Open Scope Z_scope.

(** [CompilationResultV2]; durations are nanoseconds. *)
Record CompilationResultV2 : Type := {
  Success : bool;
  ExitCode : Z;
  CompileOutput : string;
  TestOutput : string;
  RawOutput : string;
  ErrorType : ErrorTypeGo;
  ExecutionTime : Z;
  CompileErrors : list string;
  TestErrors : list string
}.

(** The integer of an [ErrorTypeGo], as [%v] prints it. *)
Definition ErrorTypeGo_int (e : ErrorTypeGo) : Z :=
  match e with
  | ErrorTypeGoUnknown => 0
  | ErrorTypeGoInfrastructure => 1
  | ErrorTypeGoSyntax => 2
  | ErrorTypeGoType => 3
  | ErrorTypeGoLogic => 4
  | ErrorTypeGoRuntime => 5
  | ErrorTypeGoSuccess => 6
  end.

(** [%v] of a [bool]. *)
Definition bool_string (b : bool) : string :=
  if b then "true" else "false".

(** The loop of [parseGoErrors] over the lines. *)
Fixpoint parse_lines (lines : list string)
  (compileErrors testErrors : list string) : list string * list string :=
  match lines with
  | [] => (compileErrors, testErrors)
  | line :: rest =>
    let compileErrors :=
      if Contains line "main.go:"
      then (compileErrors ++ [TrimSpace line])%list else compileErrors in
    let testErrors :=
      if Contains line "FAIL" || Contains line "Error:"
      then (testErrors ++ [TrimSpace line])%list else testErrors in
    parse_lines rest compileErrors testErrors
  end.

(** [parseGoErrors]. *)
Definition parseGoErrors (output : string) : list string * list string :=
  parse_lines (Split output nl) [] [].

(** The two tests of [parseGoErrors] on a line. *)
Definition is_compile_line (line : string) : bool :=
  Contains line "main.go:".

Definition is_test_line (line : string) : bool :=
  Contains line "FAIL" || Contains line "Error:".

(** One [for i, err := range errs] loop of [FormatErrorForLLM]: the
    entries with index below 5 are written. *)
Fixpoint write_errors (i : Z) (errs : list string) (msg : string)
  : string :=
  match errs with
  | [] => msg
  | err :: rest =>
    let msg := if i <? 5 then msg ++ ("  - " ++ err ++ nl) else msg in
    write_errors (i + 1) rest msg
  end.

(** [FormatErrorForLLM]. *)
Definition FormatErrorForLLM (r : CompilationResultV2) : string :=
  if Success r then "Compilation and tests passed successfully."
  else
    let msg := "Error Type: " ++ itoa (ErrorTypeGo_int (ErrorType r)) ++ nl in
    let msg :=
      if (0 <? Z.of_nat (List.length (CompileErrors r)))
      then write_errors 0 (CompileErrors r)
             (msg ++ ("Compilation Errors:" ++ nl))
      else msg in
    let msg :=
      if (0 <? Z.of_nat (List.length (TestErrors r)))
      then write_errors 0 (TestErrors r) (msg ++ ("Test Failures:" ++ nl))
      else msg in
    if len msg =? 0
    then msg ++ ("Unknown error. Full output:" ++ nl) ++ RawOutput r
    else msg.

(** What the outside answers to one [Compile]: the errors of creating
    the directory and of writing the two files, whether the context is
    done before the command ends, whether the command ended with an
    error, its two output streams, and the clock at the start and at the
    end. *)
Record CompileEnv : Type := {
  mkdir_err : option string;
  write_main_err : option string;
  write_test_err : option string;
  timed_out : bool;
  run_failed : bool;
  stdout : string;
  stderr : string;
  time_at_start : Z;
  time_at_end : Z
}.

Definition set_infra (raw : string) (errs : list string) (t : Z)
  : CompilationResultV2 :=
  {| Success := false; ExitCode := 0; CompileOutput := "";
     TestOutput := ""; RawOutput := raw;
     ErrorType := ErrorTypeGoInfrastructure; ExecutionTime := t;
     CompileErrors := errs; TestErrors := [] |}.

Section Compile.

Variable ToLower : string -> string.

(** [GoCompilerV2.Compile]: the result and the [error], which is always
    [nil].  In the branch of the timeout the command is taken to have
    been started: with a context that is done before the start,
    [cmd.Process] is [nil] and the Go code panics in [Kill] instead of
    returning. *)
Definition Compile (env : CompileEnv)
  : CompilationResultV2 * option string :=
  match mkdir_err env with
  | Some e =>
    let raw := "Failed to create temp directory: " ++ e in
    (set_infra raw [raw] (time_at_start env), None)
  | None =>
    match write_main_err env with
    | Some e =>
      let raw := "Failed to write main.go: " ++ e in
      (set_infra raw [raw] (time_at_start env), None)
    | None =>
      match write_test_err env with
      | Some e =>
        let raw := "Failed to write main_test.go: " ++ e in
        (set_infra raw [raw] (time_at_start env), None)
      | None =>
        if timed_out env then
          (set_infra "Compilation timeout" ["Compilation exceeded timeout"]
             (time_at_end env), None)
        else
          let fullOutput := stdout env ++ nl ++ stderr env in
          if negb (run_failed env) then
            ({| Success := true; ExitCode := 0; CompileOutput := "";
                TestOutput := ""; RawOutput := fullOutput;
                ErrorType := ErrorTypeGoSuccess;
                ExecutionTime := time_at_end env;
                CompileErrors := []; TestErrors := [] |}, None)
          else
            let '(compileErrors, testErrors) := parseGoErrors fullOutput in
            ({| Success := false; ExitCode := 1; CompileOutput := "";
                TestOutput := ""; RawOutput := fullOutput;
                ErrorType :=
                  classifyGoError ToLower fullOutput compileErrors
                    testErrors;
                ExecutionTime := time_at_end env;
                CompileErrors := compileErrors;
                TestErrors := testErrors |}, None)
      end
    end
  end.

(** [GoCompilerV2.RetryCompileWithClean]. *)
Definition RetryCompileWithClean (env : CompileEnv)
  : CompilationResultV2 * option string :=
  let '(result, err) := Compile env in
  match err with
  | Some e => (result, Some e)
  | None =>
    match ErrorType result with
    | ErrorTypeGoInfrastructure => (result, None)
    | _ => (result, None)
    end
  end.

(** [CheckCompileErrors]: the bytes and the [error]. *)
Definition CheckCompileErrors (env : CompileEnv)
  : option string * option string :=
  let '(result, err) := Compile env in
  match err with
  | Some e => (None, Some e)
  | None =>
    let output :=
      "=== COMPILE OUTPUT ===" ++ nl ++ CompileOutput result ++ nl ++ nl
      ++ "=== TEST OUTPUT ===" ++ nl ++ TestOutput result ++ nl ++ nl
      ++ "Error Type: " ++ itoa (ErrorTypeGo_int (ErrorType result)) ++ nl
      ++ "Success: " ++ bool_string (Success result) ++ nl in
    if Success result then (Some output, None)
    else (Some output, Some ("compilation failed: " ++ RawOutput result))
  end.

End Compile.

(** A run of the command that fails with a test failure. *)
Definition env_test_failure : CompileEnv :=
  {| mkdir_err := None; write_main_err := None; write_test_err := None;
     timed_out := false; run_failed := true;
     stdout := "--- FAIL: TestDouble (0.00s)" ++ nl ++ "FAIL";
     stderr := "exit status 1";
     time_at_start := 0; time_at_end := 1200000000 |}.

(** A failed result with the given compile errors and raw output. *)
Definition failed_with (errs : list string) (raw : string)
  : CompilationResultV2 :=
  {| Success := false; ExitCode := 1; CompileOutput := "";
     TestOutput := ""; RawOutput := raw; ErrorType := ErrorTypeGoSyntax;
     ExecutionTime := 0; CompileErrors := errs; TestErrors := [] |}.

End GoCompilerV2Run.

(* ====================================================================== *)
(** * Facts about strings and the scanners                                 *)
(* ====================================================================== *)

Module ScanFacts.
Import Regexp Samples.

Lemma length_app (a b : string) :
  String.length (a ++ b) = String.length a + String.length b.
Proof. induction a as [|c a IH]; simpl; [reflexivity | now rewrite IH]. Qed.

Lemma app_assoc (a b c : string) : (a ++ b) ++ c = a ++ (b ++ c).
Proof. induction a as [|x a IH]; simpl; [reflexivity | now rewrite IH]. Qed.

Lemma prefix_split (p s : string) :
  String.prefix p s = true -> s = p ++ drop (String.length p) s.
Proof.
  revert s; induction p as [|a p IH]; intros s H.
  - destruct s; reflexivity.
  - destruct s as [|b s]; simpl in H; [discriminate|].
    destruct (ascii_dec a b) as [->|_]; [|discriminate].
    simpl. f_equal. now apply IH.
Qed.

Lemma prefix_app (p s : string) : String.prefix p (p ++ s) = true.
Proof.
  induction p as [|a p IH]; simpl.
  - destruct s; reflexivity.
  - destruct (ascii_dec a a); [exact IH | congruence].
Qed.

(** A fence that starts inside a non-empty [x] is there whatever follows
    [x], as long as two backticks follow. *)
Lemma prefix_fence_pad (x s : string) :
  x <> "" ->
  String.prefix fence (x ++ s) = true ->
  String.prefix fence (x ++ "``") = true.
Proof.
  unfold fence. intros Hx.
  destruct x as [|c1 [|c2 [|c3 x]]]; [contradiction| | |];
    cbn [append String.prefix]; intros H;
    repeat match type of H with
           | context [ascii_dec ?a ?b] =>
             destruct (ascii_dec a b); [subst|discriminate]
           end;
    repeat match goal with
           | |- context [ascii_dec ?a ?a] =>
             destruct (ascii_dec a a); [|congruence]
           end;
    try reflexivity.
  destruct (x ++ "``"); reflexivity.
Qed.

Lemma fence_free_head (c : ascii) (x s : string) :
  fence_free (String c x) = true ->
  String.prefix fence (String c x ++ s) = false.
Proof.
  intros H. cbn [fence_free] in H. apply andb_prop in H as [H _].
  apply negb_true_iff in H.
  destruct (String.prefix fence (String c x ++ s)) eqn:E; [|reflexivity].
  apply prefix_fence_pad in E; [congruence | discriminate].
Qed.

(** No match starts inside text without a fence that is followed by a
    fence: a fence that begins in the last bytes of the text is followed
    by a backtick, which is neither a tag letter nor a line feed. *)
Lemma match_here_before_fence (c : ascii) (x s : string) :
  no_fence (String c x) = true ->
  match_here open_any (String c x ++ fence ++ s) = None.
Proof.
  intros H. cbn [no_fence] in H. apply andb_prop in H as [H _].
  apply negb_true_iff in H.
  unfold match_here, open_any, fence in *.
  destruct x as [|c2 [|c3 x]]; cbn [append String.prefix drop] in *.
  - destruct (ascii_dec "`" c); [|reflexivity].
    cbn. reflexivity.
  - destruct (ascii_dec "`" c); [|reflexivity].
    destruct (ascii_dec "`" c2); [|reflexivity].
    cbn. reflexivity.
  - destruct (ascii_dec "`" c); [|reflexivity].
    destruct (ascii_dec "`" c2); [|reflexivity].
    destruct (ascii_dec "`" c3); [|reflexivity].
    destruct x; discriminate H.
Qed.

(** The scan runs through text without a fence up to the next fence. *)
Lemma find_all_skip_to_fence (pre s : string) :
  no_fence pre = true ->
  find_all_from open_any 0 (pre ++ fence ++ s)
  = find_all_from open_any 0 (fence ++ s).
Proof.
  induction pre as [|c pre IH]; intros H; [reflexivity|].
  pose proof (match_here_before_fence c pre s H) as Hm.
  cbn [no_fence] in H. apply andb_prop in H as [_ Hpre].
  change (String c pre ++ fence ++ s) with (String c (pre ++ fence ++ s)) in *.
  cbn [find_all_from]. rewrite Hm. now apply IH.
Qed.

(** Skipping exactly the bytes of the previous match. *)
Lemma find_all_skip (opening : string -> option string) (a b : string) :
  find_all_from opening (String.length a) (a ++ b)
  = find_all_from opening 0 b.
Proof.
  induction a as [|c a IH]; simpl.
  - destruct b; reflexivity.
  - exact IH.
Qed.

Lemma skip_lower_tag (tag s : string) :
  all_lower tag = true -> skip_lower (tag ++ nl ++ s) = nl ++ s.
Proof.
  induction tag as [|c tag IH]; intros H; simpl in *; [reflexivity|].
  apply andb_prop in H as [Hc Ht]. rewrite Hc. now apply IH.
Qed.

Lemma cut_fence_clean (body rest : string) :
  fence_free body = true ->
  cut_fence (body ++ fence ++ rest) = Some (body, rest).
Proof.
  induction body as [|c body IH]; intros H.
  - unfold fence. simpl. destruct rest; reflexivity.
  - pose proof (fence_free_head c body (fence ++ rest) H) as Hp.
    cbn [fence_free] in H. apply andb_prop in H as [_ Hb].
    change (String c body ++ fence ++ rest)
      with (String c (body ++ fence ++ rest)) in *.
    cbn [cut_fence]. rewrite Hp, (IH Hb). reflexivity.
Qed.

(** The opening fence of a block with a lower-case tag is recognised. *)
Lemma open_any_block (tag s : string) :
  all_lower tag = true ->
  open_any (fence ++ tag ++ nl ++ s) = Some s.
Proof.
  intros Ht. unfold open_any.
  rewrite prefix_app.
  change (drop 3 (fence ++ tag ++ nl ++ s)) with (tag ++ nl ++ s).
  rewrite (skip_lower_tag tag s Ht). reflexivity.
Qed.

(** The scan at the head of a block: its body, then the scan of what
    follows the closing fence. *)
Lemma find_all_block (tag body rest : string) :
  all_lower tag = true -> fence_free body = true ->
  find_all_from open_any 0 (fence ++ tag ++ nl ++ body ++ fence ++ rest)
  = body :: find_all_from open_any 0 rest.
Proof.
  intros Ht Hb.
  remember (fence ++ tag ++ nl ++ body ++ fence ++ rest) as s eqn:Es.
  assert (Hm : match_here open_any s
               = Some (body, String.length s - String.length rest)).
  { unfold match_here. subst s.
    rewrite (open_any_block tag _ Ht), (cut_fence_clean body rest Hb).
    reflexivity. }
  pose (m := "``" ++ tag ++ nl ++ body ++ fence).
  assert (Es' : s = String "`" (m ++ rest)).
  { subst s m. unfold fence, nl.
    repeat first [rewrite app_assoc | progress cbn [append]].
    reflexivity. }
  rewrite Es' in Hm |- *.
  cbn [find_all_from]. rewrite Hm. f_equal.
  replace (String.length (String "`" (m ++ rest)) - String.length rest - 1)
    with (String.length m).
  - apply find_all_skip.
  - cbn [String.length]. rewrite length_app. lia.
Qed.

(** The pattern with the [go] tag matches only where the general pattern
    does. *)
Lemma open_go_open_any (s r : string) :
  open_go s = Some r -> open_any s = Some r.
Proof.
  unfold open_go. intros H.
  destruct (String.prefix (fence ++ "go" ++ nl) s) eqn:Hp; [|discriminate].
  injection H as <-.
  apply prefix_split in Hp.
  change (String.length (fence ++ "go" ++ nl)) with 6 in Hp.
  rewrite Hp at 1.
  change ((fence ++ "go" ++ nl) ++ drop 6 s)
    with (fence ++ "go" ++ nl ++ drop 6 s).
  now apply open_any_block.
Qed.

Lemma match_here_go_any (s : string) :
  match_here open_any s = None -> match_here open_go s = None.
Proof.
  unfold match_here. intros H.
  destruct (open_go s) as [r|] eqn:Hg; [|reflexivity].
  rewrite (open_go_open_any s r Hg) in H.
  destruct (cut_fence r) as [[? ?]|]; [discriminate | reflexivity].
Qed.

Lemma no_blocks_no_go_blocks (s : string) :
  FindAllCodeBlocks s = [] -> FindAllGoBlocks s = [].
Proof.
  unfold FindAllCodeBlocks, FindAllGoBlocks.
  induction s as [|c s IH]; intros H; [reflexivity|].
  cbn [find_all_from] in *.
  destruct (match_here open_any (String c s)) as [[? ?]|] eqn:Hm;
    [discriminate|].
  rewrite (match_here_go_any _ Hm). now apply IH.
Qed.

(** Single backticks, as in a Go raw string, are fence-free text; three
    in a row and a backtick at the end are not. *)
Example fence_free_raw_string :
  fence_free "var re = `[a-z]+` // two `` here" = true
  /\ fence_free "a```b" = false
  /\ fence_free "ends with `" = false.
Proof. repeat split; reflexivity. Qed.

Lemma length_zero (s : string) : (String.length s =? 0) = false <-> s <> "".
Proof.
  destruct s; simpl; split; intros H; congruence.
Qed.

End ScanFacts.

(* ====================================================================== *)
(** * The extraction chain                                                 *)
(* ====================================================================== *)

Module ExtractionFacts.
Import Regexp Extraction Samples ScanFacts.

Lemma fenced_app (tag body rest : string) :
  fenced tag body ++ rest = fence ++ tag ++ nl ++ body ++ fence ++ rest.
Proof.
  unfold fenced, fence, nl.
  repeat first [rewrite app_assoc | progress cbn [append]].
  reflexivity.
Qed.

(** The scan of a text with two clean blocks finds their bodies first. *)
Lemma find_all_two_blocks (pre tag1 body1 mid tag2 body2 post : string) :
  no_fence pre = true -> all_lower tag1 = true ->
  fence_free body1 = true -> no_fence mid = true ->
  all_lower tag2 = true -> fence_free body2 = true ->
  FindAllCodeBlocks
    (pre ++ fenced tag1 body1 ++ mid ++ fenced tag2 body2 ++ post)
  = body1 :: body2 :: FindAllCodeBlocks post.
Proof.
  intros Hpre Ht1 Hb1 Hmid Ht2 Hb2. unfold FindAllCodeBlocks.
  rewrite fenced_app, (find_all_skip_to_fence pre _ Hpre).
  rewrite (find_all_block tag1 body1 _ Ht1 Hb1).
  rewrite fenced_app, (find_all_skip_to_fence mid _ Hmid).
  rewrite (find_all_block tag2 body2 _ Ht2 Hb2).
  reflexivity.
Qed.

(** The name a successful chain reports is the name of one of its
    strategies. *)
Lemma try_strategies_name (strats : list ExtractionStrategy)
  (lastErr : option string) (response main test name : string) :
  try_strategies strats lastErr response = Ok (main, test, name) ->
  In name (map Name strats).
Proof.
  revert lastErr; induction strats as [|strat rest IH]; intros lastErr H.
  - discriminate.
  - cbn [try_strategies] in H.
    destruct (Extract strat response) as [[m t]|e].
    + injection H as _ _ <-. now left.
    + right. exact (IH _ H).
Qed.

(** The chain fails only when its last strategy fails. *)
Lemma chain_fails_single_file_fails (response msg : string) :
  Extractor_Extract NewExtractor response = Err msg ->
  exists e, SingleFile_Extract response = Err e.
Proof.
  unfold Extractor_Extract, NewExtractor. cbn [strategies try_strategies].
  cbn [Extract StandardFormatStrategy LanguageTagStrategy TestMarkerStrategy
       PackageMainStrategy SingleFileStrategy].
  destruct (StandardFormat_Extract response) as [[? ?]|?]; [discriminate|].
  destruct (LanguageTag_Extract response) as [[? ?]|?]; [discriminate|].
  destruct (TestMarker_Extract response) as [[? ?]|?]; [discriminate|].
  destruct (PackageMain_Extract response) as [[? ?]|?]; [discriminate|].
  destruct (SingleFile_Extract response) as [[? ?]|e]; [discriminate|].
  intros _. now exists e.
Qed.

(** [SingleFileStrategy] fails only on a text without any block. *)
Lemma single_file_fails_no_block (response e : string) :
  SingleFile_Extract response = Err e -> FindAllCodeBlocks response = [].
Proof.
  unfold SingleFile_Extract.
  destruct (FindAllCodeBlocks response) as [|m0 more]; [reflexivity|].
  destruct (Contains (TrimSpace m0) "func Test"); discriminate.
Qed.

(** C7: the claim fails on the code for blocks whose tag is not made of
    the letters a to z.  [reply_cxx] holds two fenced blocks tagged
    [c++], both with a body that is not blank.  The pattern of
    [StandardFormatStrategy], which its comment describes as matching all
    code blocks, opens a block only after a tag of lower-case letters: it
    finds a single, empty, block between the two, the strategy fails, and
    the chain answers by the single-file fallback with empty main code.
    A job in the language [cpp] that receives this reply aborts with
    ["extraction_failed"] after its first model call, without a compile
    call.  The same two bodies under the tag [cpp] are paired as the
    claim says. *)
Theorem standard_format_misses_tagged_blocks :
  let main := "int twice(int x) { return 2 * x; }" ++ nl in
  let test := "void test_twice() { assert(twice(2) == 4); }" ++ nl in
  reply_cxx = fenced "c++" main ++ nl ++ fenced "c++" test /\
  reply_cpp = fenced "cpp" main ++ nl ++ fenced "cpp" test /\
  TrimSpace main <> "" /\ TrimSpace test <> "" /\
  FindAllCodeBlocks reply_cxx = [""] /\
  StandardFormat_Extract reply_cxx
  = Err "standard_format: expected at least 2 code blocks, found 1" /\
  Extractor_Extract NewExtractor reply_cxx
  = Ok ("", "", "single_file_fallback") /\
  ExtractWithFallback NewExtractor reply_cxx
  = ("", "", "single_file_fallback") /\
  StandardFormat_Extract reply_cpp = Ok (TrimSpace main, TrimSpace test) /\
  let st := Pipeline.RunCompilationJob (world_replying reply_cxx) job_cpp in
  Pipeline.AbortReason (Pipeline.job st) = "extraction_failed" /\
  Pipeline.FinalResult (Pipeline.job st) = None /\
  Pipeline.trace st
  = [ Pipeline.EvLLMCall (fst (Pipeline.buildPrompt job_cpp 1)) []
        "llama3.2:1b";
      Pipeline.EvAbort
        {| Pipeline.ab_Reason := "extraction_failed";
           Pipeline.ab_Iteration := 1;
           Pipeline.ab_LastError := "Failed to extract code from LLM response";
           Pipeline.ab_LastErrorType := "unknown" |} ].
Proof.
  cbv zeta.
  repeat match goal with |- _ /\ _ => split end;
    try reflexivity; try (vm_compute; reflexivity);
    vm_compute; discriminate.
Qed.

(** A fence that is opened and not closed shifts the pairing.  In
    [reply_stray] two blocks tagged [go] follow such a fence: the scan
    pairs the stray fence with the opening of the first block, its second
    match is empty, [StandardFormatStrategy] fails, and the chain answers
    by [LanguageTagStrategy]. *)
Example stray_fence_shifts_pairing :
  reply_stray
  = "```" ++ nl ++ "hello " ++ fenced "go" "code1" ++ nl
    ++ fenced "go" "code2"
  /\ FindAllCodeBlocks reply_stray = ["hello "; ""]
  /\ StandardFormat_Extract reply_stray
     = Err "standard_format: empty code blocks"
  /\ ExtractWithFallback NewExtractor reply_stray
     = ("code1", "code2", "language_tag_split").
Proof.
  repeat split; vm_compute; reflexivity.
Qed.

(** Where the pairing holds.  A text made of two fenced blocks, each
    opened by three backticks, a tag of zero or more lower-case ASCII
    letters and a line feed, and closed by three backticks; the text
    before and between the blocks holds no three backticks in a row; the
    bodies hold none either, do not end with a backtick and are not
    blank.  [StandardFormatStrategy] returns the trimmed first body as
    main code and the trimmed second body as test code, and every
    extractor with the strategies of [NewExtractor] selects
    ["standard_format"] on it, on every call. *)
Theorem standard_format_on_two_blocks
  (pre tag1 body1 mid tag2 body2 post : string) :
  no_fence pre = true -> all_lower tag1 = true ->
  fence_free body1 = true -> no_fence mid = true ->
  all_lower tag2 = true -> fence_free body2 = true ->
  TrimSpace body1 <> "" -> TrimSpace body2 <> "" ->
  let text := pre ++ fenced tag1 body1 ++ mid ++ fenced tag2 body2 ++ post in
  StandardFormat_Extract text = Ok (TrimSpace body1, TrimSpace body2) /\
  (forall e : Extractor,
     strategies e = strategies NewExtractor ->
     Extractor_Extract e text
     = Ok (TrimSpace body1, TrimSpace body2, "standard_format")) /\
  ExtractWithFallback NewExtractor text
  = (TrimSpace body1, TrimSpace body2, "standard_format").
Proof.
  intros Hpre Ht1 Hb1 Hmid Ht2 Hb2 Hn1 Hn2 text.
  assert (Hstd : StandardFormat_Extract text
                 = Ok (TrimSpace body1, TrimSpace body2)).
  { unfold StandardFormat_Extract, text.
    rewrite (find_all_two_blocks pre tag1 body1 mid tag2 body2 post)
      by assumption.
    apply length_zero in Hn1, Hn2. rewrite Hn1, Hn2. reflexivity. }
  assert (Hall : forall e : Extractor,
             strategies e = strategies NewExtractor ->
             Extractor_Extract e text
             = Ok (TrimSpace body1, TrimSpace body2, "standard_format")).
  { intros e He. unfold Extractor_Extract. rewrite He.
    cbn [NewExtractor strategies try_strategies Extract Name
         StandardFormatStrategy].
    rewrite Hstd. reflexivity. }
  repeat split; [exact Hstd | exact Hall |].
  unfold ExtractWithFallback. rewrite (Hall NewExtractor eq_refl).
  reflexivity.
Qed.

(** The pairing on [reply_go], and on the same reply after a sentence
    that ends with a backtick. *)
Example standard_format_on_reply_go :
  let main :=
    "package main" ++ nl ++ "func Double(x int) int { return 2 * x }" in
  let test :=
    "package main" ++ nl ++ "import " ++ dq ++ "testing" ++ dq ++ nl
    ++ "func TestDouble(t *testing.T) {}" in
  StandardFormat_Extract reply_go = Ok (main, test) /\
  StandardFormat_Extract ("Run it with `go test`" ++ reply_go)
  = Ok (main, test).
Proof.
  cbv zeta. split.
  - exact (proj1 (standard_format_on_two_blocks
      "" "go"
      ("package main" ++ nl ++ "func Double(x int) int { return 2 * x }" ++ nl)
      (nl ++ nl) "go"
      ("package main" ++ nl ++ "import " ++ dq ++ "testing" ++ dq ++ nl
       ++ "func TestDouble(t *testing.T) {}" ++ nl)
      ""
      eq_refl eq_refl eq_refl eq_refl eq_refl eq_refl
      ltac:(vm_compute; discriminate) ltac:(vm_compute; discriminate))).
  - exact (proj1 (standard_format_on_two_blocks
      "Run it with `go test`" "go"
      ("package main" ++ nl ++ "func Double(x int) int { return 2 * x }" ++ nl)
      (nl ++ nl) "go"
      ("package main" ++ nl ++ "import " ++ dq ++ "testing" ++ dq ++ nl
       ++ "func TestDouble(t *testing.T) {}" ++ nl)
      ""
      eq_refl eq_refl eq_refl eq_refl eq_refl eq_refl
      ltac:(vm_compute; discriminate) ltac:(vm_compute; discriminate))).
Qed.

(** C8, counterexample: [reply_unfenced] has no fenced block and 104
    bytes, and the chain answers with the test-marker split, before the
    single-file fallback is tried; [reply_blank] has no fenced block and
    51 bytes, and the single-file fallback answers with empty main code. *)
Lemma unfenced_text_not_only_single_file :
  (FindAllCodeBlocks reply_unfenced = []
   /\ 50 < String.length reply_unfenced
   /\ snd (ExtractWithFallback NewExtractor reply_unfenced)
      = "test_marker_split")
  /\
  (FindAllCodeBlocks reply_blank = []
   /\ 50 < String.length reply_blank
   /\ ExtractWithFallback NewExtractor reply_blank
      = ("", "", "single_file_fallback")).
Proof.
  repeat split; try reflexivity; vm_compute; lia.
Qed.

Lemma length_lower_bound (s : string) (n : nat) :
  (String.length s <? S n) = false -> s <> "".
Proof. destruct s; simpl; [discriminate | congruence]. Qed.

(** C8, amended: for a text without fenced block, longer than 50 bytes
    and not blank, [ExtractWithFallback] answers through the chain, by the
    test-marker split, the package-main split or the single-file fallback
    (never by one of the two fallbacks after the chain); the single-file
    fallback returns the trimmed text as main code with empty test code;
    in every case the main code is not empty. *)
Theorem unfenced_text_extraction (text : string) :
  FindAllCodeBlocks text = [] ->
  50 < String.length text ->
  TrimSpace text <> "" ->
  exists main test name,
    ExtractWithFallback NewExtractor text = (main, test, name) /\
    Extractor_Extract NewExtractor text = Ok (main, test, name) /\
    (name = "test_marker_split" \/ name = "package_main_split" \/
     (name = "single_file_fallback" /\ main = TrimSpace text /\ test = ""))
    /\ main <> "".
Proof.
  intros Hnone Hlen Hne.
  pose proof (no_blocks_no_go_blocks text Hnone) as Hgo.
  unfold ExtractWithFallback, Extractor_Extract, NewExtractor.
  cbn [strategies try_strategies Extract Name
       StandardFormatStrategy LanguageTagStrategy TestMarkerStrategy
       PackageMainStrategy SingleFileStrategy].
  unfold StandardFormat_Extract at 1 2. rewrite Hnone.
  unfold LanguageTag_Extract at 1 2. rewrite Hgo.
  cbn iota.
  destruct (TestMarker_Extract text) as [[m t]|e1] eqn:Htm.
  - exists m, t, TestMarker_Name. repeat split; auto.
    unfold TestMarker_Extract in Htm.
    destruct (FindTestMarker text) as [loc0|]; [|discriminate].
    match type of Htm with
    | (if (String.length ?a <? 30) || _ then _ else _) = _ =>
      remember a as code eqn:Ecode;
      destruct (String.length code <? 30) eqn:Ha; [discriminate|]
    end.
    cbn [orb] in Htm.
    match type of Htm with
    | (if ?c then _ else _) = _ => destruct c; [discriminate|]
    end.
    injection Htm as <- _. exact (length_lower_bound _ _ Ha).
  - destruct (PackageMain_Extract text) as [[m t]|e2] eqn:Hpm.
    + exists m, t, PackageMain_Name. repeat split; auto.
      unfold PackageMain_Extract in Hpm.
      destruct (Split text "package main") as [|p0 [|p1 [|p2 ps]]];
        try discriminate.
      match type of Hpm with
      | (if (String.length ?a <? 50) || _ then _ else _) = _ =>
        remember a as code eqn:Ecode;
        destruct (String.length code <? 50) eqn:Ha; [discriminate|]
      end.
      cbn [orb] in Hpm.
      match type of Hpm with
      | (if ?c then _ else _) = _ => destruct c; [discriminate|]
      end.
      injection Hpm as <- _. exact (length_lower_bound _ _ Ha).
    + unfold SingleFile_Extract. rewrite Hnone.
      apply Nat.ltb_lt in Hlen. rewrite Hlen.
      exists (TrimSpace text), "", SingleFile_Name.
      repeat split; auto.
Qed.

Lemma unfenced_text_extraction_witness :
  exists main test name,
    ExtractWithFallback NewExtractor reply_unfenced = (main, test, name) /\
    Extractor_Extract NewExtractor reply_unfenced = Ok (main, test, name) /\
    (name = "test_marker_split" \/ name = "package_main_split" \/
     (name = "single_file_fallback" /\ main = TrimSpace reply_unfenced
      /\ test = ""))
    /\ main <> "".
Proof.
  apply (unfenced_text_extraction reply_unfenced).
  - reflexivity.
  - vm_compute; lia.
  - vm_compute; discriminate.
Defined.

(** C10: [ExtractWithFallback] never reports ["emergency_fallback"]: a
    text with a fenced block makes [SingleFileStrategy], the last of the
    chain, succeed; so when the chain fails the text has no fenced block,
    and the answer is the trimmed text with empty test code under
    ["raw_response"]. *)
Theorem emergency_fallback_unreachable (response : string) :
  snd (ExtractWithFallback NewExtractor response) <> "emergency_fallback"
  /\ (FindAllCodeBlocks response <> [] ->
      exists r, SingleFile_Extract response = Ok r)
  /\ (forall msg,
        Extractor_Extract NewExtractor response = Err msg ->
        ExtractWithFallback NewExtractor response
        = (TrimSpace response, "", "raw_response")).
Proof.
  assert (Hfail : forall msg,
            Extractor_Extract NewExtractor response = Err msg ->
            ExtractWithFallback NewExtractor response
            = (TrimSpace response, "", "raw_response")).
  { intros msg Herr. unfold ExtractWithFallback. rewrite Herr.
    destruct (chain_fails_single_file_fails _ _ Herr) as [e He].
    rewrite (single_file_fails_no_block _ _ He). reflexivity. }
  split; [|split].
  - destruct (Extractor_Extract NewExtractor response) as [[[m t] n]|msg]
      eqn:Hx.
    + unfold ExtractWithFallback. rewrite Hx. cbn [snd].
      apply try_strategies_name in Hx. cbn in Hx.
      intuition (subst; discriminate).
    + rewrite (Hfail msg eq_refl). cbn [snd]. discriminate.
  - intros Hblock.
    destruct (SingleFile_Extract response) as [r|e] eqn:Hs.
    + now exists r.
    + contradiction Hblock. exact (single_file_fails_no_block _ _ Hs).
  - exact Hfail.
Qed.

Lemma emergency_fallback_unreachable_witness :
  ExtractWithFallback NewExtractor "short" = ("short", "", "raw_response").
Proof.
  apply (proj2 (proj2 (emergency_fallback_unreachable "short"))
           ("all extraction strategies failed; last error: "
            ++ "single_file_fallback: no code found")).
  reflexivity.
Defined.

End ExtractionFacts.

(* ====================================================================== *)
(** * The error classifier                                                 *)
(* ====================================================================== *)

Module ClassifierFacts.
Import GoCompilerV2.

Section Precedence.

Variable ToLower : string -> string.

Lemma any_pattern_hits (output : string) (patterns : list string) :
  any_pattern ToLower (ToLower output) patterns = true
  <-> hits ToLower output patterns.
Proof.
  unfold hits. induction patterns as [|p ps IH]; cbn [any_pattern].
  - split; [discriminate | intros (q & [] & _)].
  - destruct (Contains (ToLower output) (ToLower p)) eqn:Hp.
    + split; [|reflexivity]. intros _. exists p. split; [now left | exact Hp].
    + rewrite IH. split.
      * intros (q & Hq & Hc). exists q. split; [now right | exact Hc].
      * intros (q & [<-|Hq] & Hc); [congruence|]. now exists q.
Qed.

Lemma any_pattern_misses (output : string) (patterns : list string) :
  any_pattern ToLower (ToLower output) patterns = false
  <-> ~ hits ToLower output patterns.
Proof.
  rewrite <- any_pattern_hits.
  destruct (any_pattern ToLower (ToLower output) patterns);
    split; congruence.
Qed.

(** C6: [classifyGoError] tries infrastructure, syntax, type and runtime
    patterns in this order, as case-insensitive substrings of the output,
    and the first category with a match is the answer, whatever else
    matches; without any match the answer is logic when there are test
    errors, else type when there are compile errors, else unknown. *)
Theorem classifyGoError_precedence
  (output : string) (compileErrors testErrors : list string) :
  let kind := classifyGoError ToLower output compileErrors testErrors in
  let infra := hits ToLower output infraPatterns in
  let syntax := hits ToLower output syntaxPatterns in
  let type := hits ToLower output typePatterns in
  let runtime := hits ToLower output runtimePatterns in
  (infra -> kind = ErrorTypeGoInfrastructure) /\
  (~ infra -> syntax -> kind = ErrorTypeGoSyntax) /\
  (~ infra -> ~ syntax -> type -> kind = ErrorTypeGoType) /\
  (~ infra -> ~ syntax -> ~ type -> runtime -> kind = ErrorTypeGoRuntime) /\
  (~ infra -> ~ syntax -> ~ type -> ~ runtime ->
   (testErrors <> [] -> kind = ErrorTypeGoLogic) /\
   (testErrors = [] -> compileErrors <> [] -> kind = ErrorTypeGoType) /\
   (testErrors = [] -> compileErrors = [] -> kind = ErrorTypeGoUnknown)).
Proof.
  intros kind infra syntax type runtime.
  subst kind infra syntax type runtime. unfold classifyGoError.
  split; [|split; [|split; [|split]]].
  - intros H. apply any_pattern_hits in H. now rewrite H.
  - intros H1 H2.
    apply any_pattern_misses in H1. apply any_pattern_hits in H2.
    now rewrite H1, H2.
  - intros H1 H2 H3.
    apply any_pattern_misses in H1, H2. apply any_pattern_hits in H3.
    now rewrite H1, H2, H3.
  - intros H1 H2 H3 H4.
    apply any_pattern_misses in H1, H2, H3. apply any_pattern_hits in H4.
    now rewrite H1, H2, H3, H4.
  - intros H1 H2 H3 H4.
    apply any_pattern_misses in H1, H2, H3, H4.
    rewrite H1, H2, H3, H4.
    split; [|split].
    + intros Ht. destruct testErrors; [contradiction | reflexivity].
    + intros -> Hc. destruct compileErrors; [contradiction | reflexivity].
    + intros -> ->. reflexivity.
Qed.

(** Outputs that differ only in what the case folding removes are
    classified alike. *)
Lemma classifyGoError_case_insensitive
  (output1 output2 : string) (compileErrors testErrors : list string) :
  ToLower output1 = ToLower output2 ->
  classifyGoError ToLower output1 compileErrors testErrors
  = classifyGoError ToLower output2 compileErrors testErrors.
Proof. intros H. unfold classifyGoError. now rewrite H. Qed.

End Precedence.

(** An output with an infrastructure pattern in upper case, a syntax
    pattern and a type pattern, with diagnostics of both lists. *)
Lemma classifyGoError_precedence_witness :
  classifyGoError ToLowerASCII
    "go: Not In GOPATH; syntax error: unexpected type"
    ["main.go:1:1: syntax error"] ["FAIL"]
  = ErrorTypeGoInfrastructure.
Proof.
  apply (proj1 (classifyGoError_precedence ToLowerASCII
    "go: Not In GOPATH; syntax error: unexpected type"
    ["main.go:1:1: syntax error"] ["FAIL"])).
  exists "not in GOPATH". split.
  - simpl. tauto.
  - reflexivity.
Defined.

End ClassifierFacts.

(* ====================================================================== *)
(** * The prompt builder and the job controller                            *)
(* ====================================================================== *)

Module PipelineFacts.
Import Extraction Pipeline Samples.
Local Open Scope Z_scope.

(** ** Traces *)

Lemma llm_calls_app (a b : list Event) :
  llm_calls (a ++ b) = (llm_calls a + llm_calls b)%nat.
Proof.
  induction a as [|ev a IH]; [reflexivity|].
  destruct ev; cbn [app llm_calls]; rewrite IH; reflexivity.
Qed.

Lemma compile_calls_app (a b : list Event) :
  compile_calls (a ++ b) = (compile_calls a + compile_calls b)%nat.
Proof.
  induction a as [|ev a IH]; [reflexivity|].
  destruct ev; cbn [app compile_calls]; rewrite IH; reflexivity.
Qed.

Lemma llm_prompts_app (a b : list Event) :
  llm_prompts (a ++ b) = (llm_prompts a ++ llm_prompts b)%list.
Proof.
  induction a as [|ev a IH]; [reflexivity|].
  destruct ev; cbn [app llm_prompts]; rewrite IH; reflexivity.
Qed.

(** ** [truncate] and [buildPrompt] *)

Lemma take_length (n : nat) (s : string) :
  (String.length (take n s) <= n)%nat.
Proof.
  revert s; induction n as [|n IH]; intros [|c s]; simpl; try lia.
  specialize (IH s). lia.
Qed.

Lemma take_all (n : nat) (s : string) :
  (String.length s <= n)%nat -> take n s = s.
Proof.
  revert s; induction n as [|n IH]; intros [|c s] H; simpl in *;
    try reflexivity; try lia.
  f_equal. apply IH. lia.
Qed.

Lemma take_drop (n : nat) (s : string) : (take n s ++ drop n s) = s.
Proof.
  revert s; induction n as [|n IH]; intros [|c s]; simpl; try reflexivity.
  now rewrite IH.
Qed.

(** [truncate] keeps the first [maxLen] bytes, and marks a cut with three
    dots. *)
Lemma truncate_spec (s : string) (maxLen : Z) :
  0 <= maxLen ->
  truncate s maxLen
  = (take (Z.to_nat maxLen) s
     ++ (if len s <=? maxLen then "" else "...")).
Proof.
  intros Hm. unfold truncate, len.
  destruct (Z.of_nat (String.length s) <=? maxLen) eqn:Hle.
  - apply Z.leb_le in Hle. rewrite take_all by lia.
    clear. induction s; simpl; congruence.
  - reflexivity.
Qed.

(** C9: from the second iteration on, and with a non-empty error
    history, [buildPrompt] appends to the task and the format directive a
    feedback section: the number of the previous iteration, the name of
    the last error kind, the last diagnostic message cut to its first 500
    bytes (with three dots after a cut), and the request to fix and
    regenerate; for iteration 1 (and below) nothing is appended; the size
    returned is the byte length of the prompt. *)
Theorem buildPrompt_feedback (j : ExecutionJob) (iteration : Z) :
  let base := (UserPrompt j ++ formatInstructions (Language j)) in
  let msg := LastErrorMessage (LLMCtx j) in
  let kept := take 500 msg in
  (1 < iteration -> ErrorHistory (LLMCtx j) <> [] ->
   fst (buildPrompt j iteration)
   = (base
      ++ (nl ++ nl ++ "=== ERROR FEEDBACK FROM ITERATION ")
      ++ itoa (iteration - 1)
      ++ (" ===" ++ nl)
      ++ ("Error Type: " ++ ErrorType_String (LastErrorType (Metrics j))
          ++ nl)
      ++ ("Error Message: "
          ++ (kept ++ (if len msg <=? 500 then "" else "...")) ++ nl)
      ++ ("Please fix the error and regenerate the code." ++ nl)))
  /\ (String.length kept <= 500)%nat
  /\ (len msg <= 500 -> kept = msg)
  /\ (iteration <= 1 -> fst (buildPrompt j iteration) = base)
  /\ snd (buildPrompt j iteration) = len (fst (buildPrompt j iteration)).
Proof.
  intros base msg kept. subst base msg kept.
  split; [|split; [|split; [|split]]].
  - intros Hit Hhist. unfold buildPrompt. cbn [fst].
    apply Z.ltb_lt in Hit. rewrite Hit.
    destruct (ErrorHistory (LLMCtx j)) as [|e h]; [contradiction|].
    cbn [List.length andb].
    replace (0 <? Z.of_nat (S (List.length h))) with true
      by (symmetry; apply Z.ltb_lt; lia).
    rewrite (truncate_spec _ 500) by lia.
    reflexivity.
  - apply take_length.
  - unfold len. intros H. apply take_all. lia.
  - intros Hit. unfold buildPrompt. cbn [fst].
    replace (1 <? iteration) with false
      by (symmetry; apply Z.ltb_ge; lia).
    reflexivity.
  - reflexivity.
Qed.

Lemma buildPrompt_feedback_witness :
  fst (buildPrompt
         (job_after 5 [ErrorTypeSyntax] (repeat_x 600)) 2)
  = ("write a function that doubles an integer" ++ goFormatInstructions
     ++ (nl ++ nl ++ "=== ERROR FEEDBACK FROM ITERATION ") ++ "1"
     ++ (" ===" ++ nl)
     ++ ("Error Type: " ++ "syntax" ++ nl)
     ++ ("Error Message: " ++ (repeat_x 500 ++ "...") ++ nl)
     ++ ("Please fix the error and regenerate the code." ++ nl)).
Proof.
  refine (eq_trans
    (proj1 (buildPrompt_feedback
              (job_after 5 [ErrorTypeSyntax] (repeat_x 600)) 2) _ _) _).
  - lia.
  - discriminate.
  - vm_compute. reflexivity.
Defined.

(** ** One pass of the loop *)

(** Case analysis along the branches of a pass. *)
Ltac branches H :=
  repeat match type of H with
         | context [if ?c then _ else _] => destruct c eqn:?
         | context [match ?x with _ => _ end] => destruct x eqn:?
         end.

(** Phases 1 to 3 leave the error history and the cap as they found
    them. *)
Lemma reached_preserves (env : IterEnv) (iteration : Z) (st st1 : State)
  (mainCode testCode : string) (result : CompilationResult) :
  generate_extract_compile env iteration st
  = Reached st1 mainCode testCode result ->
  ErrorHistory (LLMCtx (job st1)) = ErrorHistory (LLMCtx (job st)) /\
  MaxIterations (job st1) = MaxIterations (job st).
Proof.
  unfold generate_extract_compile, abort. intros H.
  branches H; try discriminate.
  injection H as <- _ _ _. split; reflexivity.
Qed.

(** The cap read by the loop test is never written by a pass. *)
Lemma continue_keeps_cap (env : IterEnv) (iteration : Z) (st st' : State) :
  iteration_body env iteration st = Continue st' ->
  MaxIterations (job st') = MaxIterations (job st).
Proof.
  unfold iteration_body. intros H.
  destruct (generate_extract_compile env iteration st)
    as [o|st1 mainCode testCode result] eqn:Hg.
  - subst o. unfold generate_extract_compile, abort in Hg.
    branches Hg; discriminate.
  - destruct (reached_preserves _ _ _ _ _ _ _ Hg) as [_ Hm].
    rewrite <- Hm. unfold analyze_result, abort in H.
    branches H; try discriminate; injection H as <-; reflexivity.
Qed.

(** The loop with its test written out ends within one test more than
    there are passes left, with the result of [run_loop]. *)
Lemma run_loop_tested_spec (world : World) (remaining : nat)
  (iteration : Z) (st : State) (fuel : nat) :
  Z.of_nat remaining = Z.max 0 (MaxIterations (job st) - iteration + 1) ->
  (remaining < fuel)%nat ->
  run_loop_tested world fuel iteration st
  = Some (run_loop world remaining iteration st).
Proof.
  revert iteration st fuel.
  induction remaining as [|k IH]; intros iteration st fuel Hrem Hfuel;
    (destruct fuel as [|fuel]; [lia|]); cbn [run_loop_tested run_loop].
  - replace (iteration <=? MaxIterations (job st)) with false
      by (symmetry; apply Z.leb_gt; lia).
    reflexivity.
  - replace (iteration <=? MaxIterations (job st)) with true
      by (symmetry; apply Z.leb_le; lia).
    destruct (iteration_body (world iteration) iteration st) as [st'| |]
      eqn:Hbody; try reflexivity.
    apply IH; [|lia].
    rewrite (continue_keeps_cap _ _ _ _ Hbody). lia.
Qed.

(** The body of [RunCompilationJob] as written: its loop ends, and with
    the result of [run_body]. *)
Lemma run_body_as_written (world : World) (j : ExecutionJob) :
  run_loop_tested world (S (Z.to_nat (MaxIterations j))) 1
    {| job := set_Status "running" j; trace := [] |}
  = Some (run_body world j).
Proof.
  unfold run_body. apply run_loop_tested_spec; [|lia].
  cbn [job MaxIterations set_Status]. lia.
Qed.

(** The loop ends by returning or by a panic. *)
Lemma run_loop_ends (world : World) (remaining : nat) (iteration : Z)
  (st : State) :
  forall st', run_loop world remaining iteration st <> Continue st'.
Proof.
  revert iteration st.
  induction remaining as [|k IH]; intros iteration st st'.
  - discriminate.
  - cbn [run_loop].
    destruct (iteration_body (world iteration) iteration st);
      [apply IH | discriminate | discriminate].
Qed.

(** When the guards pass, the model answers without error and not with
    the empty string, the extraction yields main code, and the backend
    returns a result without error, the pass reaches the evaluation of
    that result. *)
Lemma reaches_compile_result (env : IterEnv) (iteration : Z) (st : State)
  (llmResponse : string) (updatedContext : list Z)
  (mainCode testCode strategy : string) (result : CompilationResult) :
  ctx_done env = false ->
  elapsed env <= Timeout (job st) ->
  snd (buildPrompt (job st) iteration) <= MaxPromptSize ->
  GetOllamaResponse env (fst (buildPrompt (job st) iteration))
    (ConversationTokens (LLMCtx (job st))) (Model (job st))
  = (llmResponse, updatedContext, None) ->
  llmResponse <> "" ->
  ExtractWithFallback NewExtractor llmResponse
  = (mainCode, testCode, strategy) ->
  mainCode <> "" ->
  compileLanguage env (Language (job st)) mainCode testCode
  = (Some result, None) ->
  exists st1,
    generate_extract_compile env iteration st
    = Reached st1 mainCode testCode result /\
    llm_calls (trace st1) = S (llm_calls (trace st)) /\
    compile_calls (trace st1) = S (compile_calls (trace st)).
Proof.
  intros Hctx Htime Hsize Hllm Hresp Hext Hmain Hcomp.
  unfold generate_extract_compile. rewrite Hctx.
  replace (Timeout (job st) <? elapsed env) with false
    by (symmetry; apply Z.ltb_ge; exact Htime).
  change (buildPrompt (job (on_job _ st)) iteration)
    with (buildPrompt (job st) iteration).
  destruct (buildPrompt (job st) iteration) as [prompt promptSize].
  cbn [fst snd] in *.
  replace (MaxPromptSize <? promptSize) with false
    by (symmetry; apply Z.ltb_ge; exact Hsize).
  cbn [job on_job LLMCtx Model ConversationTokens set_Metrics].
  rewrite Hllm.
  apply String.eqb_neq in Hresp, Hmain. rewrite Hresp, Hext, Hmain.
  cbn [job on_job emit Language set_Metrics set_LLMCtx].
  rewrite Hcomp.
  eexists. split; [reflexivity|].
  cbn [trace emit on_job].
  rewrite !llm_calls_app, !compile_calls_app. cbn. lia.
Qed.

(** C4: when the prompt built for an iteration is larger than
    [MaxPromptSize], the iteration ends the job with status ["aborted"]
    and reason ["prompt_size_exceeded"]; all it does to the outside is to
    send the abort message: neither the model client nor a compile
    backend is called. *)
Theorem prompt_size_guard (env : IterEnv) (iteration : Z) (st : State) :
  ctx_done env = false ->
  elapsed env <= Timeout (job st) ->
  MaxPromptSize < snd (buildPrompt (job st) iteration) ->
  exists st' d,
    iteration_body env iteration st = Return st' /\
    Status (job st') = "aborted" /\
    AbortReason (job st') = "prompt_size_exceeded" /\
    trace st' = (trace st ++ [EvAbort d])%list /\
    ab_Reason d = "prompt_size_exceeded" /\
    llm_calls (trace st') = llm_calls (trace st) /\
    compile_calls (trace st') = compile_calls (trace st).
Proof.
  intros Hctx Htime Hsize.
  unfold iteration_body, generate_extract_compile.
  rewrite Hctx.
  replace (Timeout (job st) <? elapsed env) with false
    by (symmetry; apply Z.ltb_ge; exact Htime).
  change (buildPrompt (job (on_job _ st)) iteration)
    with (buildPrompt (job st) iteration).
  destruct (buildPrompt (job st) iteration) as [prompt promptSize].
  cbn [snd] in Hsize. apply Z.ltb_lt in Hsize. rewrite Hsize.
  unfold abort, sendAbortMessage, emit, on_job. cbn [job trace].
  eexists. eexists. split; [reflexivity|]. cbn [job trace].
  repeat split; try reflexivity.
  - rewrite llm_calls_app. cbn. lia.
  - rewrite compile_calls_app. cbn. lia.
Qed.

Lemma prompt_size_guard_witness :
  exists st' d,
    iteration_body (env_of false reply_go (Some success, None)) 1
      {| job := job_big_prompt; trace := [] |}
    = Return st' /\
    Status (job st') = "aborted" /\
    AbortReason (job st') = "prompt_size_exceeded" /\
    trace st' = [EvAbort d] /\
    ab_Reason d = "prompt_size_exceeded" /\
    llm_calls (trace st') = 0%nat /\
    compile_calls (trace st') = 0%nat.
Proof.
  apply (prompt_size_guard
           (env_of false reply_go (Some success, None)) 1
           {| job := job_big_prompt; trace := [] |}).
  - reflexivity.
  - vm_compute. discriminate.
  - vm_compute. reflexivity.
Defined.

(** ** The stuck-loop guard and the iteration cap *)

Lemma ErrorType_eqb_eq (a b : ErrorType) :
  ErrorType_eqb a b = true <-> a = b.
Proof. destruct a, b; simpl; split; congruence. Qed.

Lemma ErrorType_eqb_neq (a b : ErrorType) :
  ErrorType_eqb a b = false <-> a <> b.
Proof. destruct a, b; simpl; split; congruence. Qed.

(** The guard fires on every history that ends in three equal kinds
    other than success. *)
Lemma same_error_repeating_fires (older : list ErrorType) (k : ErrorType) :
  k <> ErrorTypeSuccess ->
  same_error_repeating (older ++ [k; k; k]) k = true.
Proof.
  intros Hk. unfold same_error_repeating, SameErrorThreshold.
  rewrite length_app. cbn [List.length].
  replace (3 <=? Z.of_nat (List.length older + 3)) with true
    by (symmetry; apply Z.leb_le; lia).
  replace (List.length older + 3 - Z.to_nat 3)%nat
    with (List.length older + 0)%nat by lia.
  rewrite skipn_app, skipn_all2 by lia.
  replace (List.length older + 0 - List.length older)%nat with 0%nat by lia.
  cbn [skipn app forallb andb].
  assert (Hr : ErrorType_eqb k k = true) by now apply ErrorType_eqb_eq.
  rewrite Hr. apply ErrorType_eqb_neq in Hk. rewrite Hk. reflexivity.
Qed.

(** C3: an iteration reaches a compile result that is no success; with
    its error kind appended, the history ends in three equal kinds, not
    success and not infrastructure, after any older entries: the
    evaluation of that iteration ends the job with status ["aborted"],
    reason ["same_error_threshold"] and [SameErrorCount] 3. *)
Theorem same_error_threshold_abort (env : IterEnv) (iteration : Z)
  (st st1 : State) (mainCode testCode : string)
  (result : CompilationResult) (older : list ErrorType) (k : ErrorType) :
  generate_extract_compile env iteration st
  = Reached st1 mainCode testCode result ->
  Success result = false ->
  (ErrorHistory (LLMCtx (job st)) ++ [ErrorType_ result])%list
  = (older ++ [k; k; k])%list ->
  k <> ErrorTypeSuccess ->
  k <> ErrorTypeInfrastructure ->
  exists st',
    iteration_body env iteration st = Return st' /\
    Status (job st') = "aborted" /\
    AbortReason (job st') = "same_error_threshold" /\
    SameErrorCount (Metrics (job st')) = 3.
Proof.
  intros Hreach Hfail Hhist Hns Hni.
  destruct (reached_preserves _ _ _ _ _ _ _ Hreach) as [Hh _].
  assert (Hk : ErrorType_ result = k).
  { apply (f_equal (fun l => List.last l ErrorTypeUnknown)) in Hhist.
    rewrite last_last in Hhist.
    change (older ++ [k; k; k])%list
      with (older ++ [k; k] ++ [k])%list in Hhist.
    rewrite !app_assoc, last_last in Hhist. exact Hhist. }
  unfold iteration_body. rewrite Hreach. unfold analyze_result.
  rewrite Hfail.
  cbn [job on_job sendIterationMessage emit LLMCtx Metrics ErrorHistory
       set_Metrics set_LLMCtx set_LastErrorMessage set_ErrorHistory].
  rewrite Hh, Hhist, Hk.
  apply ErrorType_eqb_neq in Hni. rewrite Hni.
  rewrite (same_error_repeating_fires older k Hns).
  eexists. split; [reflexivity|]. repeat split; reflexivity.
Qed.

Lemma same_error_threshold_abort_witness :
  exists st',
    iteration_body
      (env_of false reply_go
         (Some (failure ErrorTypeSyntax "main.go:3:1: syntax error"), None))
      4
      {| job := job_after 10
                  [ErrorTypeType; ErrorTypeSyntax; ErrorTypeSyntax]
                  "main.go:3:1: syntax error";
         trace := [] |}
    = Return st' /\
    Status (job st') = "aborted" /\
    AbortReason (job st') = "same_error_threshold" /\
    SameErrorCount (Metrics (job st')) = 3.
Proof.
  eapply (same_error_threshold_abort _ 4 _ _ _ _ _
            [ErrorTypeType] ErrorTypeSyntax).
  - vm_compute. reflexivity.
  - reflexivity.
  - reflexivity.
  - discriminate.
  - discriminate.
Defined.

(** C5: an iteration whose index is the cap reaches a compile result
    that is no success and no infrastructure error, and the stuck-loop
    guard does not fire on the history with its kind appended: the
    iteration ends the job with status ["aborted"], reason
    ["max_iterations_reached"], and that result as [FinalResult]. *)
Theorem max_iterations_abort (env : IterEnv) (iteration : Z)
  (st st1 : State) (mainCode testCode : string)
  (result : CompilationResult) :
  generate_extract_compile env iteration st
  = Reached st1 mainCode testCode result ->
  iteration = MaxIterations (job st) ->
  Success result = false ->
  ErrorType_ result <> ErrorTypeInfrastructure ->
  same_error_repeating
    (ErrorHistory (LLMCtx (job st)) ++ [ErrorType_ result])
    (ErrorType_ result) = false ->
  exists st',
    iteration_body env iteration st = Return st' /\
    Status (job st') = "aborted" /\
    AbortReason (job st') = "max_iterations_reached" /\
    FinalResult (job st') = Some result.
Proof.
  intros Hreach Hcap Hfail Hni Hguard.
  destruct (reached_preserves _ _ _ _ _ _ _ Hreach) as [Hh Hm].
  unfold iteration_body. rewrite Hreach. unfold analyze_result.
  rewrite Hfail.
  cbn [job on_job sendIterationMessage emit LLMCtx Metrics ErrorHistory
       set_Metrics set_LLMCtx set_LastErrorMessage set_ErrorHistory
       MaxIterations].
  rewrite Hh, Hguard, Hm.
  apply ErrorType_eqb_neq in Hni. rewrite Hni.
  replace (MaxIterations (job st) <=? iteration) with true
    by (symmetry; apply Z.leb_le; lia).
  eexists. split; [reflexivity|]. repeat split; reflexivity.
Qed.

Lemma max_iterations_abort_witness :
  exists st',
    iteration_body
      (env_of false reply_go
         (Some (failure ErrorTypeSyntax "main.go:3:1: syntax error"), None))
      3
      {| job := job_after 3 [ErrorTypeType; ErrorTypeSyntax]
                  "main.go:3:1: syntax error";
         trace := [] |}
    = Return st' /\
    Status (job st') = "aborted" /\
    AbortReason (job st') = "max_iterations_reached" /\
    FinalResult (job st')
    = Some (failure ErrorTypeSyntax "main.go:3:1: syntax error").
Proof.
  eapply (max_iterations_abort _ 3).
  - vm_compute. reflexivity.
  - reflexivity.
  - reflexivity.
  - discriminate.
  - reflexivity.
Defined.

(** ** Infrastructure errors *)

(** What the code does on an infrastructure error: in iteration 1 the
    loop goes on to the next pass, from iteration 2 on the job is aborted,
    whatever the history holds. *)
Lemma infrastructure_error_step (env : IterEnv) (iteration : Z)
  (st st1 : State) (mainCode testCode : string)
  (result : CompilationResult) :
  generate_extract_compile env iteration st
  = Reached st1 mainCode testCode result ->
  Success result = false ->
  ErrorType_ result = ErrorTypeInfrastructure ->
  (iteration < 2 ->
   exists st', iteration_body env iteration st = Continue st' /\
               LastErrorType (Metrics (job st')) = ErrorTypeInfrastructure /\
               llm_calls (trace st') = llm_calls (trace st1)) /\
  (2 <= iteration ->
   exists st', iteration_body env iteration st = Return st' /\
               Status (job st') = "aborted" /\
               AbortReason (job st') = "infrastructure_error_persistent").
Proof.
  intros Hreach Hfail Hinfra.
  unfold iteration_body. rewrite Hreach. unfold analyze_result.
  rewrite Hfail, Hinfra. cbn [ErrorType_eqb].
  split; intros Hit.
  - replace (iteration <? 2) with true by (symmetry; apply Z.ltb_lt; lia).
    eexists. split; [reflexivity|]. split; [reflexivity|].
    cbn [trace on_job sendIterationMessage emit].
    rewrite llm_calls_app. cbn. lia.
  - replace (iteration <? 2) with false by (symmetry; apply Z.ltb_ge; lia).
    eexists. split; [reflexivity|]. split; reflexivity.
Qed.

(** C2, the code at two inputs.  First: the backend reports an
    infrastructure error in iteration 1 and success afterwards; the
    controller goes to iteration 2, where it calls the model client a
    second time, with a prompt that carries the infrastructure error as
    feedback.  Second: the backend reports a type error in iteration 1
    and an infrastructure error, the first of the job, in iteration 2;
    the controller aborts at once with
    ["infrastructure_error_persistent"]. *)
Theorem infrastructure_error_handling_observed :
  (let st := RunCompilationJob (world_of_kinds [ErrorTypeInfrastructure])
               (fresh_job 3) in
   ErrorHistory (LLMCtx (job st)) = [ErrorTypeInfrastructure] /\
   llm_calls (trace st) = 2%nat /\
   nth 1 (llm_prompts (trace st)) ""
   = "write a function that doubles an integer" ++ goFormatInstructions
     ++ (nl ++ nl ++ "=== ERROR FEEDBACK FROM ITERATION 1 ===" ++ nl)
     ++ ("Error Type: infrastructure" ++ nl)
     ++ ("Error Message: main.go:1:1: error" ++ nl)
     ++ ("Please fix the error and regenerate the code." ++ nl))
  /\
  (exists st,
     run_body (world_of_kinds [ErrorTypeType; ErrorTypeInfrastructure])
       (fresh_job 3) = Return st /\
     ErrorHistory (LLMCtx (job st))
     = [ErrorTypeType; ErrorTypeInfrastructure] /\
     IterationCount (Metrics (job st)) = 2 /\
     Status (job st) = "aborted" /\
     AbortReason (job st) = "infrastructure_error_persistent").
Proof.
  split.
  - vm_compute. repeat split; reflexivity.
  - eexists. split; [vm_compute; reflexivity|].
    repeat split; reflexivity.
Qed.

(** ** The deferred function *)

(** Whatever the body did, the job leaves [RunCompilationJob] with
    status ["completed"]. *)
Lemma RunCompilationJob_status (world : World) (j : ExecutionJob) :
  Status (job (RunCompilationJob world j)) = "completed".
Proof.
  unfold RunCompilationJob. destruct (run_body world j); reflexivity.
Qed.

(** The deferred function keeps the reason of a returning body. *)
Lemma deferred_keeps_reason (st : State) :
  AbortReason (job (deferred (Return st))) = AbortReason (job st).
Proof. reflexivity. Qed.

(** C1, the code at one input and in general.  A job cancelled before
    its first iteration: the body sets the status to ["aborted"] and
    returns; the deferred function then sets it to ["completed"], which
    is the status the job ends with; the reason stays ["user_cancelled"].
    In general no job leaves [RunCompilationJob] with status
    ["aborted"]. *)
Theorem aborted_status_overwritten :
  (exists st,
     run_body world_cancelled (fresh_job 3) = Return st /\
     Status (job st) = "aborted" /\
     AbortReason (job st) = "user_cancelled") /\
  Status (job (RunCompilationJob world_cancelled (fresh_job 3)))
  = "completed" /\
  AbortReason (job (RunCompilationJob world_cancelled (fresh_job 3)))
  = "user_cancelled" /\
  (forall (world : World) (j : ExecutionJob),
     Status (job (RunCompilationJob world j)) <> "aborted").
Proof.
  split.
  - eexists. split; [vm_compute; reflexivity|]. split; reflexivity.
  - split; [vm_compute; reflexivity|].
    split; [vm_compute; reflexivity|].
    intros world j. rewrite RunCompilationJob_status. discriminate.
Qed.

(** A backend that returns neither a result nor an error makes the
    body panic; the deferred function recovers, and the job ends with
    status ["completed"] and reason ["internal_panic"]. *)
Lemma panic_recovered :
  let world : World := fun _ => env_of false reply_go (None, None) in
  (exists st, run_body world (fresh_job 3) = Panic st) /\
  Status (job (RunCompilationJob world (fresh_job 3))) = "completed" /\
  AbortReason (job (RunCompilationJob world (fresh_job 3)))
  = "internal_panic".
Proof.
  split.
  - eexists. vm_compute. reflexivity.
  - split; vm_compute; reflexivity.
Qed.

(** ** The repository's backends *)

(** With the stub backends of the repository, a job in a supported
    language whose first reply extracts ends in iteration 1 with reason
    ["compilation_failed"]. *)
Lemma stub_backend_run :
  AbortReason (job (RunCompilationJob (fun _ => env_stub) (fresh_job 3)))
  = "compilation_failed" /\
  IterationCount
    (Metrics (job (RunCompilationJob (fun _ => env_stub) (fresh_job 3))))
  = 1.
Proof. split; vm_compute; reflexivity. Qed.

(** ** Prompts that reach the model client *)

Lemma buildPrompt_size (j : ExecutionJob) (iteration : Z) :
  snd (buildPrompt j iteration) = len (fst (buildPrompt j iteration)).
Proof. reflexivity. Qed.

Lemma within_emit (tr : list Event) (ev : Event) :
  within tr ->
  match ev with
  | EvLLMCall p _ _ => len p <= MaxPromptSize
  | _ => True
  end ->
  within (tr ++ [ev]).
Proof.
  unfold within. intros Htr Hev. rewrite llm_prompts_app.
  apply Forall_app. split; [exact Htr|].
  destruct ev; cbn [llm_prompts]; auto.
Qed.

Lemma generate_extract_compile_within (env : IterEnv) (iteration : Z)
  (st : State) :
  within (trace st) ->
  match generate_extract_compile env iteration st with
  | Stopped o => within (trace (outcome_state o))
  | Reached st1 _ _ _ => within (trace st1)
  end.
Proof.
  intros Hst. unfold generate_extract_compile, abort.
  destruct (ctx_done env); [now apply within_emit|].
  destruct (Timeout (job st) <? elapsed env); [now apply within_emit|].
  pose proof (buildPrompt_size
       (job (on_job (fun j =>
          set_Metrics (set_IterationCount iteration (Metrics j)) j) st))
       iteration) as Hsize.
  destruct (buildPrompt _ iteration) as [prompt promptSize].
  cbn [fst snd] in Hsize.
  destruct (MaxPromptSize <? promptSize) eqn:Hcap;
    [now apply within_emit|].
  apply Z.ltb_ge in Hcap.
  assert (Hcall : forall tokens model,
            within (trace st ++ [EvLLMCall prompt tokens model])).
  { intros. apply within_emit; [exact Hst | lia]. }
  destruct (GetOllamaResponse env prompt _ _) as [[llmResponse ctx'] llmErr].
  destruct llmErr; [apply within_emit; [apply Hcall | exact I]|].
  destruct (String.eqb llmResponse "");
    [apply within_emit; [apply Hcall | exact I]|].
  destruct (ExtractWithFallback NewExtractor llmResponse)
    as [[mainCode testCode] strategy].
  destruct (String.eqb mainCode "");
    [apply within_emit; [apply Hcall | exact I]|].
  destruct (compileLanguage env _ mainCode testCode) as [result compileErr].
  destruct compileErr.
  - apply within_emit; [|exact I].
    apply within_emit; [apply Hcall | exact I].
  - destruct result; cbn [outcome_state trace emit on_job];
      (apply within_emit; [apply Hcall | exact I]).
Qed.

Lemma analyze_result_within (iteration : Z) (st : State)
  (mainCode testCode : string) (result : CompilationResult) :
  within (trace st) ->
  within (trace (outcome_state
                   (analyze_result iteration st mainCode testCode result))).
Proof.
  intros Hst. unfold analyze_result, abort.
  assert (H1 : forall d, within (trace st ++ [EvIteration d]))
    by (intros; now apply within_emit).
  destruct (Success result).
  - apply within_emit; [apply H1 | exact I].
  - destruct (ErrorType_eqb (ErrorType_ result) ErrorTypeInfrastructure).
    + destruct (iteration <? 2); [apply H1|].
      apply within_emit; [apply H1 | exact I].
    + destruct (same_error_repeating _ _).
      * apply within_emit; [apply H1 | exact I].
      * destruct (MaxIterations _ <=? iteration); [|apply H1].
        apply within_emit; [apply H1 | exact I].
Qed.

Lemma iteration_body_within (env : IterEnv) (iteration : Z) (st : State) :
  within (trace st) ->
  within (trace (outcome_state (iteration_body env iteration st))).
Proof.
  intros Hst. unfold iteration_body.
  pose proof (generate_extract_compile_within env iteration st Hst) as H.
  destruct (generate_extract_compile env iteration st); [exact H|].
  now apply analyze_result_within.
Qed.

Lemma run_loop_within (world : World) (remaining : nat) (iteration : Z)
  (st : State) :
  within (trace st) ->
  within (trace (outcome_state (run_loop world remaining iteration st))).
Proof.
  revert iteration st.
  induction remaining as [|k IH]; intros iteration st Hst.
  - exact Hst.
  - cbn [run_loop].
    pose proof (iteration_body_within (world iteration) iteration st Hst)
      as H.
    destruct (iteration_body (world iteration) iteration st);
      cbn [outcome_state] in *; auto.
Qed.

(** No prompt larger than [MaxPromptSize] reaches the model client, in
    any job and any environment. *)
Lemma llm_prompts_within_limit (world : World) (j : ExecutionJob) :
  Forall (fun p => len p <= MaxPromptSize)
    (llm_prompts (trace (RunCompilationJob world j))).
Proof.
  unfold RunCompilationJob, run_body.
  pose proof (run_loop_within world (Z.to_nat (MaxIterations j)) 1
                {| job := set_Status "running" j; trace := [] |}
                (Forall_nil _)) as H.
  destruct (run_loop _ _ _ _); exact H.
Qed.

(** ** The feedback of the next prompt *)

(** When an iteration ends with [Continue], the job holds the kind and
    the diagnostics of that iteration's result as last error, and a
    non-empty history: the next prompt reports them. *)
Lemma continue_records_error (iteration : Z) (st st' : State)
  (mainCode testCode : string) (result : CompilationResult) :
  analyze_result iteration st mainCode testCode result = Continue st' ->
  LastErrorType (Metrics (job st')) = ErrorType_ result /\
  LastErrorMessage (LLMCtx (job st')) = Join (CompileErrors result) "; " /\
  ErrorHistory (LLMCtx (job st')) <> [].
Proof.
  unfold analyze_result, abort. intros H.
  branches H; try discriminate; injection H as <-;
    (split; [reflexivity|]; split; [reflexivity|]);
    cbn; intros E; apply app_eq_nil in E as [_ E]; discriminate.
Qed.

End PipelineFacts.

(* ====================================================================== *)
(** * More facts about the string functions                                *)
(* ====================================================================== *)

Module StringFacts.
Import ScanFacts.

Lemma app_empty_r (s : string) : s ++ "" = s.
Proof. induction s as [|c s IH]; simpl; [reflexivity | now rewrite IH]. Qed.

Lemma prefix_empty (s : string) : String.prefix "" s = true.
Proof. destruct s; reflexivity. Qed.

(** A prefix of a text is a prefix of every extension of it. *)
Lemma prefix_extend (p s t : string) :
  String.prefix p s = true -> String.prefix p (s ++ t) = true.
Proof.
  revert s; induction p as [|a p IH]; intros s H.
  - apply prefix_empty.
  - destruct s as [|b s]; simpl in H; [discriminate|].
    simpl. destruct (ascii_dec a b); [now apply IH | discriminate].
Qed.

(** [index_from] answers [-1] or an offset from its start value. *)
Lemma index_from_range (i : Z) (s substr : string) :
  (0 <= i)%Z ->
  (index_from i s substr = -1 \/ i <= index_from i s substr)%Z.
Proof.
  revert i; induction s as [|c s IH]; intros i Hi; cbn [index_from].
  - destruct (String.prefix substr ""); [right; lia | left; reflexivity].
  - destruct (String.prefix substr (String c s)); [right; lia|].
    destruct (IH (i + 1)%Z) as [H|H]; [lia | now left | right; lia].
Qed.

(** Whether [index_from] finds an occurrence does not depend on the
    start value. *)
Lemma index_from_found (i j : Z) (s substr : string) :
  (0 <= i)%Z -> (0 <= j)%Z ->
  (0 <= index_from i s substr)%Z -> (0 <= index_from j s substr)%Z.
Proof.
  revert i j; induction s as [|c s IH]; intros i j Hi Hj; cbn [index_from].
  - destruct (String.prefix substr ""); lia.
  - destruct (String.prefix substr (String c s)); [lia|].
    apply IH; lia.
Qed.

(** [Contains] holds exactly for the texts with an occurrence. *)
Lemma Contains_iff (s substr : string) :
  Contains s substr = true <-> exists a b, s = a ++ substr ++ b.
Proof.
  unfold Contains, Index. rewrite Z.leb_le. split.
  - induction s as [|c s IH]; cbn [index_from].
    + destruct (String.prefix substr "") eqn:Hp; [|lia].
      intros _. exists "", (drop (String.length substr) "").
      exact (prefix_split _ _ Hp).
    + destruct (String.prefix substr (String c s)) eqn:Hp.
      * intros _. exists "", (drop (String.length substr) (String c s)).
        exact (prefix_split _ _ Hp).
      * intros H.
        destruct IH as (a & b & E);
          [exact (index_from_found 1 0 _ _ ltac:(lia) ltac:(lia) H)|].
        exists (String c a), b. simpl. now rewrite E.
  - intros (a & b & ->). induction a as [|c a IH].
    + simpl. destruct (substr ++ b) eqn:E; cbn [index_from];
        rewrite <- E, prefix_app; lia.
    + change (String c a ++ substr ++ b) with (String c (a ++ substr ++ b)).
      cbn [index_from].
      destruct (String.prefix substr (String c (a ++ substr ++ b))); [lia|].
      exact (index_from_found 0 1 _ _ ltac:(lia) ltac:(lia) IH).
Qed.

(** An occurrence in a part is an occurrence in the whole. *)
Lemma Contains_part (a x b substr : string) :
  Contains x substr = true -> Contains (a ++ x ++ b) substr = true.
Proof.
  rewrite !Contains_iff. intros (u & v & ->).
  exists (a ++ u), (v ++ b). now rewrite !app_assoc.
Qed.

(** Every piece of a split is a part of the text. *)
Lemma split_scan_part (sep : string) (s : string) :
  forall (skip : nat) (cur x : string),
    skip = 0 \/ cur = "" ->
    In x (split_scan sep skip cur s) ->
    exists a b, cur ++ s = a ++ x ++ b.
Proof.
  induction s as [|c s IH]; intros skip cur x Hok Hin.
  - cbn [split_scan] in Hin. destruct Hin as [E|E]; [subst x|contradiction].
    exists "", "". now rewrite !app_empty_r.
  - cbn [split_scan] in Hin. destruct skip as [|k].
    + destruct (String.prefix sep (String c s)).
      * destruct Hin as [E|Hin].
        -- subst x. exists "", (String c s). reflexivity.
        -- destruct (IH _ _ _ (or_intror eq_refl) Hin) as (a & b & E).
           cbn [append] in E.
           exists (cur ++ String c a), b.
           rewrite app_assoc. cbn [append]. now rewrite E.
      * destruct (IH _ _ _ (or_introl eq_refl) Hin) as (a & b & E).
        exists a, b. rewrite <- E, app_assoc. reflexivity.
    + destruct Hok as [Hok| ->]; [discriminate|].
      destruct (IH _ _ _ (or_intror eq_refl) Hin) as (a & b & E).
      cbn [append] in *. exists (String c a), b. cbn [append]. now rewrite E.
Qed.

Lemma Split_part (s sep x : string) :
  In x (Split s sep) -> exists a b, s = a ++ x ++ b.
Proof.
  intros H. exact (split_scan_part sep s 0 "" x (or_introl eq_refl) H).
Qed.



Lemma drop_drop_one (n : nat) (c : ascii) (s : string) :
  drop (S n) (String c s) = drop n s.
Proof. reflexivity. Qed.



(** ** Reversal and the trimming of backticks *)

Lemma rev_onto_app (s acc : string) : rev_onto s acc = rev s ++ acc.
Proof.
  unfold rev. revert acc; induction s as [|c s IH]; intros acc;
    cbn [rev_onto]; [reflexivity|].
  rewrite IH, (IH (String c "")), app_assoc. reflexivity.
Qed.

Lemma rev_cons (c : ascii) (s : string) :
  rev (String c s) = rev s ++ String c "".
Proof. unfold rev at 1. cbn [rev_onto]. apply rev_onto_app. Qed.

Lemma rev_app (a b : string) : rev (a ++ b) = rev b ++ rev a.
Proof.
  induction a as [|c a IH]; cbn [append].
  - now rewrite app_empty_r.
  - now rewrite !rev_cons, IH, app_assoc.
Qed.

Lemma rev_rev (s : string) : rev (rev s) = s.
Proof.
  induction s as [|c s IH]; [reflexivity|].
  now rewrite rev_cons, rev_app, IH.
Qed.

(** Trimming a byte at the head stops at the first other byte. *)
Lemma trim_left_byte_stops (b c : ascii) (y z : string) :
  Ascii.eqb c b = false ->
  exists y', trim_left_byte b (y ++ String c z) = y' ++ String c z.
Proof.
  intros Hc. induction y as [|d y IH]; cbn [append trim_left_byte].
  - rewrite Hc. now exists "".
  - destruct (Ascii.eqb d b); [exact IH|]. now exists (String d y).
Qed.

(** [TrimBackticks] keeps a head that starts and ends with bytes other
    than the backtick. *)
Lemma TrimBackticks_keeps_head (c0 c : ascii) (p x : string) :
  Ascii.eqb c0 backtick = false ->
  Ascii.eqb c backtick = false ->
  exists x',
    TrimBackticks (String c0 (p ++ String c x))
    = String c0 (p ++ String c x').
Proof.
  intros H0 Hc. unfold TrimBackticks.
  cbn [trim_left_byte]. rewrite H0.
  change (String c0 (p ++ String c x))
    with ((String c0 p) ++ String c x).
  rewrite rev_app, rev_cons.
  rewrite app_assoc. cbn [append].
  destruct (trim_left_byte_stops backtick c (rev x) (rev (String c0 p)) Hc)
    as (y' & E).
  rewrite E, rev_app, rev_cons, rev_rev.
  exists (rev y'). rewrite app_assoc. reflexivity.
Qed.

End StringFacts.

(* ====================================================================== *)
(** * More about the extraction chain                                      *)
(* ====================================================================== *)

Module ChainFacts.
Import Regexp Extraction ExtractGo Samples ScanFacts StringFacts
       ExtractionFacts.

(** ** What the scan finds *)

Lemma skip_lower_split (s : string) :
  exists tag, s = tag ++ skip_lower s /\ all_lower tag = true.
Proof.
  induction s as [|c s IH]; cbn [skip_lower].
  - now exists "".
  - destruct (is_lower c) eqn:Hc.
    + destruct IH as (tag & E & Ht). exists (String c tag).
      cbn [append all_lower]. rewrite Hc, Ht. split; [now f_equal|reflexivity].
    + now exists "".
Qed.

(** An opening fence is three backticks, lower-case letters and a line
    feed. *)
Lemma open_any_shape (s r : string) :
  open_any s = Some r ->
  exists tag, s = fence ++ tag ++ nl ++ r /\ all_lower tag = true.
Proof.
  unfold open_any. destruct (String.prefix fence s) eqn:Hp; [|discriminate].
  apply prefix_split in Hp. change (String.length fence) with 3 in Hp.
  destruct (skip_lower_split (drop 3 s)) as (tag & E & Ht).
  destruct (skip_lower (drop 3 s)) as [|c r']; [discriminate|].
  destruct (Ascii.eqb c "010") eqn:Hc; [|discriminate].
  apply Ascii.eqb_eq in Hc. subst c. intros H. injection H as <-.
  exists tag. split; [|exact Ht]. rewrite Hp at 1. now rewrite E at 1.
Qed.

(** The lazy group ends at the first closing fence: the text is the body,
    the fence and the rest, and the body holds no fence. *)
Lemma cut_fence_shape (s body rest : string) :
  cut_fence s = Some (body, rest) ->
  s = body ++ fence ++ rest /\ Contains body fence = false.
Proof.
  revert body rest; induction s as [|c s IH]; intros body rest;
    cbn [cut_fence].
  - discriminate.
  - destruct (String.prefix fence (String c s)) eqn:Hp.
    + intros H. injection H as <- <-.
      apply prefix_split in Hp. split; [exact Hp | reflexivity].
    + destruct (cut_fence s) as [[b r]|]; [|discriminate].
      intros H. injection H as <- <-.
      destruct (IH b r eq_refl) as [E Hb]. subst s. split; [reflexivity|].
      destruct (Contains (String c b) fence) eqn:Hc; [|reflexivity].
      exfalso. unfold Contains, Index in Hc, Hb.
      apply Z.leb_le in Hc. apply Z.leb_gt in Hb.
      cbn [index_from] in Hc.
      destruct (String.prefix fence (String c b)) eqn:Hq.
      * apply (prefix_extend _ _ (fence ++ r)) in Hq.
        cbn [append] in Hq. congruence.
      * pose proof (index_from_found 1 0 b fence ltac:(lia) ltac:(lia) Hc).
        lia.
Qed.

(** Every body the scan returns stands in the text between an opening
    fence and the next three backticks. *)
Lemma find_all_from_delimited (s : string) :
  forall (skip : nat) (body : string),
    In body (find_all_from open_any skip s) ->
    exists pre tag post,
      s = pre ++ fence ++ tag ++ nl ++ body ++ fence ++ post /\
      all_lower tag = true /\
      Contains body fence = false.
Proof.
  induction s as [|c s IH]; intros skip body Hin; cbn [find_all_from] in Hin.
  - contradiction.
  - assert (Hrest : forall k, In body (find_all_from open_any k s) ->
              exists pre tag post,
                String c s
                = pre ++ fence ++ tag ++ nl ++ body ++ fence ++ post /\
                all_lower tag = true /\ Contains body fence = false).
    { intros k Hk. destruct (IH k body Hk) as (pre & tag & post & E & Ht & Hb).
      exists (String c pre), tag, post. cbn [append]. rewrite <- E.
      now repeat split. }
    destruct skip as [|k]; [|exact (Hrest _ Hin)].
    destruct (match_here open_any (String c s)) as [[b n]|] eqn:Hm;
      [|exact (Hrest _ Hin)].
    destruct Hin as [E|Hin]; [subst b|exact (Hrest _ Hin)].
    unfold match_here in Hm.
    destruct (open_any (String c s)) as [r|] eqn:Ho; [|discriminate].
    destruct (cut_fence r) as [[b rest]|] eqn:Hc; [|discriminate].
    injection Hm as <- _.
    destruct (open_any_shape _ _ Ho) as (tag & E & Ht).
    destruct (cut_fence_shape _ _ _ Hc) as [Er Hb].
    exists "", tag, rest. cbn [append]. rewrite E, Er. now repeat split.
Qed.

(** X16: every block body that the scan for fenced blocks returns
    stands in the response between an opening fence, made of three
    backticks, a tag of lower-case letters (or none) and a line feed, and
    the next three backticks; the body itself holds no three backticks in
    a row. *)
Theorem found_blocks_delimited (response body : string) :
  In body (FindAllCodeBlocks response) ->
  exists pre tag post,
    response = pre ++ "```" ++ tag ++ nl ++ body ++ "```" ++ post /\
    all_lower tag = true /\
    Contains body "```" = false.
Proof. apply find_all_from_delimited. Qed.

Lemma found_blocks_delimited_witness :
  exists pre tag post,
    reply_stray = pre ++ "```" ++ tag ++ nl ++ "hello " ++ "```" ++ post /\
    all_lower tag = true /\
    Contains "hello " "```" = false.
Proof.
  apply (found_blocks_delimited reply_stray "hello ").
  vm_compute. tauto.
Defined.

(** ** What the strategies return *)

Lemma nonzero_length (s : string) : (String.length s =? 0) = false -> s <> "".
Proof. destruct s; simpl; congruence. Qed.

Lemma StandardFormat_nonempty (response main test : string) :
  StandardFormat_Extract response = Ok (main, test) ->
  main <> "" /\ test <> "".
Proof.
  unfold StandardFormat_Extract.
  destruct (FindAllCodeBlocks response) as [|m0 [|m1 ms]]; try discriminate.
  destruct (String.length (TrimSpace m0) =? 0) eqn:H0; [discriminate|].
  destruct (String.length (TrimSpace m1) =? 0) eqn:H1; [discriminate|].
  cbn [orb]. intros H. injection H as <- <-.
  split; now apply nonzero_length.
Qed.

Lemma LanguageTag_nonempty (response main test : string) :
  LanguageTag_Extract response = Ok (main, test) ->
  main <> "" /\ test <> "".
Proof.
  unfold LanguageTag_Extract.
  destruct (FindAllGoBlocks response) as [|m0 [|m1 ms]]; try discriminate.
  destruct (String.length (TrimSpace m0) =? 0) eqn:H0; [discriminate|].
  destruct (String.length (TrimSpace m1) =? 0) eqn:H1; [discriminate|].
  cbn [orb]. intros H. injection H as <- <-.
  split; now apply nonzero_length.
Qed.

Lemma has_prefix_package (s : string) :
  HasPrefix s "package" = true -> exists x, s = "package" ++ x.
Proof.
  unfold HasPrefix. intros H. apply prefix_split in H.
  now exists (drop (String.length "package") s).
Qed.

(** The two halves of the test-marker split have at least 30 bytes and
    start with [package]. *)
Lemma TestMarker_result (response main test : string) :
  TestMarker_Extract response = Ok (main, test) ->
  30 <= String.length main /\ 30 <= String.length test /\
  HasPrefix main "package" = true /\ HasPrefix test "package" = true.
Proof.
  unfold TestMarker_Extract.
  destruct (FindTestMarker response) as [loc0|]; [|discriminate].
  set (m := TrimSpace (take loc0 response)).
  set (t := TrimSpace (drop loc0 response)).
  assert (Hm : exists x,
             (if negb (HasPrefix m "package")
              then "package main" ++ nl ++ m else m) = "package" ++ x).
  { destruct (HasPrefix m "package") eqn:H; cbn [negb].
    - now apply has_prefix_package.
    - eexists. reflexivity. }
  assert (Ht : exists x,
             (if negb (HasPrefix t "package")
              then test_header ++ t else t) = "package" ++ x).
  { destruct (HasPrefix t "package") eqn:H; cbn [negb].
    - now apply has_prefix_package.
    - eexists. reflexivity. }
  destruct Hm as (xm & ->), Ht as (xt & ->).
  destruct (TrimBackticks_keeps_head "p" "e" "ackag" xm eq_refl eq_refl)
    as (xm' & Em).
  destruct (TrimBackticks_keeps_head "p" "e" "ackag" xt eq_refl eq_refl)
    as (xt' & Et).
  change (String "p" ("ackag" ++ String "e" xm)) with ("package" ++ xm) in Em.
  change (String "p" ("ackag" ++ String "e" xt)) with ("package" ++ xt) in Et.
  rewrite Em, Et.
  destruct (String.length _ <? 30) eqn:H1; [discriminate|].
  destruct (String.length (String "p" ("ackag" ++ String "e" xt')) <? 30)
    eqn:H2; [discriminate|].
  cbn [orb]. intros H. injection H as <- <-.
  apply Nat.ltb_ge in H1, H2.
  repeat split; try assumption; apply (prefix_app "package").
Qed.

(** The two halves of the package-main split have at least 50 bytes. *)
Lemma PackageMain_result (response main test : string) :
  PackageMain_Extract response = Ok (main, test) ->
  50 <= String.length main /\ 50 <= String.length test.
Proof.
  unfold PackageMain_Extract.
  destruct (Split response "package main") as [|p0 [|p1 [|p2 ps]]];
    try discriminate.
  destruct (String.length _ <? 50) eqn:H1; [discriminate|].
  match goal with
  | |- context [String.length ?x <? 50] =>
    destruct (String.length x <? 50) eqn:H2; [discriminate|]
  end.
  cbn [orb]. intros H. injection H as <- <-.
  apply Nat.ltb_ge in H1, H2. split; assumption.
Qed.

(** The single-file fallback fails exactly on a text of at most 50 bytes
    without fenced block; its test code is empty or starts with
    [package]. *)
Lemma SingleFile_result (response : string) :
  match SingleFile_Extract response with
  | Err _ => FindAllCodeBlocks response = [] /\ String.length response <= 50
  | Ok (main, test) =>
    (FindAllCodeBlocks response <> [] \/ 50 < String.length response) /\
    (test = "" \/ HasPrefix test "package" = true)
  end.
Proof.
  unfold SingleFile_Extract.
  destruct (FindAllCodeBlocks response) as [|m0 ms].
  - destruct (50 <? String.length response) eqn:H.
    + apply Nat.ltb_lt in H. split; [now right | now left].
    + apply Nat.ltb_ge in H. now split.
  - destruct (Contains (TrimSpace m0) "func Test").
    + split; [left; discriminate|]. right.
      match goal with
      | |- context [negb (HasPrefix ?t "package")] =>
        destruct (HasPrefix t "package") eqn:H
      end; cbn [negb]; [exact H | reflexivity].
    + split; [left; discriminate | now left].
Qed.

(** X17: whatever [ExtractWithFallback] returns under a name other than
    ["single_file_fallback"] and ["raw_response"] is a pair of non-empty
    codes; the test-marker split returns halves of at least 30 bytes that
    both start with [package], the package-main split halves of at least
    50 bytes.  So the controller can meet empty main code only from the
    single-file fallback or the raw response. *)
Theorem paired_strategies_nonempty (response main test name : string) :
  ExtractWithFallback NewExtractor response = (main, test, name) ->
  name <> "single_file_fallback" ->
  name <> "raw_response" ->
  main <> "" /\ test <> "" /\
  (name = "test_marker_split" ->
   30 <= String.length main /\ 30 <= String.length test /\
   HasPrefix main "package" = true /\ HasPrefix test "package" = true) /\
  (name = "package_main_split" ->
   50 <= String.length main /\ 50 <= String.length test).
Proof.
  unfold ExtractWithFallback, Extractor_Extract, NewExtractor.
  cbn [strategies try_strategies Extraction.Extract Name
       StandardFormatStrategy LanguageTagStrategy TestMarkerStrategy
       PackageMainStrategy SingleFileStrategy].
  destruct (StandardFormat_Extract response) as [[m t]|e1] eqn:H1.
  { cbv beta iota. intros H _ _. injection H as <- <- <-.
    destruct (StandardFormat_nonempty _ _ _ H1).
    repeat split; try assumption; discriminate. }
  destruct (LanguageTag_Extract response) as [[m t]|e2] eqn:H2.
  { cbv beta iota. intros H _ _. injection H as <- <- <-.
    destruct (LanguageTag_nonempty _ _ _ H2).
    repeat split; try assumption; discriminate. }
  destruct (TestMarker_Extract response) as [[m t]|e3] eqn:H3.
  { cbv beta iota. intros H _ _. injection H as <- <- <-.
    destruct (TestMarker_result _ _ _ H3) as (L1 & L2 & P1 & P2).
    split; [intros ->; cbn in L1; lia|].
    split; [intros ->; cbn in L2; lia|].
    split; [intros _; now repeat split | discriminate]. }
  destruct (PackageMain_Extract response) as [[m t]|e4] eqn:H4.
  { cbv beta iota. intros H _ _. injection H as <- <- <-.
    destruct (PackageMain_result _ _ _ H4) as (L1 & L2).
    split; [intros ->; cbn in L1; lia|].
    split; [intros ->; cbn in L2; lia|].
    split; [discriminate | intros _; now split]. }
  destruct (SingleFile_Extract response) as [[m t]|e5] eqn:H5.
  { cbv beta iota. intros H Hn _. injection H as _ _ <-.
    now contradiction Hn. }
  cbv beta iota.
  rewrite (single_file_fails_no_block _ _ H5).
  intros H _ Hn. injection H as _ _ <-. now contradiction Hn.
Qed.

Lemma paired_strategies_nonempty_witness :
  "code1" <> "" /\ "code2" <> "".
Proof.
  destruct (paired_strategies_nonempty reply_stray "code1" "code2"
              "language_tag_split") as (H1 & H2 & _).
  - vm_compute. reflexivity.
  - discriminate.
  - discriminate.
  - split; assumption.
Defined.

(** X18: [ExtractWithFallback] answers with ["raw_response"] only for a
    response of at most 50 bytes without fenced block, and then with the
    trimmed response as main code and empty test code. *)
Theorem raw_response_only_for_short_text (response main test : string) :
  ExtractWithFallback NewExtractor response = (main, test, "raw_response") ->
  FindAllCodeBlocks response = [] /\
  String.length response <= 50 /\
  main = TrimSpace response /\ test = "".
Proof.
  unfold ExtractWithFallback.
  destruct (Extractor_Extract NewExtractor response) as [[[m t] n]|msg]
    eqn:Hx.
  - intros H. injection H as _ _ ->.
    apply try_strategies_name in Hx. cbn in Hx.
    intuition discriminate.
  - destruct (chain_fails_single_file_fails _ _ Hx) as [e He].
    pose proof (SingleFile_result response) as Hs. rewrite He in Hs.
    destruct Hs as [Hb Hl]. rewrite Hb.
    intros H. injection H as <- <-. now repeat split.
Qed.

Lemma raw_response_only_for_short_text_witness :
  FindAllCodeBlocks "short" = [] /\
  String.length "short" <= 50 /\
  "short" = TrimSpace "short" /\ "" = "".
Proof.
  apply (raw_response_only_for_short_text "short" "short" "").
  reflexivity.
Defined.

(** X19: for a response without fenced block that is not blank,
    [ExtractWithFallback] never returns empty main code, whatever the
    length of the response. *)
Theorem blockless_text_gives_main (response : string) :
  FindAllCodeBlocks response = [] ->
  TrimSpace response <> "" ->
  fst (fst (ExtractWithFallback NewExtractor response)) <> "".
Proof.
  intros Hnone Hne.
  pose proof (no_blocks_no_go_blocks response Hnone) as Hgo.
  unfold ExtractWithFallback, Extractor_Extract, NewExtractor.
  cbn [strategies try_strategies Extraction.Extract Name
       StandardFormatStrategy LanguageTagStrategy TestMarkerStrategy
       PackageMainStrategy SingleFileStrategy].
  unfold StandardFormat_Extract at 1. rewrite Hnone.
  unfold LanguageTag_Extract at 1. rewrite Hgo.
  cbv beta iota.
  destruct (TestMarker_Extract response) as [[m t]|e3] eqn:H3.
  { cbn [fst]. destruct (TestMarker_result _ _ _ H3) as (L & _).
    intros ->. cbn in L. lia. }
  destruct (PackageMain_Extract response) as [[m t]|e4] eqn:H4.
  { cbn [fst]. destruct (PackageMain_result _ _ _ H4) as (L & _).
    intros ->. cbn in L. lia. }
  unfold SingleFile_Extract. rewrite Hnone.
  destruct (50 <? String.length response); cbn [fst]; exact Hne.
Qed.

Lemma blockless_text_gives_main_witness :
  fst (fst (ExtractWithFallback NewExtractor "x := 1")) <> "".
Proof.
  apply blockless_text_gives_main.
  - reflexivity.
  - vm_compute. discriminate.
Defined.

(** ** The earlier extractor *)


End ChainFacts.

(* ====================================================================== *)
(** * The Go compiler backend                                              *)
(* ====================================================================== *)

Module CompilerFacts.
Import GoCompilerV2 GoCompilerV2Run ScanFacts StringFacts.
Local Open Scope Z_scope.

(** ** Classification *)

Lemma classify_cases (ToLower : string -> string) (output : string)
  (compileErrors testErrors : list string) :
  let kind := classifyGoError ToLower output compileErrors testErrors in
  kind <> ErrorTypeGoSuccess /\
  (kind = ErrorTypeGoLogic -> testErrors <> []) /\
  (kind = ErrorTypeGoUnknown -> testErrors = [] /\ compileErrors = []).
Proof.
  cbv zeta. unfold classifyGoError.
  destruct (any_pattern ToLower (ToLower output) infraPatterns);
    [repeat split; discriminate|].
  destruct (any_pattern ToLower (ToLower output) syntaxPatterns);
    [repeat split; discriminate|].
  destruct (any_pattern ToLower (ToLower output) typePatterns);
    [repeat split; discriminate|].
  destruct (any_pattern ToLower (ToLower output) runtimePatterns);
    [repeat split; discriminate|].
  destruct testErrors as [|t ts]; cbn [List.length Nat.ltb Nat.leb].
  - destruct compileErrors as [|c cs]; cbn [List.length Nat.ltb Nat.leb];
      repeat split; discriminate.
  - repeat split; discriminate.
Qed.

(** X21: [classifyGoError] never answers success; it answers logic only
    when there are test errors, and unknown only when there are neither
    test errors nor compile errors. *)
Theorem classifyGoError_never (ToLower : string -> string)
  (output : string) (compileErrors testErrors : list string) :
  let kind := classifyGoError ToLower output compileErrors testErrors in
  kind <> ErrorTypeGoSuccess /\
  (kind = ErrorTypeGoLogic -> testErrors <> []) /\
  (kind = ErrorTypeGoUnknown -> testErrors = [] /\ compileErrors = []).
Proof. apply classify_cases. Qed.

Lemma classifyGoError_never_witness : ["FAIL"] <> [].
Proof.
  apply (proj1 (proj2 (classifyGoError_never ToLowerASCII
                         "--- FAIL: TestDouble" [] ["FAIL"]))).
  reflexivity.
Defined.

(** ** Parsing *)

Lemma parse_lines_filter (lines compileErrors testErrors : list string) :
  parse_lines lines compileErrors testErrors
  = ((compileErrors ++ map TrimSpace (filter is_compile_line lines))%list,
     (testErrors ++ map TrimSpace (filter is_test_line lines))%list).
Proof.
  revert compileErrors testErrors.
  induction lines as [|line rest IH]; intros ce te; cbn [parse_lines].
  - now rewrite !app_nil_r.
  - rewrite IH. cbn [filter]. unfold is_compile_line at 2, is_test_line at 2.
    destruct (Contains line "main.go:");
      destruct (Contains line "FAIL" || Contains line "Error:");
      cbn [map]; rewrite <- ?List.app_assoc; reflexivity.
Qed.

Lemma filter_none {A : Type} (f : A -> bool) (l : list A) :
  (forall x, In x l -> f x = false) -> filter f l = [].
Proof.
  induction l as [|a l IH]; intros H; [reflexivity|].
  cbn [filter]. rewrite (H a (or_introl eq_refl)).
  apply IH. intros x Hx. apply H. now right.
Qed.

Lemma line_marker (output line marker : string) :
  In line (Split output nl) ->
  Contains output marker = false -> Contains line marker = false.
Proof.
  intros Hin Hout.
  destruct (Contains line marker) eqn:Hl; [|reflexivity].
  destruct (Split_part _ _ _ Hin) as (a & b & ->).
  rewrite (Contains_part a line b marker Hl) in Hout. discriminate.
Qed.

(** X22: [parseGoErrors] returns, in the order of the output, the
    trimmed lines that contain ["main.go:"] as compile errors and the
    trimmed lines that contain ["FAIL"] or ["Error:"] as test errors (a
    line can be in both lists); an output without ["main.go:"] has no
    compile errors, an output without ["FAIL"] and ["Error:"] no test
    errors. *)
Theorem parseGoErrors_lines (output : string) :
  parseGoErrors output
  = (map TrimSpace (filter is_compile_line (Split output nl)),
     map TrimSpace (filter is_test_line (Split output nl))) /\
  (Contains output "main.go:" = false -> fst (parseGoErrors output) = []) /\
  (Contains output "FAIL" = false -> Contains output "Error:" = false ->
   snd (parseGoErrors output) = []).
Proof.
  assert (E : parseGoErrors output
              = (map TrimSpace (filter is_compile_line (Split output nl)),
                 map TrimSpace (filter is_test_line (Split output nl)))).
  { unfold parseGoErrors. now rewrite parse_lines_filter. }
  split; [exact E|]. rewrite E. cbn [fst snd]. split.
  - intros H. rewrite filter_none; [reflexivity|].
    intros line Hin. exact (line_marker _ _ _ Hin H).
  - intros H1 H2. rewrite filter_none; [reflexivity|].
    intros line Hin. unfold is_test_line.
    now rewrite (line_marker _ _ _ Hin H1), (line_marker _ _ _ Hin H2).
Qed.

Lemma parseGoErrors_lines_witness :
  fst (parseGoErrors ("--- FAIL: TestDouble (0.00s)" ++ nl ++ "FAIL")) = [].
Proof.
  apply (proj1 (proj2 (parseGoErrors_lines
                         ("--- FAIL: TestDouble (0.00s)" ++ nl ++ "FAIL")))).
  reflexivity.
Defined.

(** ** Running *)

Lemma Compile_never_errs (ToLower : string -> string) (env : CompileEnv) :
  snd (Compile ToLower env) = None.
Proof.
  unfold Compile.
  destruct (mkdir_err env), (write_main_err env), (write_test_err env),
    (timed_out env), (run_failed env); try reflexivity;
    cbn [negb]; destruct (parseGoErrors _); reflexivity.
Qed.

Lemma Compile_outputs_empty (ToLower : string -> string)
  (env : CompileEnv) :
  CompileOutput (fst (Compile ToLower env)) = "" /\
  TestOutput (fst (Compile ToLower env)) = "".
Proof.
  unfold Compile.
  destruct (mkdir_err env), (write_main_err env), (write_test_err env),
    (timed_out env), (run_failed env); try (split; reflexivity);
    cbn [negb]; destruct (parseGoErrors _); split; reflexivity.
Qed.

(** X23: [Compile] never returns an error of its own; the success flag
    is set exactly when the kind is success, and then there are no
    diagnostics and the exit code is 0; a failed command has exit code 1;
    the kind is logic only when there are test errors; the fields
    [CompileOutput] and [TestOutput] are never filled. *)
Theorem Compile_result (ToLower : string -> string) (env : CompileEnv) :
  let r := fst (Compile ToLower env) in
  snd (Compile ToLower env) = None /\
  (Success r = true <-> ErrorType r = ErrorTypeGoSuccess) /\
  (Success r = true ->
   CompileErrors r = [] /\ TestErrors r = [] /\ ExitCode r = 0 /\
   RawOutput r = (stdout env ++ nl ++ stderr env)%string) /\
  (ExitCode r = 1 -> Success r = false /\ run_failed env = true) /\
  (ErrorType r = ErrorTypeGoLogic -> TestErrors r <> []) /\
  CompileOutput r = "" /\ TestOutput r = "".
Proof.
  cbv zeta. unfold Compile, set_infra.
  destruct (mkdir_err env);
    [cbn; repeat split; intros; try discriminate; try lia|].
  destruct (write_main_err env);
    [cbn; repeat split; intros; try discriminate; try lia|].
  destruct (write_test_err env);
    [cbn; repeat split; intros; try discriminate; try lia|].
  destruct (timed_out env);
    [cbn; repeat split; intros; try discriminate; try lia|].
  destruct (run_failed env); cbn [negb].
  - destruct (parseGoErrors (stdout env ++ nl ++ stderr env))
      as [compileErrors testErrors].
    pose proof (classify_cases ToLower (stdout env ++ nl ++ stderr env)
                  compileErrors testErrors) as Hc.
    cbv zeta in Hc. destruct Hc as (Hs & Hl & _).
    cbn [fst snd Success ErrorType CompileErrors TestErrors ExitCode
         RawOutput CompileOutput TestOutput].
    repeat split; intros; try discriminate; try congruence; auto.
  - cbn. repeat split; intros; try discriminate; try lia.
Qed.

(** X24: [RetryCompileWithClean] returns what its one [Compile] returns,
    also for an infrastructure error: it never compiles again. *)
Theorem RetryCompileWithClean_is_Compile (ToLower : string -> string)
  (env : CompileEnv) :
  RetryCompileWithClean ToLower env = Compile ToLower env.
Proof.
  unfold RetryCompileWithClean.
  pose proof (Compile_never_errs ToLower env) as He.
  destruct (Compile ToLower env) as [result err]. cbn [snd] in He.
  subst err. destruct (ErrorType result); reflexivity.
Qed.

(** X25: [CheckCompileErrors] always returns the bytes, and an error
    exactly when the compilation did not succeed, with the raw output in
    its text; the two output sections of the bytes are always empty. *)
Theorem CheckCompileErrors_result (ToLower : string -> string)
  (env : CompileEnv) :
  let r := fst (Compile ToLower env) in
  CheckCompileErrors ToLower env
  = (Some (("=== COMPILE OUTPUT ===" ++ nl ++ nl ++ nl
            ++ "=== TEST OUTPUT ===" ++ nl ++ nl ++ nl
            ++ "Error Type: " ++ itoa (ErrorTypeGo_int (ErrorType r)) ++ nl
            ++ "Success: " ++ bool_string (Success r) ++ nl)%string),
     if Success r then None
     else Some ("compilation failed: " ++ RawOutput r)%string).
Proof.
  cbv zeta. unfold CheckCompileErrors.
  pose proof (Compile_never_errs ToLower env) as He.
  pose proof (Compile_outputs_empty ToLower env) as [Ho Ht].
  destruct (Compile ToLower env) as [result err]. cbn [fst snd] in *.
  subst err. rewrite Ho, Ht. destruct (Success result); reflexivity.
Qed.

(** ** Reporting *)

Lemma write_errors_ignores (errs : list string) (i : Z) (msg : string) :
  5 <= i -> write_errors i errs msg = msg.
Proof.
  revert i msg; induction errs as [|e errs IH]; intros i msg Hi;
    cbn [write_errors]; [reflexivity|].
  replace (i <? 5) with false by (symmetry; apply Z.ltb_ge; lia).
  apply IH. lia.
Qed.

Lemma write_errors_first (errs errs' : list string) (i : Z) (msg : string) :
  0 <= i ->
  firstn (Z.to_nat (5 - i)) errs = firstn (Z.to_nat (5 - i)) errs' ->
  write_errors i errs msg = write_errors i errs' msg.
Proof.
  revert errs' i msg; induction errs as [|e errs IH];
    intros errs' i msg Hi Hf.
  - destruct (Z_lt_le_dec i 5) as [Hlt|Hge].
    + destruct errs' as [|e' errs']; [reflexivity|].
      replace (Z.to_nat (5 - i)) with (S (Z.to_nat (5 - (i + 1)))) in Hf
        by lia.
      discriminate.
    + now rewrite !write_errors_ignores.
  - destruct (Z_lt_le_dec i 5) as [Hlt|Hge].
    + replace (Z.to_nat (5 - i)) with (S (Z.to_nat (5 - (i + 1)))) in Hf
        by lia.
      destruct errs' as [|e' errs']; [discriminate|].
      cbn [firstn] in Hf. injection Hf as <- Hf.
      cbn [write_errors].
      replace (i <? 5) with true by (symmetry; apply Z.ltb_lt; lia).
      apply IH; [lia | exact Hf].
    + now rewrite !write_errors_ignores.
Qed.

Lemma write_errors_grows (errs : list string) (i : Z) (msg : string) :
  (String.length msg <= String.length (write_errors i errs msg))%nat.
Proof.
  revert i msg; induction errs as [|e errs IH]; intros i msg;
    cbn [write_errors]; [lia|].
  destruct (i <? 5); [|apply IH].
  etransitivity; [|apply IH]. rewrite ScanFacts.length_app. lia.
Qed.

Lemma section_grows (b : bool) (errs : list string) (msg title : string) :
  (String.length msg
   <= String.length
        (if b then write_errors 0 errs (msg ++ title) else msg))%nat.
Proof.
  destruct b; [|lia].
  etransitivity; [|apply write_errors_grows].
  rewrite ScanFacts.length_app. lia.
Qed.

Lemma firstn_nil_iff {A : Type} (l l' : list A) :
  firstn 5 l = firstn 5 l' -> List.length l = 0%nat <-> List.length l' = 0%nat.
Proof. destruct l, l'; cbn; intros H; split; congruence. Qed.

(** X26: the message of [FormatErrorForLLM] depends only on the success
    flag, the kind and the first five entries of each diagnostic list: no
    more than five errors of each list are written, and the raw output is
    never used (the message is never empty, so the fall-back text is
    never written). *)
Theorem FormatErrorForLLM_first_five (r r' : CompilationResultV2) :
  Success r = Success r' ->
  ErrorType r = ErrorType r' ->
  firstn 5 (CompileErrors r) = firstn 5 (CompileErrors r') ->
  firstn 5 (TestErrors r) = firstn 5 (TestErrors r') ->
  FormatErrorForLLM r = FormatErrorForLLM r'.
Proof.
  intros Hs He Hc Ht. unfold FormatErrorForLLM.
  rewrite <- Hs, <- He. destruct (Success r); [reflexivity|].
  set (head := ("Error Type: " ++ itoa (ErrorTypeGo_int (ErrorType r))
                ++ nl)%string).
  assert (Hce : (0 <? Z.of_nat (List.length (CompileErrors r)))
                = (0 <? Z.of_nat (List.length (CompileErrors r')))).
  { pose proof (firstn_nil_iff _ _ Hc).
    destruct (0 <? Z.of_nat (List.length (CompileErrors r))) eqn:E1;
      destruct (0 <? Z.of_nat (List.length (CompileErrors r'))) eqn:E2;
      try reflexivity;
      rewrite ?Z.ltb_lt, ?Z.ltb_ge in *; lia. }
  assert (Hte : (0 <? Z.of_nat (List.length (TestErrors r)))
                = (0 <? Z.of_nat (List.length (TestErrors r')))).
  { pose proof (firstn_nil_iff _ _ Ht).
    destruct (0 <? Z.of_nat (List.length (TestErrors r))) eqn:E1;
      destruct (0 <? Z.of_nat (List.length (TestErrors r'))) eqn:E2;
      try reflexivity;
      rewrite ?Z.ltb_lt, ?Z.ltb_ge in *; lia. }
  rewrite <- Hce, <- Hte.
  rewrite (write_errors_first (CompileErrors r) (CompileErrors r') 0)
    by (try lia; exact Hc).
  rewrite (write_errors_first (TestErrors r) (TestErrors r') 0)
    by (try lia; exact Ht).
  match goal with
  | |- (if len ?m =? 0 then _ else _) = _ =>
    assert (Hm : (1 <= String.length m)%nat)
  end.
  { etransitivity; [|apply section_grows].
    etransitivity; [|apply section_grows].
    subst head. cbn. lia. }
  match goal with
  | |- (if len ?m =? 0 then _ else _) = _ =>
    replace (len m =? 0) with false
      by (symmetry; apply Z.eqb_neq; unfold len; lia)
  end.
  reflexivity.
Qed.

Lemma FormatErrorForLLM_first_five_witness :
  FormatErrorForLLM
    (failed_with ["e1"; "e2"; "e3"; "e4"; "e5"; "e6"; "e7"] "raw output")
  = FormatErrorForLLM (failed_with ["e1"; "e2"; "e3"; "e4"; "e5"] "").
Proof.
  apply FormatErrorForLLM_first_five; reflexivity.
Defined.

(** X27: when [Compile] answers with the kind logic, the command has
    failed and its output contains ["FAIL"] or ["Error:"]. *)
Theorem logic_needs_marker (ToLower : string -> string) (env : CompileEnv) :
  ErrorType (fst (Compile ToLower env)) = ErrorTypeGoLogic ->
  run_failed env = true /\
  (Contains (stdout env ++ nl ++ stderr env) "FAIL" = true \/
   Contains (stdout env ++ nl ++ stderr env) "Error:" = true).
Proof.
  unfold Compile, set_infra.
  destruct (mkdir_err env); [discriminate|].
  destruct (write_main_err env); [discriminate|].
  destruct (write_test_err env); [discriminate|].
  destruct (timed_out env); [discriminate|].
  destruct (run_failed env); cbn [negb]; [|discriminate].
  set (out := (stdout env ++ nl ++ stderr env)%string).
  unfold parseGoErrors. rewrite parse_lines_filter. cbn [fst app ErrorType].
  intros Hk. split; [reflexivity|].
  apply classify_cases in Hk.
  destruct (Contains out "FAIL") eqn:H1; [now left|].
  destruct (Contains out "Error:") eqn:H2; [now right|].
  exfalso. apply Hk. rewrite filter_none; [reflexivity|].
  intros line Hin. unfold is_test_line.
  now rewrite (line_marker _ _ _ Hin H1), (line_marker _ _ _ Hin H2).
Qed.

Lemma logic_needs_marker_witness :
  run_failed env_test_failure = true /\
  (Contains (stdout env_test_failure ++ nl ++ stderr env_test_failure)
     "FAIL" = true \/
   Contains (stdout env_test_failure ++ nl ++ stderr env_test_failure)
     "Error:" = true).
Proof.
  apply (logic_needs_marker ToLowerASCII env_test_failure).
  reflexivity.
Defined.

End CompilerFacts.

(* ====================================================================== *)
(** * Whole runs of the job controller                                     *)
(* ====================================================================== *)

Module RunFacts.
Import Extraction Pipeline Samples Observations PipelineFacts.
Local Open Scope Z_scope.

(** Case analysis along the branches of the goal. *)
Ltac goal_branches :=
  repeat (cbv beta iota;
          match goal with
          | |- context [match ?x with _ => _ end] =>
            lazymatch x with
            | context [match _ with _ => _ end] => fail
            | _ => destruct x eqn:?
            end
          end);
  cbv beta iota.

(** ** Calls to the outside *)

(** Guards and phases 1 to 3: a pass that stops there has called the
    model client at most once, a backend only after the model client, and
    never lets the loop go on; a pass that reaches a compile result has
    made exactly one call of each. *)
Lemma generate_extract_compile_calls (env : IterEnv) (iteration : Z)
  (st : State) :
  match generate_extract_compile env iteration st with
  | Stopped o =>
    (llm_calls (trace st) <= llm_calls (trace (outcome_state o))
     <= S (llm_calls (trace st)))%nat /\
    (compile_calls (trace st) <= compile_calls (trace (outcome_state o)))%nat
    /\
    (compile_calls (trace (outcome_state o)) + llm_calls (trace st)
     <= compile_calls (trace st) + llm_calls (trace (outcome_state o)))%nat
    /\ (forall st2, o <> Continue st2)
  | Reached st1 _ _ _ =>
    llm_calls (trace st1) = S (llm_calls (trace st)) /\
    compile_calls (trace st1) = S (compile_calls (trace st))
  end.
Proof.
  unfold generate_extract_compile, abort, sendAbortMessage.
  goal_branches;
    cbn [outcome_state trace emit on_job];
    rewrite ?llm_calls_app, ?compile_calls_app;
    cbn [llm_calls compile_calls];
    first [ split; lia
          | split; [lia | split; [lia | split; [lia | discriminate]]] ].
Qed.

(** Phases 4 and 5 send messages only. *)
Lemma analyze_result_calls (iteration : Z) (st : State)
  (mainCode testCode : string) (result : CompilationResult) :
  let st' :=
    outcome_state (analyze_result iteration st mainCode testCode result) in
  llm_calls (trace st') = llm_calls (trace st) /\
  compile_calls (trace st') = compile_calls (trace st) /\
  llm_prompts (trace st') = llm_prompts (trace st).
Proof.
  cbv zeta.
  unfold analyze_result, abort, sendAbortMessage, sendIterationMessage,
    sendCompletionMessage.
  goal_branches;
    cbn [outcome_state trace emit on_job];
    rewrite ?llm_calls_app, ?compile_calls_app, ?llm_prompts_app;
    cbn [llm_calls compile_calls llm_prompts];
    rewrite ?app_nil_r; (split; [lia | split; [lia | reflexivity]]).
Qed.

(** One pass: at most one call of the model client, a compile call only
    after a model call; a pass that lets the loop go on has made both. *)
Lemma body_calls (env : IterEnv) (iteration : Z) (st : State) :
  let o := iteration_body env iteration st in
  let st' := outcome_state o in
  (llm_calls (trace st) <= llm_calls (trace st')
   <= S (llm_calls (trace st)))%nat /\
  (compile_calls (trace st) <= compile_calls (trace st'))%nat /\
  (compile_calls (trace st') + llm_calls (trace st)
   <= compile_calls (trace st) + llm_calls (trace st'))%nat /\
  (forall st2, o = Continue st2 ->
     llm_calls (trace st') = S (llm_calls (trace st)) /\
     compile_calls (trace st') = S (compile_calls (trace st))).
Proof.
  cbv zeta. unfold iteration_body.
  pose proof (generate_extract_compile_calls env iteration st) as Hg.
  destruct (generate_extract_compile env iteration st)
    as [o|st1 mainCode testCode result].
  - destruct Hg as (H1 & H2 & H3 & H4).
    repeat (split; [assumption|]). intros st2 E. now destruct (H4 st2).
  - destruct Hg as [Hl Hc].
    destruct (analyze_result_calls iteration st1 mainCode testCode result)
      as (Al & Ac & _).
    rewrite Al, Ac, Hl, Hc.
    split; [lia | split; [lia | split; [lia | intros; split; reflexivity]]].
Qed.

(** The loop from any state: the model client is called at most once per
    pass left, and a backend at most as often as the model client. *)
Lemma run_loop_calls (world : World) (remaining : nat) (iteration : Z)
  (st : State) :
  let st' := outcome_state (run_loop world remaining iteration st) in
  (llm_calls (trace st) <= llm_calls (trace st')
   <= llm_calls (trace st) + remaining)%nat /\
  (compile_calls (trace st) <= compile_calls (trace st'))%nat /\
  (compile_calls (trace st') + llm_calls (trace st)
   <= compile_calls (trace st) + llm_calls (trace st'))%nat.
Proof.
  revert iteration st.
  induction remaining as [|k IH]; intros iteration st; cbv zeta.
  - cbn [run_loop outcome_state trace on_job]. lia.
  - cbn [run_loop].
    pose proof (body_calls (world iteration) iteration st) as Hb.
    cbv zeta in Hb.
    destruct (iteration_body (world iteration) iteration st) as [st1| |];
      cbn [outcome_state] in *; try lia.
    specialize (IH (iteration + 1) st1). cbv zeta in IH. lia.
Qed.

(** X1: a job calls the model client at most [MaxIterations] times, and
    a compile backend at most as often as the model client, whatever the
    environment answers. *)
Theorem calls_bounded_by_cap (world : World) (j : ExecutionJob) :
  let tr := trace (RunCompilationJob world j) in
  (llm_calls tr <= Z.to_nat (MaxIterations j))%nat /\
  (compile_calls tr <= llm_calls tr)%nat.
Proof.
  cbv zeta. unfold RunCompilationJob, run_body.
  pose proof (run_loop_calls world (Z.to_nat (MaxIterations j)) 1
                {| job := set_Status "running" j; trace := [] |}) as H.
  cbv zeta in H. cbn [trace llm_calls compile_calls] in H.
  destruct (run_loop _ _ _ _); cbn [deferred outcome_state trace on_job] in *;
    lia.
Qed.

(** ** Metrics and configuration *)

(** Guards and phases 1 to 3 record one prompt size and one latency per
    call of the model client, and write none of the fields a job is
    submitted with. *)
Lemma generate_extract_compile_frame (env : IterEnv) (iteration : Z)
  (st : State) :
  let keeps (st' : State) :=
    (List.length (PromptSizes (Metrics (job st')))
     + llm_calls (trace st)
     = List.length (PromptSizes (Metrics (job st)))
       + llm_calls (trace st'))%nat /\
    (List.length (LLMResponseTimes (Metrics (job st')))
     + llm_calls (trace st)
     = List.length (LLMResponseTimes (Metrics (job st)))
       + llm_calls (trace st'))%nat /\
    ID (job st') = ID (job st) /\
    Language (job st') = Language (job st) /\
    UserPrompt (job st') = UserPrompt (job st) /\
    Model (job st') = Model (job st) /\
    MaxIterations (job st') = MaxIterations (job st) /\
    Timeout (job st') = Timeout (job st) in
  match generate_extract_compile env iteration st with
  | Stopped o => keeps (outcome_state o)
  | Reached st1 _ _ _ => keeps st1
  end.
Proof.
  cbv zeta.
  unfold generate_extract_compile, abort, sendAbortMessage.
  goal_branches;
    cbn [outcome_state trace emit on_job job Metrics PromptSizes
         LLMResponseTimes set_Metrics set_LLMCtx set_Status set_AbortReason
         set_IterationCount set_PromptSizes set_LLMResponseTimes
         ID Language UserPrompt Model MaxIterations Timeout];
    rewrite ?llm_calls_app, ?length_app;
    cbn [llm_calls List.length];
    repeat split; lia.
Qed.

(** Phases 4 and 5 leave the recorded sizes and latencies and the
    submitted fields alone. *)
Lemma analyze_result_frame (iteration : Z) (st : State)
  (mainCode testCode : string) (result : CompilationResult) :
  let st' :=
    outcome_state (analyze_result iteration st mainCode testCode result) in
  PromptSizes (Metrics (job st')) = PromptSizes (Metrics (job st)) /\
  LLMResponseTimes (Metrics (job st')) = LLMResponseTimes (Metrics (job st))
  /\
  PromptHistory (LLMCtx (job st')) = PromptHistory (LLMCtx (job st)) /\
  ID (job st') = ID (job st) /\
  Language (job st') = Language (job st) /\
  UserPrompt (job st') = UserPrompt (job st) /\
  Model (job st') = Model (job st) /\
  MaxIterations (job st') = MaxIterations (job st) /\
  Timeout (job st') = Timeout (job st).
Proof.
  cbv zeta.
  unfold analyze_result, abort, sendAbortMessage, sendIterationMessage,
    sendCompletionMessage.
  goal_branches; repeat split; reflexivity.
Qed.

(** One pass, as the two lemmas above combine. *)
Lemma body_frame (env : IterEnv) (iteration : Z) (st : State) :
  let st' := outcome_state (iteration_body env iteration st) in
  (List.length (PromptSizes (Metrics (job st'))) + llm_calls (trace st)
   = List.length (PromptSizes (Metrics (job st)))
     + llm_calls (trace st'))%nat /\
  (List.length (LLMResponseTimes (Metrics (job st')))
   + llm_calls (trace st)
   = List.length (LLMResponseTimes (Metrics (job st)))
     + llm_calls (trace st'))%nat /\
  ID (job st') = ID (job st) /\
  Language (job st') = Language (job st) /\
  UserPrompt (job st') = UserPrompt (job st) /\
  Model (job st') = Model (job st) /\
  MaxIterations (job st') = MaxIterations (job st) /\
  Timeout (job st') = Timeout (job st).
Proof.
  cbv zeta. unfold iteration_body.
  pose proof (generate_extract_compile_frame env iteration st) as Hg.
  cbv zeta in Hg.
  destruct (generate_extract_compile env iteration st)
    as [o|st1 mainCode testCode result]; [exact Hg|].
  destruct (analyze_result_frame iteration st1 mainCode testCode result)
    as (A1 & A2 & _ & A4 & A5 & A6 & A7 & A8 & A9).
  destruct (analyze_result_calls iteration st1 mainCode testCode result)
    as (Al & _ & _).
  destruct Hg as (G1 & G2 & G4 & G5 & G6 & G7 & G8 & G9).
  rewrite A1, A2, A4, A5, A6, A7, A8, A9, Al.
  repeat split; assumption.
Qed.

Lemma run_loop_frame (world : World) (remaining : nat) (iteration : Z)
  (st : State) :
  let st' := outcome_state (run_loop world remaining iteration st) in
  (List.length (PromptSizes (Metrics (job st'))) + llm_calls (trace st)
   = List.length (PromptSizes (Metrics (job st)))
     + llm_calls (trace st'))%nat /\
  (List.length (LLMResponseTimes (Metrics (job st')))
   + llm_calls (trace st)
   = List.length (LLMResponseTimes (Metrics (job st)))
     + llm_calls (trace st'))%nat /\
  ID (job st') = ID (job st) /\
  Language (job st') = Language (job st) /\
  UserPrompt (job st') = UserPrompt (job st) /\
  Model (job st') = Model (job st) /\
  MaxIterations (job st') = MaxIterations (job st) /\
  Timeout (job st') = Timeout (job st).
Proof.
  revert iteration st.
  induction remaining as [|k IH]; intros iteration st; cbv zeta.
  - cbn [run_loop outcome_state trace on_job job]. repeat split; reflexivity.
  - cbn [run_loop].
    pose proof (body_frame (world iteration) iteration st) as Hb.
    cbv zeta in Hb.
    destruct (iteration_body (world iteration) iteration st) as [st1| |];
      cbn [outcome_state] in *; try exact Hb.
    specialize (IH (iteration + 1) st1). cbv zeta in IH.
    destruct Hb as (B1 & B2 & B3 & B4 & B5 & B6 & B7 & B8).
    destruct IH as (I1 & I2 & I3 & I4 & I5 & I6 & I7 & I8).
    rewrite I3, I4, I5, I6, I7, I8.
    repeat split; try assumption; lia.
Qed.

(** X2: every call of the model client is recorded by one prompt size
    and one latency, also when the call fails: after any run the two
    slices have grown by the number of calls. *)
Theorem metrics_record_every_call (world : World) (j : ExecutionJob) :
  let st := RunCompilationJob world j in
  List.length (PromptSizes (Metrics (job st)))
  = (List.length (PromptSizes (Metrics j)) + llm_calls (trace st))%nat /\
  List.length (LLMResponseTimes (Metrics (job st)))
  = (List.length (LLMResponseTimes (Metrics j)) + llm_calls (trace st))%nat.
Proof.
  cbv zeta. unfold RunCompilationJob, run_body.
  pose proof (run_loop_frame world (Z.to_nat (MaxIterations j)) 1
                {| job := set_Status "running" j; trace := [] |}) as H.
  cbv zeta in H. destruct H as (H1 & H2 & _).
  cbn [trace llm_calls job set_Status Metrics] in H1, H2.
  destruct (run_loop _ _ _ _);
    cbn [deferred outcome_state trace on_job job set_Status set_AbortReason
         Metrics] in *; lia.
Qed.

(** X3: a run writes none of the fields a job is submitted with:
    identity, language, task, model, iteration cap and time budget. *)
Theorem submitted_fields_kept (world : World) (j : ExecutionJob) :
  let j' := job (RunCompilationJob world j) in
  ID j' = ID j /\ Language j' = Language j /\
  UserPrompt j' = UserPrompt j /\ Model j' = Model j /\
  MaxIterations j' = MaxIterations j /\ Timeout j' = Timeout j.
Proof.
  cbv zeta. unfold RunCompilationJob, run_body.
  pose proof (run_loop_frame world (Z.to_nat (MaxIterations j)) 1
                {| job := set_Status "running" j; trace := [] |}) as H.
  cbv zeta in H. destruct H as (_ & _ & H).
  cbn [job set_Status ID Language UserPrompt Model MaxIterations Timeout]
    in H.
  destruct (run_loop _ _ _ _);
    cbn [deferred outcome_state on_job job set_Status set_AbortReason
         ID Language UserPrompt Model MaxIterations Timeout] in *; exact H.
Qed.

(** ** How a pass and a run end *)

(** A pass that reaches a compile result has set the iteration count. *)
Lemma reached_iteration_count (env : IterEnv) (iteration : Z)
  (st st1 : State) (mainCode testCode : string)
  (result : CompilationResult) :
  generate_extract_compile env iteration st
  = Reached st1 mainCode testCode result ->
  IterationCount (Metrics (job st1)) = iteration /\
  mainCode <> "" /\
  AbortReason (job st1) = AbortReason (job st) /\
  FinalResult (job st1) = FinalResult (job st).
Proof.
  unfold generate_extract_compile, abort. intros H.
  branches H; try discriminate.
  injection H as <- <- _ _.
  repeat split; try reflexivity.
  now apply String.eqb_neq.
Qed.

(** The reasons an abort inside the loop can carry. *)
Lemma abort_reasons_closed (reason message : string) (st st' : State) :
  abort reason message st = Return st' ->
  Status (job st') = "aborted" /\
  AbortReason (job st') = reason /\
  FinalResult (job st') = FinalResult (job st) /\
  exists d,
    trace st' = (trace st ++ [EvAbort d])%list /\
    ab_Reason d = reason /\
    ab_Iteration d = IterationCount (Metrics (job st)) /\
    ab_LastError d = message.
Proof.
  unfold abort, sendAbortMessage. intros H. injection H as <-.
  repeat split. eexists. repeat split.
Qed.

Lemma abort_ends_with_abort (reason message : string) (st st' : State) :
  In reason loop_abort_reasons ->
  abort reason message st = Return st' ->
  ends_with_abort st'.
Proof.
  intros Hin H.
  destruct (abort_reasons_closed _ _ _ _ H)
    as (Hs & Hr & Hf & d & Ht & Hd & Hi & _).
  unfold ends_with_abort.
  rewrite Hs, Hr. repeat split; [exact Hin|].
  exists (trace st), d. repeat split; try assumption.
  rewrite Hi. unfold abort in H. injection H as <-. reflexivity.
Qed.

(** A pass that stops before the evaluation either aborts, with the
    abort message as its last act, or panics at the [nil] result of a
    backend that returned no error either (the sends are taken not to
    panic, see [emit]). *)
Lemma stopped_outcome (env : IterEnv) (iteration : Z) (st : State)
  (o : Outcome) :
  generate_extract_compile env iteration st = Stopped o ->
  (exists st', o = Return st' /\ ends_with_abort st' /\
               FinalResult (job st') = FinalResult (job st)) \/
  (exists st' mainCode testCode,
     o = Panic st' /\
     compileLanguage env (Language (job st)) mainCode testCode
     = (None, None)).
Proof.
  unfold generate_extract_compile. intros H.
  branches H; try discriminate; injection H as <-;
    try (left; eexists; split; [reflexivity|];
         split; [|reflexivity];
         eapply abort_ends_with_abort; [|reflexivity];
         cbn; tauto).
  right. do 3 eexists. split; [reflexivity|].
  cbn [job on_job Language set_Metrics set_LLMCtx] in *.
  eassumption.
Qed.

(** The evaluation of a compile result: a success completes the job; a
    failure aborts it or lets the loop go on, and then the failure is
    recorded and the guards have let it pass. *)
Lemma evaluated_outcome (iteration : Z) (st : State)
  (mainCode testCode : string) (result : CompilationResult) :
  let e := ErrorType_ result in
  match analyze_result iteration st mainCode testCode result with
  | Return st' =>
    (Success result = true /\ ends_with_completion st' /\
     FinalResult (job st') = Some result /\
     AbortReason (job st') = AbortReason (job st) /\
     IterationCount (Metrics (job st')) = IterationCount (Metrics (job st)))
    \/
    (Success result = false /\ ends_with_abort st' /\
     IterationCount (Metrics (job st')) = IterationCount (Metrics (job st)))
  | Continue st' =>
    Success result = false /\
    ErrorHistory (LLMCtx (job st'))
    = (ErrorHistory (LLMCtx (job st)) ++ [e])%list /\
    LastErrorType (Metrics (job st')) = e /\
    LastErrorMessage (LLMCtx (job st')) = Join (CompileErrors result) "; " /\
    IterationCount (Metrics (job st')) = IterationCount (Metrics (job st)) /\
    ((e = ErrorTypeInfrastructure /\ iteration < 2) \/
     (e <> ErrorTypeInfrastructure /\
      same_error_repeating (ErrorHistory (LLMCtx (job st'))) e = false /\
      iteration < MaxIterations (job st)))
  | Panic _ => False
  end.
Proof.
  cbv zeta. unfold analyze_result.
  destruct (Success result) eqn:Hs.
  - left. split; [reflexivity|]. split; [|repeat split].
    unfold ends_with_completion. split; [reflexivity|].
    eexists. eexists. exists result.
    split; [reflexivity|]. repeat split. exact Hs.
  - destruct (ErrorType_eqb (ErrorType_ result) ErrorTypeInfrastructure)
      eqn:Hi.
    + apply ErrorType_eqb_eq in Hi.
      destruct (iteration <? 2) eqn:Hit.
      * apply Z.ltb_lt in Hit. repeat split. left. now split.
      * right. split; [reflexivity|]. split; [|reflexivity].
        eapply abort_ends_with_abort; [|reflexivity]. cbn; tauto.
    + apply ErrorType_eqb_neq in Hi.
      match goal with
      | |- context [same_error_repeating ?h ?k] =>
        destruct (same_error_repeating h k) eqn:Hsame
      end.
      * right. split; [reflexivity|]. split; [|reflexivity].
        unfold ends_with_abort. split; [reflexivity|].
        split; [cbn; tauto|]. eexists. eexists.
        split; [reflexivity|]. split; reflexivity.
      * match goal with
        | |- context [MaxIterations ?j <=? iteration] =>
          destruct (MaxIterations j <=? iteration) eqn:Hcap
        end.
        -- right. split; [reflexivity|]. split; [|reflexivity].
           unfold ends_with_abort. split; [reflexivity|].
           split; [cbn; tauto|]. eexists. eexists.
           split; [reflexivity|]. split; reflexivity.
        -- apply Z.leb_gt in Hcap. repeat split. right.
           split; [exact Hi|]. split; [exact Hsame | exact Hcap].
Qed.

(** X4: the loop goes on to the next pass only after a compile result
    that is no success; the pass has then recorded the kind of that
    result as last entry of the error history and as last error type;
    either the kind is infrastructure and the pass is the first one, or
    the cap is not reached and the stuck-loop guard has not fired, so the
    history does not end in three equal kinds other than success and
    infrastructure. *)
Theorem loop_goes_on_only_after_failure (env : IterEnv) (iteration : Z)
  (st st' : State) :
  iteration_body env iteration st = Continue st' ->
  exists st1 mainCode testCode result,
    generate_extract_compile env iteration st
    = Reached st1 mainCode testCode result /\
    Success result = false /\
    ErrorHistory (LLMCtx (job st'))
    = (ErrorHistory (LLMCtx (job st)) ++ [ErrorType_ result])%list /\
    LastErrorType (Metrics (job st')) = ErrorType_ result /\
    IterationCount (Metrics (job st')) = iteration /\
    ((ErrorType_ result = ErrorTypeInfrastructure /\ iteration < 2) \/
     (ErrorType_ result <> ErrorTypeInfrastructure /\
      iteration < MaxIterations (job st))) /\
    (forall older k,
       ErrorHistory (LLMCtx (job st')) = (older ++ [k; k; k])%list ->
       k = ErrorTypeSuccess \/ k = ErrorTypeInfrastructure).
Proof.
  unfold iteration_body. intros H.
  destruct (generate_extract_compile env iteration st)
    as [o|st1 mainCode testCode result] eqn:Hg.
  - subst o. destruct (stopped_outcome _ _ _ _ Hg)
      as [(? & E & _)|(? & ? & ? & E & _)]; discriminate.
  - destruct (reached_preserves _ _ _ _ _ _ _ Hg) as [Hh Hm].
    destruct (reached_iteration_count _ _ _ _ _ _ _ Hg) as (Hc & _).
    pose proof (evaluated_outcome iteration st1 mainCode testCode result)
      as He.
    cbv zeta in He. rewrite H in He.
    destruct He as (Hs & Hhist & Hlast & _ & Hcount & Hwhy).
    exists st1, mainCode, testCode, result.
    rewrite Hhist, Hh, Hcount, Hc.
    repeat split; try assumption.
    + destruct Hwhy as [[Hi Hit]|(Hi & _ & Hit)]; [left|right];
        split; try assumption. now rewrite <- Hm.
    + intros older k Hk.
      assert (Ek : ErrorType_ result = k).
      { apply (f_equal (fun l => List.last l ErrorTypeUnknown)) in Hk.
        rewrite last_last in Hk.
        change (older ++ [k; k; k])%list
          with (older ++ [k; k] ++ [k])%list in Hk.
        rewrite !app_assoc, last_last in Hk. exact Hk. }
      destruct Hwhy as [[Hi _]|(_ & Hsame & _)].
      * right. congruence.
      * left. rewrite Hhist, Hh, Hk, Ek in Hsame.
        destruct k; try reflexivity;
          rewrite same_error_repeating_fires in Hsame; discriminate.
Qed.

Lemma loop_goes_on_only_after_failure_witness :
  exists st',
    iteration_body (world_of_kinds [ErrorTypeType] 1) 1
      {| job := fresh_job 3; trace := [] |} = Continue st' /\
    exists st1 mainCode testCode result,
      generate_extract_compile (world_of_kinds [ErrorTypeType] 1) 1
        {| job := fresh_job 3; trace := [] |}
      = Reached st1 mainCode testCode result /\
      Success result = false /\
      ErrorHistory (LLMCtx (job st'))
      = ([] ++ [ErrorType_ result])%list /\
      LastErrorType (Metrics (job st')) = ErrorType_ result /\
      IterationCount (Metrics (job st')) = 1 /\
      ((ErrorType_ result = ErrorTypeInfrastructure /\ 1 < 2) \/
       (ErrorType_ result <> ErrorTypeInfrastructure /\ 1 < 3)) /\
      (forall older k,
         ErrorHistory (LLMCtx (job st')) = (older ++ [k; k; k])%list ->
         k = ErrorTypeSuccess \/ k = ErrorTypeInfrastructure).
Proof.
  destruct (iteration_body (world_of_kinds [ErrorTypeType] 1) 1
              {| job := fresh_job 3; trace := [] |}) as [st'| |] eqn:H.
  - exists st'. split; [reflexivity|].
    exact (loop_goes_on_only_after_failure _ _ _ _ H).
  - vm_compute in H. discriminate.
  - vm_compute in H. discriminate.
Defined.








(** ** A backend that returns neither a result nor an error *)




(** ** Edge cases of a run *)

(** X7: with an iteration cap of zero or less no pass runs: nothing is
    sent and nobody is called, the job ends with status ["completed"] and
    reason ["unknown"], and its final result, its conversation context
    and its metrics are those it was submitted with. *)
Theorem no_pass_without_cap (world : World) (j : ExecutionJob) :
  MaxIterations j <= 0 ->
  let st := RunCompilationJob world j in
  trace st = [] /\
  Status (job st) = "completed" /\
  AbortReason (job st) = "unknown" /\
  FinalResult (job st) = FinalResult j /\
  LLMCtx (job st) = LLMCtx j /\
  Metrics (job st) = Metrics j.
Proof.
  intros Hcap. cbv zeta. unfold RunCompilationJob, run_body.
  replace (Z.to_nat (MaxIterations j)) with 0%nat by lia.
  repeat split.
Qed.

Lemma no_pass_without_cap_witness :
  let st := RunCompilationJob world_cancelled (fresh_job 0) in
  trace st = [] /\
  Status (job st) = "completed" /\
  AbortReason (job st) = "unknown" /\
  FinalResult (job st) = None /\
  LLMCtx (job st) = LLMCtx (fresh_job 0) /\
  Metrics (job st) = Metrics (fresh_job 0).
Proof.
  apply (no_pass_without_cap world_cancelled (fresh_job 0)). cbn. lia.
Defined.

Lemma unsupported_compile (env : IterEnv)
  (language mainCode testCode : string) :
  supported language = false ->
  compileLanguage env language mainCode testCode
  = (None, Some ("unsupported language: " ++ language)%string).
Proof.
  unfold supported, compileLanguage. intros H.
  apply orb_false_elim in H as [H Hc].
  apply orb_false_elim in H as [Hg Hp].
  now rewrite Hg, Hp, Hc.
Qed.

(** With a language that is none of the three, a pass ends in an abort
    of phases 1 to 3. *)
Lemma unsupported_pass (env : IterEnv) (iteration : Z) (st : State) :
  supported (Language (job st)) = false ->
  exists st',
    iteration_body env iteration st = Return st' /\
    ends_with_abort st' /\
    In (AbortReason (job st'))
       [ "user_cancelled"; "total_timeout"; "prompt_size_exceeded";
         "llm_error"; "empty_llm_response"; "extraction_failed";
         "compilation_failed" ] /\
    FinalResult (job st') = FinalResult (job st).
Proof.
  intros Hlang. unfold iteration_body.
  destruct (generate_extract_compile env iteration st)
    as [o|st1 mainCode testCode result] eqn:Hg.
  - unfold generate_extract_compile in Hg.
    branches Hg; try discriminate; injection Hg as <-;
      try (eexists; split; [reflexivity|];
           split; [eapply abort_ends_with_abort; [|reflexivity];
                   cbn; tauto|];
           split; [cbn; tauto | reflexivity]).
    exfalso.
    cbn [job on_job Language set_Metrics set_LLMCtx] in *.
    rewrite unsupported_compile in * by assumption. discriminate.
  - exfalso. unfold generate_extract_compile in Hg.
    branches Hg; try discriminate.
    cbn [job on_job Language set_Metrics set_LLMCtx] in *.
    rewrite unsupported_compile in * by assumption. discriminate.
Qed.

(** X8: a job in a language other than go, python and cpp ends in its
    first pass, aborted by one of the guards of phases 1 to 3 (at the
    latest with ["compilation_failed"], as [compileLanguage] rejects the
    language); no result is ever evaluated, and the model client is
    called at most once. *)
Theorem unsupported_language_aborts (world : World) (j : ExecutionJob) :
  supported (Language j) = false ->
  1 <= MaxIterations j ->
  exists st,
    run_body world j = Return st /\
    ends_with_abort st /\
    In (AbortReason (job st))
       [ "user_cancelled"; "total_timeout"; "prompt_size_exceeded";
         "llm_error"; "empty_llm_response"; "extraction_failed";
         "compilation_failed" ] /\
    FinalResult (job st) = FinalResult j /\
    (llm_calls (trace st) <= 1)%nat.
Proof.
  intros Hlang Hcap. unfold run_body.
  destruct (Z.to_nat (MaxIterations j)) as [|k] eqn:Hk; [lia|].
  cbn [run_loop].
  pose (st0 := {| job := set_Status "running" j; trace := [] |}).
  destruct (unsupported_pass (world 1) 1 st0 Hlang)
    as (st' & Hbody & Ha & Hr & Hf).
  pose proof (body_calls (world 1) 1 st0) as Hc. cbv zeta in Hc.
  fold st0. rewrite Hbody in *. cbn [outcome_state] in Hc.
  exists st'.
  split; [reflexivity|]. split; [exact Ha|]. split; [exact Hr|].
  split; [exact Hf|].
  subst st0. cbn [trace llm_calls] in Hc. lia.
Qed.

Lemma unsupported_language_aborts_witness :
  exists st,
    run_body (world_of_kinds []) job_rust = Return st /\
    ends_with_abort st /\
    In (AbortReason (job st))
       [ "user_cancelled"; "total_timeout"; "prompt_size_exceeded";
         "llm_error"; "empty_llm_response"; "extraction_failed";
         "compilation_failed" ] /\
    FinalResult (job st) = FinalResult job_rust /\
    (llm_calls (trace st) <= 1)%nat.
Proof.
  apply unsupported_language_aborts.
  - reflexivity.
  - cbn. lia.
Defined.

(** ** A first pass that succeeds *)

(** X9: the job is not cancelled and within its budget, the first prompt
    fits, the model answers without error, the extraction finds main
    code, and the backend returns a successful result: the run makes one
    model call and one compile call, sends the iteration message and then
    the completion message with the extracted code, and ends with status
    ["completed"], that result as final result, iteration count 1 and the
    abort reason it was submitted with. *)
Theorem first_pass_success (world : World) (j : ExecutionJob)
  (llmResponse : string) (updatedContext : list Z)
  (mainCode testCode strategy : string) (result : CompilationResult) :
  1 <= MaxIterations j ->
  ctx_done (world 1) = false ->
  elapsed (world 1) <= Timeout j ->
  snd (buildPrompt j 1) <= MaxPromptSize ->
  GetOllamaResponse (world 1) (fst (buildPrompt j 1))
    (ConversationTokens (LLMCtx j)) (Model j)
  = (llmResponse, updatedContext, None) ->
  llmResponse <> "" ->
  ExtractWithFallback NewExtractor llmResponse
  = (mainCode, testCode, strategy) ->
  mainCode <> "" ->
  compileLanguage (world 1) (Language j) mainCode testCode
  = (Some result, None) ->
  Success result = true ->
  let st := RunCompilationJob world j in
  Status (job st) = "completed" /\
  FinalResult (job st) = Some result /\
  AbortReason (job st) = AbortReason j /\
  IterationCount (Metrics (job st)) = 1 /\
  PromptHistory (LLMCtx (job st))
  = (PromptHistory (LLMCtx j) ++ [fst (buildPrompt j 1)])%list /\
  ConversationTokens (LLMCtx (job st)) = updatedContext /\
  exists d,
    trace st
    = [ EvLLMCall (fst (buildPrompt j 1)) (ConversationTokens (LLMCtx j))
          (Model j);
        EvCompile (Language j) mainCode testCode;
        EvIteration d;
        EvCompletion {| co_FinalStatus := "success";
                        co_TotalIterations := 1;
                        co_Code := mainCode;
                        co_Tests := testCode |} ] /\
    it_CompiledSuccessfully d = true /\
    it_MainCode d = mainCode /\ it_TestCode d = testCode.
Proof.
  intros Hcap Hctx Htime Hsize Hllm Hresp Hext Hmain Hcomp Hok.
  cbv zeta. unfold RunCompilationJob, run_body.
  destruct (Z.to_nat (MaxIterations j)) as [|k] eqn:Hk; [lia|].
  cbn [run_loop]. unfold iteration_body, generate_extract_compile.
  cbn [job trace on_job Timeout set_Status].
  rewrite Hctx.
  replace (Timeout j <? elapsed (world 1)) with false
    by (symmetry; apply Z.ltb_ge; exact Htime).
  change (buildPrompt (set_Metrics _ (set_Status "running" j)) 1)
    with (buildPrompt j 1).
  destruct (buildPrompt j 1) as [prompt promptSize].
  cbn [fst snd] in *.
  replace (MaxPromptSize <? promptSize) with false
    by (symmetry; apply Z.ltb_ge; exact Hsize).
  cbn [job on_job LLMCtx Model ConversationTokens set_Metrics set_Status].
  rewrite Hllm.
  apply String.eqb_neq in Hresp, Hmain. rewrite Hresp, Hext, Hmain.
  cbn [job on_job emit Language set_Metrics set_LLMCtx set_Status].
  rewrite Hcomp. unfold analyze_result. rewrite Hok.
  cbn. repeat split. eexists. repeat split. exact Hok.
Qed.

Lemma first_pass_success_witness :
  Status (job (RunCompilationJob (world_of_kinds []) (fresh_job 3)))
  = "completed" /\
  FinalResult (job (RunCompilationJob (world_of_kinds []) (fresh_job 3)))
  = Some success.
Proof.
  destruct (first_pass_success (world_of_kinds []) (fresh_job 3)
              reply_go []
              ("package main" ++ nl
               ++ "func Double(x int) int { return 2 * x }")%string
              ("package main" ++ nl ++ "import " ++ dq ++ "testing" ++ dq
               ++ nl ++ "func TestDouble(t *testing.T) {}")%string
              "standard_format" success)
    as (H1 & H2 & _);
    try (vm_compute; reflexivity);
    try (vm_compute; discriminate).
  split; assumption.
Defined.

(** ** The two histories *)

(** Guards and phases 1 to 3 leave the error history alone; a prompt is
    appended to the prompt history when the model client has answered it
    without error and not with the empty string.  A call that is not
    recorded has failed, and the pass ends without another call. *)
Lemma generate_extract_compile_history (env : IterEnv) (iteration : Z)
  (st : State) :
  let recorded (st' : State) :=
    exists p,
      PromptHistory (LLMCtx (job st'))
      = (PromptHistory (LLMCtx (job st)) ++ [p])%list /\
      llm_prompts (trace st') = (llm_prompts (trace st) ++ [p])%list in
  match generate_extract_compile env iteration st with
  | Stopped o =>
    ErrorHistory (LLMCtx (job (outcome_state o)))
    = ErrorHistory (LLMCtx (job st)) /\
    (recorded (outcome_state o) \/
     (PromptHistory (LLMCtx (job (outcome_state o)))
      = PromptHistory (LLMCtx (job st)) /\
      (llm_prompts (trace (outcome_state o)) = llm_prompts (trace st) \/
       exists p,
         llm_prompts (trace (outcome_state o))
         = (llm_prompts (trace st) ++ [p])%list /\
         ends_with_failed_call env (Model (job st)) p (outcome_state o))))
  | Reached st1 _ _ _ =>
    ErrorHistory (LLMCtx (job st1)) = ErrorHistory (LLMCtx (job st)) /\
    recorded st1
  end.
Proof.
  cbv zeta.
  unfold generate_extract_compile, abort, sendAbortMessage.
  goal_branches;
    cbn [outcome_state trace emit on_job job LLMCtx PromptHistory
         ErrorHistory set_Metrics set_LLMCtx set_Status set_AbortReason
         set_PromptHistory set_ConversationTokens];
    rewrite ?llm_prompts_app; cbn [llm_prompts]; rewrite ?app_nil_r;
    (split; [reflexivity|]);
    first [ right; split; [reflexivity|]; left; reflexivity
          | left; eexists; split; reflexivity
          | eexists; split; reflexivity
          | idtac ];
    right; (split; [reflexivity|]); right; eexists;
    (split; [reflexivity|]);
    unfold ends_with_failed_call;
    cbn [trace job emit on_job];
    do 3 eexists;
    (split; [exact (eq_sym (List.app_assoc _ [_] [_]))|]);
    unfold call_failed;
    match goal with
    | H : GetOllamaResponse _ _ _ _ = _ |- _ =>
      cbn [job on_job LLMCtx Model ConversationTokens set_Metrics] in H;
      rewrite H
    end;
    (split; [|split; reflexivity]);
    first [ left; discriminate | right; now apply String.eqb_eq ].
Qed.

(** Phases 4 and 5 append at most one kind to the error history. *)
Lemma analyze_result_history (iteration : Z) (st : State)
  (mainCode testCode : string) (result : CompilationResult) :
  let st' :=
    outcome_state (analyze_result iteration st mainCode testCode result) in
  ErrorHistory (LLMCtx (job st')) = ErrorHistory (LLMCtx (job st)) \/
  ErrorHistory (LLMCtx (job st'))
  = (ErrorHistory (LLMCtx (job st)) ++ [ErrorType_ result])%list.
Proof.
  cbv zeta.
  unfold analyze_result, abort, sendAbortMessage, sendIterationMessage,
    sendCompletionMessage.
  goal_branches; first [left; reflexivity | right; reflexivity].
Qed.

(** One pass and the two histories. *)
Lemma body_history (env : IterEnv) (iteration : Z) (st : State) :
  let o := iteration_body env iteration st in
  let st' := outcome_state o in
  (exists errs,
     ErrorHistory (LLMCtx (job st'))
     = (ErrorHistory (LLMCtx (job st)) ++ errs)%list /\
     (List.length errs + compile_calls (trace st)
      <= compile_calls (trace st'))%nat) /\
  ((exists p,
      PromptHistory (LLMCtx (job st'))
      = (PromptHistory (LLMCtx (job st)) ++ [p])%list /\
      llm_prompts (trace st') = (llm_prompts (trace st) ++ [p])%list) \/
   ((forall st2, o <> Continue st2) /\
    PromptHistory (LLMCtx (job st')) = PromptHistory (LLMCtx (job st)) /\
    (llm_prompts (trace st') = llm_prompts (trace st) \/
     exists p,
       llm_prompts (trace st') = (llm_prompts (trace st) ++ [p])%list /\
       ends_with_failed_call env (Model (job st)) p st'))).
Proof.
  cbv zeta. unfold iteration_body.
  pose proof (generate_extract_compile_history env iteration st) as Hh.
  pose proof (generate_extract_compile_calls env iteration st) as Hc.
  cbv zeta in Hh.
  destruct (generate_extract_compile env iteration st)
    as [o|st1 mainCode testCode result].
  - destruct Hh as [He Hp]. destruct Hc as (_ & Hc & _ & Hn).
    split.
    + exists []. rewrite app_nil_r. split; [exact He | cbn; lia].
    + destruct Hp as [Hp|[Hp Hq]]; [left; exact Hp|].
      right. split; [exact Hn|]. split; assumption.
  - destruct Hh as [He (p & Hp & Hq)]. destruct Hc as [_ Hc].
    destruct (analyze_result_calls iteration st1 mainCode testCode result)
      as (_ & Ac & Ap).
    destruct (analyze_result_frame iteration st1 mainCode testCode result)
      as (_ & _ & Af & _).
    split.
    + destruct (analyze_result_history iteration st1 mainCode testCode
                  result) as [Hs|Hs]; rewrite Hs, He, Ac, Hc.
      * exists []. rewrite app_nil_r. split; [reflexivity | cbn; lia].
      * eexists. split; [reflexivity | cbn; lia].
    + left. exists p. rewrite Af, Ap. split; assumption.
Qed.

(** The loop and the two histories. *)
Lemma run_loop_history (world : World) (model : string) (remaining : nat)
  (iteration : Z) (st : State) :
  Model (job st) = model ->
  let o := run_loop world remaining iteration st in
  let st' := outcome_state o in
  (exists errs,
     ErrorHistory (LLMCtx (job st'))
     = (ErrorHistory (LLMCtx (job st)) ++ errs)%list /\
     (List.length errs + compile_calls (trace st)
      <= compile_calls (trace st'))%nat) /\
  (exists ps,
     PromptHistory (LLMCtx (job st'))
     = (PromptHistory (LLMCtx (job st)) ++ ps)%list /\
     (llm_prompts (trace st') = (llm_prompts (trace st) ++ ps)%list \/
      exists p i,
        llm_prompts (trace st')
        = (llm_prompts (trace st) ++ ps ++ [p])%list /\
        ends_with_failed_call (world i) model p st')).
Proof.
  revert iteration st.
  induction remaining as [|k IH]; intros iteration st Hmodel; cbv zeta.
  - cbn [run_loop outcome_state trace on_job job LLMCtx set_AbortReason
         set_Status].
    split; exists []; rewrite !app_nil_r; split;
      [reflexivity | cbn; lia | reflexivity | left; reflexivity].
  - cbn [run_loop].
    pose proof (body_history (world iteration) iteration st) as Hb.
    pose proof (body_frame (world iteration) iteration st) as Hf.
    cbv zeta in Hb, Hf. destruct Hb as [(errs & He & Hn) Hp].
    destruct Hf as (_ & _ & _ & _ & _ & Hm & _).
    rewrite Hmodel in Hp.
    destruct (iteration_body (world iteration) iteration st) as [st1|st1|st1];
      cbn [outcome_state] in *.
    + specialize (IH (iteration + 1) st1). cbv zeta in IH.
      destruct IH as [(errs2 & He2 & Hn2) (ps2 & Hp2 & Hq2)];
        [now rewrite Hm|].
      destruct Hp as [(p & Hp & Hq)|(Hno & _)];
        [|exfalso; exact (Hno st1 eq_refl)].
      split.
      * exists (errs ++ errs2)%list. rewrite He2, He, <- app_assoc.
        split; [reflexivity|]. rewrite length_app. lia.
      * exists ([p] ++ ps2)%list. rewrite Hp2, Hp, <- !app_assoc.
        split; [reflexivity|]. rewrite Hq in Hq2.
        destruct Hq2 as [Hq2|(q & i & Hq2 & Hfail)].
        -- left. rewrite Hq2, <- !app_assoc. reflexivity.
        -- right. exists q, i. rewrite Hq2, <- !app_assoc.
           split; [reflexivity | exact Hfail].
    + split; [exists errs; now split|].
      destruct Hp as [(p & Hp & Hq)|(_ & Hp & Hq)].
      * exists [p]. split; [exact Hp | left; exact Hq].
      * exists []. cbn [app]. rewrite !app_nil_r. split; [exact Hp|].
        destruct Hq as [Hq|(q & Hq & Hfail)]; [left; exact Hq|].
        right. exists q, iteration. split; [exact Hq | exact Hfail].
    + split; [exists errs; now split|].
      destruct Hp as [(p & Hp & Hq)|(_ & Hp & Hq)].
      * exists [p]. split; [exact Hp | left; exact Hq].
      * exists []. cbn [app]. rewrite !app_nil_r. split; [exact Hp|].
        destruct Hq as [Hq|(q & Hq & Hfail)]; [left; exact Hq|].
        right. exists q, iteration. split; [exact Hq | exact Hfail].
Qed.

(** X10: the prompt history of a job grows by the prompts the model
    client was called with, in order.  One prompt only can be missing:
    that of the last call, and only when this call returned an error or
    the empty string; the job then calls neither the model client nor a
    backend again. *)
Theorem prompt_history_records_calls (world : World) (j : ExecutionJob) :
  let st := RunCompilationJob world j in
  exists ps,
    PromptHistory (LLMCtx (job st))
    = (PromptHistory (LLMCtx j) ++ ps)%list /\
    (llm_prompts (trace st) = ps \/
     exists p i,
       llm_prompts (trace st) = (ps ++ [p])%list /\
       ends_with_failed_call (world i) (Model j) p st).
Proof.
  cbv zeta. unfold RunCompilationJob, run_body.
  pose proof (run_loop_history world (Model j) (Z.to_nat (MaxIterations j)) 1
                {| job := set_Status "running" j; trace := [] |} eq_refl)
    as H.
  cbv zeta in H. destruct H as [_ (ps & Hp & Hq)].
  cbn [trace llm_prompts job set_Status LLMCtx app] in Hp, Hq.
  exists ps.
  assert (Hd : forall o,
             trace (deferred o) = trace (outcome_state o) /\
             LLMCtx (job (deferred o)) = LLMCtx (job (outcome_state o)))
    by (intros [x|x|x]; split; reflexivity).
  destruct (Hd (run_loop world (Z.to_nat (MaxIterations j)) 1
                  {| job := set_Status "running" j; trace := [] |}))
    as [Ht Hl].
  rewrite Ht, Hl. split; [exact Hp|].
  destruct Hq as [Hq|(p & i & Hq & tokens & tr & rest & Hfail)].
  - left. exact Hq.
  - right. exists p, i. split; [exact Hq|].
    exists tokens, tr, rest. now rewrite Ht.
Qed.

(** X11: the error history of a job only grows, by at most one kind per
    compile call. *)
Theorem error_history_append_only (world : World) (j : ExecutionJob) :
  let st := RunCompilationJob world j in
  exists errs,
    ErrorHistory (LLMCtx (job st))
    = (ErrorHistory (LLMCtx j) ++ errs)%list /\
    (List.length errs <= compile_calls (trace st))%nat.
Proof.
  cbv zeta. unfold RunCompilationJob, run_body.
  pose proof (run_loop_history world (Model j) (Z.to_nat (MaxIterations j)) 1
                {| job := set_Status "running" j; trace := [] |} eq_refl)
    as H.
  cbv zeta in H. destruct H as [(errs & He & Hn) _].
  cbn [trace compile_calls job set_Status LLMCtx] in He, Hn.
  exists errs.
  destruct (run_loop _ _ _ _);
    cbn [deferred outcome_state trace on_job job set_Status set_AbortReason
         LLMCtx] in *; split; try assumption; lia.
Qed.

(** ** The prompt and the messages *)

Lemma take_length_exact (n : nat) (s : string) :
  (n <= String.length s)%nat -> String.length (take n s) = n.
Proof.
  revert s; induction n as [|n IH]; intros [|c s] H; simpl in *;
    try reflexivity; try lia.
  f_equal. apply IH. lia.
Qed.

Lemma truncate_length (s : string) (maxLen : Z) :
  0 <= maxLen -> len (truncate s maxLen) <= maxLen + 3.
Proof.
  intros Hm. unfold truncate, len.
  destruct (Z.of_nat (String.length s) <=? maxLen) eqn:Hle.
  - apply Z.leb_le in Hle. lia.
  - apply Z.leb_gt in Hle.
    rewrite ScanFacts.length_app, take_length_exact by lia.
    cbn [String.length]. lia.
Qed.

(** X12: [truncate] returns a text that fits as it is; a longer text is
    cut to its first [maxLen] bytes and marked with three dots, so the
    result has [maxLen + 3] bytes. *)
Theorem truncate_cuts (s : string) (maxLen : Z) :
  0 <= maxLen ->
  (len s <= maxLen -> truncate s maxLen = s) /\
  (maxLen < len s ->
   exists kept rest,
     s = kept ++ rest /\ len kept = maxLen /\
     truncate s maxLen = kept ++ "...") /\
  len (truncate s maxLen) <= maxLen + 3.
Proof.
  intros Hm. unfold truncate, len.
  destruct (Z.of_nat (String.length s) <=? maxLen) eqn:Hle.
  - apply Z.leb_le in Hle. split; [reflexivity|]. split; lia.
  - apply Z.leb_gt in Hle. split; [lia|]. split.
    + intros _. exists (take (Z.to_nat maxLen) s), (drop (Z.to_nat maxLen) s).
      split; [symmetry; apply take_drop|]. split; [|reflexivity].
      rewrite take_length_exact; lia.
    + rewrite ScanFacts.length_app, take_length_exact by lia.
      cbn [String.length]. lia.
Qed.

Lemma truncate_cuts_witness :
  len (truncate (repeat_x 600) 500) <= 500 + 3.
Proof.
  apply (truncate_cuts (repeat_x 600) 500). lia.
Defined.

Lemma ErrorType_String_length (e : ErrorType) :
  (String.length (ErrorType_String e) <= 14)%nat.
Proof. destruct e; cbn; lia. Qed.

Lemma formatInstructions_length (language : string) :
  (String.length (formatInstructions language) <= 314)%nat.
Proof.
  unfold formatInstructions.
  destruct (String.eqb language "go"); [vm_compute; lia|].
  destruct (String.eqb language "python"); [vm_compute; lia|].
  destruct (String.eqb language "cpp"); vm_compute; lia.
Qed.

(** X13: the prompt is at least as long as the task text, and longer by
    at most 947 bytes plus the digits of the iteration number: its size
    depends neither on the number of errors seen nor on the length of the
    diagnostics. *)
Theorem prompt_size_bounded (j : ExecutionJob) (iteration : Z) :
  len (UserPrompt j) <= snd (buildPrompt j iteration)
  <= len (UserPrompt j) + 947 + len (itoa (iteration - 1)).
Proof.
  unfold buildPrompt. cbn [snd].
  pose proof (formatInstructions_length (Language j)) as Hf.
  pose proof (ErrorType_String_length (LastErrorType (Metrics j))) as He.
  pose proof (truncate_length (LastErrorMessage (LLMCtx j)) 500) as Ht.
  specialize (Ht ltac:(lia)).
  unfold len in *.
  destruct ((1 <? iteration) && _);
    rewrite ?ScanFacts.length_app; cbn [String.length nl]; lia.
Qed.

(** X14: [ErrorType.String] on the underlying [int].  Two values have
    the same name exactly when they are equal or both lie outside the six
    constants with a [case] of their own (1 to 6): the six names are
    pairwise different, and ["unknown"] is the name of [ErrorTypeUnknown]
    and of every value that is no declared constant.  On the declared
    constants the names are those used throughout this development. *)
Theorem ErrorType_String_names (a b : Z) :
  (ErrorType_String_int a = ErrorType_String_int b <->
   a = b \/ ((a < 1 \/ 6 < a) /\ (b < 1 \/ 6 < b))) /\
  (forall e : ErrorType,
     ErrorType_String_int (ErrorType_value e) = ErrorType_String e).
Proof.
  split; [|intros e; destruct e; reflexivity].
  unfold ErrorType_String_int.
  repeat match goal with
         | |- context [?x =? ?k] => destruct (Z.eqb_spec x k)
         end;
    (split; [intros H; first [discriminate H | lia]
            | intros H; first [reflexivity | exfalso; lia]]).
Qed.

(** X15: when a pass reaches a compile result, it has appended the size
    of its prompt and the latency of its model call to the metrics, so
    the two index expressions of [sendIterationMessage] are in range, and
    the iteration message reports the values of this pass. *)
Theorem iteration_message_reports_pass (env : IterEnv) (iteration : Z)
  (st st1 : State) (mainCode testCode : string)
  (result : CompilationResult) :
  generate_extract_compile env iteration st
  = Reached st1 mainCode testCode result ->
  PromptSizes (Metrics (job st1))
  = (PromptSizes (Metrics (job st))
     ++ [snd (buildPrompt (job st) iteration)])%list /\
  LLMResponseTimes (Metrics (job st1))
  = (LLMResponseTimes (Metrics (job st)) ++ [llmTime env])%list /\
  sendIterationMessage iteration mainCode testCode result st1
  = emit (EvIteration
            {| it_Iteration := iteration;
               it_Status := "compiled";
               it_MainCode := mainCode;
               it_TestCode := testCode;
               it_CompilerOutput := Output result;
               it_CompiledSuccessfully := Success result;
               it_ErrorType := ErrorType_String (ErrorType_ result);
               it_PromptSize := snd (buildPrompt (job st) iteration);
               it_LLMResponseTime := Z.quot (llmTime env) 1000000 |}) st1.
Proof.
  unfold generate_extract_compile, abort. intros H.
  change (buildPrompt (job (on_job _ st)) iteration)
    with (buildPrompt (job st) iteration) in H.
  destruct (buildPrompt (job st) iteration) as [prompt promptSize].
  branches H; try discriminate.
  injection H as <- <- <- <-.
  unfold sendIterationMessage.
  cbn [job on_job emit Metrics PromptSizes LLMResponseTimes set_Metrics
       set_LLMCtx set_PromptSizes set_LLMResponseTimes set_IterationCount
       snd].
  rewrite !last_last. repeat split.
Qed.

Lemma iteration_message_reports_pass_witness :
  exists st1 mainCode testCode,
    generate_extract_compile (world_of_kinds [] 1) 1
      {| job := fresh_job 3; trace := [] |}
    = Reached st1 mainCode testCode success /\
    PromptSizes (Metrics (job st1)) = ([] ++ [354])%list.
Proof.
  destruct (generate_extract_compile (world_of_kinds [] 1) 1
              {| job := fresh_job 3; trace := [] |})
    as [o|st1 mainCode testCode result] eqn:H.
  - vm_compute in H. discriminate.
  - exists st1, mainCode, testCode.
    assert (E : result = success).
    { vm_compute in H. injection H as _ _ _ <-. reflexivity. }
    subst result. split; [reflexivity|].
    exact (proj1 (iteration_message_reports_pass _ _ _ _ _ _ _ H)).
Defined.

End RunFacts.
